(** * crypto_compare_project: staleness policy, fetch window, merge and storage

    A shallow embedding of [coin_project.py] and [database_manager.py].

    - Python exceptions are values of [exn]; a call returns a [result].
    - [datetime] is the number of microseconds since the epoch (naive local
      time, the time zone offset is not modelled); [timedelta] is the
      normalised triple CPython stores.
    - A float is a binary64 number, held as the rational it denotes, an
      infinity or a missing value; arithmetic rounds to the nearest float,
      ties to even. The sign of zero is not modelled.
    - pandas data frames are row-major tables of cells; the pandas calls the
      program makes ([merge], [melt], [pct_change], [to_sql], ...) are
      modelled after their documentation.
    - The SQLite connection is a committed catalogue plus the catalogue of
      the open transaction, when there is one. The connection is taken as
      open ([connect] has been called). Table and column names are the
      plain words the program writes: the statements are not parsed, type
      affinity is not modelled, and PRIMARY KEY is the one constraint.
    - [requests.get], [datetime.now] and [print] act on a world that is
      threaded through every call together with the connection; the world
      survives an exception.
    - [config.py] is not among the sources: the tracked symbols and the API
      key are parameters, as are the two timestamp conversions. *)

From Stdlib Require Import ZArith QArith Qround List String Ascii Bool Lia.
From Stdlib Require Import DecimalString.
From Stdlib Require PrimFloat FloatOps Uint63.
From stdpp Require Import base option gmap strings.
Import ListNotations.
Local Open Scope string_scope.
Local Open Scope list_scope.
Local Open Scope Z_scope.

(** ** Exceptions and results *)

Inductive exn : Type :=
| HTTPError (status : Z)          (* requests.exceptions.HTTPError *)
| ConnectionError                 (* requests.exceptions.ConnectionError *)
| JSONDecodeError
| KeyError (key : string)
| IndexError
| TypeError
| ValueError
| SqliteError (msg : string).     (* sqlite3.Error and its subclasses *)

Inductive result (A : Type) : Type :=
| Ok (a : A)
| Raise (e : exn).
Arguments Ok {A} a.
Arguments Raise {A} e.

#[export] Instance result_ret : MRet result := fun A a => Ok a.
#[export] Instance result_bind : MBind result := fun A B f m =>
  match m with
  | Ok a => f a
  | Raise e => Raise e
  end.
#[export] Instance result_fmap : FMap result := fun A B f m =>
  match m with
  | Ok a => Ok (f a)
  | Raise e => Raise e
  end.

(** ** JSON values, as [response.json()] returns them *)

#[warnings="-register-all"] Inductive json : Type :=
| JNull
| JBool (b : bool)
| JInt (z : Z)
| JFloat (q : Q)
| JStr (s : string)
| JArr (l : list json)
| JObj (l : list (string * json)).

(** ** datetime and timedelta *)

Definition datetime := Z.

Record timedelta : Type := mk_timedelta_raw
  { td_days : Z; td_seconds : Z; td_microseconds : Z }.

Definition us_per_second : Z := 1000000.
Definition us_per_day : Z := 86400 * us_per_second.

(** CPython normalises so that [0 <= seconds < 86400] and
    [0 <= microseconds < 1000000]; only [days] carries the sign. *)
Definition timedelta_of_us (us : Z) : timedelta :=
  let r := us mod us_per_day in
  {| td_days := us / us_per_day;
     td_seconds := r / us_per_second;
     td_microseconds := r mod us_per_second |}.

Definition timedelta_total_us (d : timedelta) : Z :=
  td_days d * us_per_day + td_seconds d * us_per_second + td_microseconds d.

(** [timedelta(days=d)], [timedelta(hours=h)] *)
Definition timedelta_days (d : Z) : timedelta := timedelta_of_us (d * us_per_day).
Definition timedelta_hours (h : Z) : timedelta :=
  timedelta_of_us (h * 3600 * us_per_second).

(** [a - b] on two datetimes, and [a - d] for a timedelta [d]. *)
Definition datetime_sub (a b : datetime) : timedelta := timedelta_of_us (a - b).
Definition datetime_sub_td (a : datetime) (d : timedelta) : datetime :=
  a - timedelta_total_us d.

(** [a > b] on timedeltas compares the triples lexicographically. *)
Definition timedelta_gtb (a b : timedelta) : bool :=
  if td_days a =? td_days b then
    if td_seconds a =? td_seconds b then td_microseconds b <? td_microseconds a
    else td_seconds b <? td_seconds a
  else td_days b <? td_days a.

(** ** Strings *)

(** [str(n)] for an integer. *)
Definition str_of_Z (z : Z) : string := NilZero.string_of_int (Z.to_int z).

Definition lower_ascii (c : ascii) : ascii :=
  let n := nat_of_ascii c in
  if (65 <=? n)%nat && (n <=? 90)%nat then ascii_of_nat (n + 32) else c.

(** [s.lower()], on ASCII letters. *)
Fixpoint lower (s : string) : string :=
  match s with
  | EmptyString => EmptyString
  | String c t => String (lower_ascii c) (lower t)
  end.

(** [sub in s] *)
Fixpoint contains (sub s : string) : bool :=
  String.prefix sub s ||
  match s with
  | EmptyString => false
  | String _ t => contains sub t
  end.

(** [s.replace(old, new)]: every occurrence, left to right, without
    overlap. [skip] counts the characters of a match still to be dropped.
    (Python inserts [new] between all characters when [old] is empty; the
    program only replaces non-empty literals and the model returns [s].) *)
Fixpoint replace_from (skip : nat) (old new s : string) : string :=
  match s with
  | EmptyString => EmptyString
  | String c t =>
      match skip with
      | S k => replace_from k old new t
      | O =>
          if String.prefix old s
          then new +:+ replace_from (String.length old - 1) old new t
          else String c (replace_from 0 old new t)
      end
  end.

Definition str_replace (old new s : string) : string :=
  match old with
  | EmptyString => s
  | _ => replace_from 0 old new s
  end.

(** ** pandas: cells and data frames *)

(** A cell: [CNull] is the missing value (None, NaN, NaT); a float is a
    binary64 number, held as the rational it denotes, or an infinity;
    [CDate] is a [datetime64]/[Timestamp]; [CObj] is a list or a dict. *)
Inductive cell : Type :=
| CNull
| CNum (q : Q)
| CInf (neg : bool)
| CStr (s : string)
| CDate (d : datetime)
| CObj (j : json).                (* any other Python object *)

Definition isnull (c : cell) : bool :=
  match c with CNull => true | _ => false end.

Definition Qneg_b (q : Q) : bool := negb (Qle_bool 0 q).

(** The binary64 number nearest to [q], ties to even: 53 significant bits,
    the least exponent of a unit in the last place is -1074 (subnormal
    numbers), and a result of magnitude 2^1024 or more is an infinity. *)
Definition round64 (q : Q) : cell :=
  let n := Qnum q in
  let d := Zpos (Qden q) in
  if n =? 0 then CNum 0 else
  let a := Z.abs n in
  let e0 := Z.log2 a - Z.log2 d in
  let ge := if 0 <=? e0 then d * 2 ^ e0 <=? a else d <=? a * 2 ^ (- e0) in
  let e := if ge then e0 else e0 - 1 in           (* 2^e <= |q| < 2^(e+1) *)
  let k := Z.max (e - 52) (-1074) in              (* the unit in the last place *)
  let num := a * 2 ^ Z.max (- k) 0 in
  let den := d * 2 ^ Z.max k 0 in                 (* |q| / 2^k = num / den *)
  let m0 := num / den in
  let r := num mod den in
  let m := if (den <? 2 * r) || ((den =? 2 * r) && Z.odd m0) then m0 + 1 else m0 in
  if (971 <? k) || ((k =? 971) && (m =? 2 ^ 53)) then CInf (n <? 0)
  else CNum (Qred (inject_Z (Z.sgn n * m) * Qpower 2 k)).

(** Float division, subtraction and multiplication: the exact result
    rounded to binary64, with the IEEE special cases (the sign of zero is
    not modelled: a zero divisor counts as +0). A string, timestamp or
    container operand is a [TypeError]. *)
Definition cell_div (a b : cell) : result cell :=
  match a, b with
  | CStr _, _ | _, CStr _ | CDate _, _ | _, CDate _
  | CObj _, _ | _, CObj _ => Raise TypeError
  | CNull, _ | _, CNull => Ok CNull
  | CNum x, CNum y =>
      if Qeq_bool y 0
      then (if Qeq_bool x 0 then Ok CNull else Ok (CInf (Qneg_b x)))
      else Ok (round64 (x / y))
  | CInf s, CNum y => Ok (CInf (xorb s (Qneg_b y)))
  | CNum _, CInf _ => Ok (CNum 0)
  | CInf _, CInf _ => Ok CNull
  end.

Definition cell_sub (a b : cell) : result cell :=
  match a, b with
  | CStr _, _ | _, CStr _ | CDate _, _ | _, CDate _
  | CObj _, _ | _, CObj _ => Raise TypeError
  | CNull, _ | _, CNull => Ok CNull
  | CNum x, CNum y => Ok (round64 (x - y))
  | CInf s, CNum _ => Ok (CInf s)
  | CNum _, CInf s => Ok (CInf (negb s))
  | CInf s, CInf t => if Bool.eqb s t then Ok CNull else Ok (CInf s)
  end.

Definition cell_mul (a b : cell) : result cell :=
  match a, b with
  | CStr _, _ | _, CStr _ | CDate _, _ | _, CDate _
  | CObj _, _ | _, CObj _ => Raise TypeError
  | CNull, _ | _, CNull => Ok CNull
  | CNum x, CNum y => Ok (round64 (x * y))
  | CInf s, CNum y | CNum y, CInf s =>
      if Qeq_bool y 0 then Ok CNull else Ok (CInf (xorb s (Qneg_b y)))
  | CInf s, CInf t => Ok (CInf (xorb s t))
  end.

(** The kernel's binary64 numbers as cells, to compare [round64] with the
    arithmetic of the machine. *)
Definition cell_of_float (f : PrimFloat.float) : cell :=
  match FloatOps.Prim2SF f with
  | SpecFloat.S754_zero _ => CNum 0
  | SpecFloat.S754_finite s m e =>
      CNum (Qred (inject_Z (if s then Z.neg m else Z.pos m) * Qpower 2 e))
  | SpecFloat.S754_infinity s => CInf s
  | SpecFloat.S754_nan => CNull
  end.

Definition float_of_Z (z : Z) : PrimFloat.float :=
  if z <? 0 then PrimFloat.opp (PrimFloat.of_uint63 (Uint63.of_Z (- z)))
  else PrimFloat.of_uint63 (Uint63.of_Z z).

(** [z * 2^e] as a float, for [z] of at most 53 bits. *)
Definition float_scaled (ze : Z * Z) : PrimFloat.float :=
  PrimFloat.ldshiftexp (float_of_Z (fst ze)) (Uint63.of_Z (snd ze + 2101)).

Definition cell_same (a b : result cell) : bool :=
  match a, b with
  | Ok CNull, Ok CNull => true
  | Ok (CNum x), Ok (CNum y) => Qeq_bool x y
  | Ok (CInf s), Ok (CInf t) => Bool.eqb s t
  | _, _ => false
  end.

(** One operation on two floats, by the cells and by the machine. *)
Definition agrees (op : cell -> cell -> result cell)
    (fop : PrimFloat.float -> PrimFloat.float -> PrimFloat.float)
    (xy : (Z * Z) * (Z * Z)) : bool :=
  let x := float_scaled (fst xy) in
  let y := float_scaled (snd xy) in
  cell_same (op (cell_of_float x) (cell_of_float y)) (Ok (cell_of_float (fop x y))).

Record DataFrame : Type := mk_df
  { df_columns : list string; df_rows : list (list cell) }.

(** [pd.DataFrame()] *)
Definition df_new : DataFrame := mk_df [] [].

(** [df.empty]: some axis has length zero. *)
Definition df_empty (df : DataFrame) : bool :=
  match df_columns df, df_rows df with
  | [], _ | _, [] => true
  | _, _ => false
  end.

Fixpoint index_of (name : string) (l : list string) : option nat :=
  match l with
  | [] => None
  | c :: t => if String.eqb c name then Some O else S <$> index_of name t
  end.

Definition row_get (i : nat) (r : list cell) : cell := nth i r CNull.

(** [df[name]] *)
Definition df_get (name : string) (df : DataFrame) : result (list cell) :=
  match index_of name (df_columns df) with
  | Some i => Ok (map (row_get i) (df_rows df))
  | None => Raise (KeyError name)
  end.

Fixpoint list_set {A} (i : nat) (x : A) (l : list A) : list A :=
  match l, i with
  | [], _ => []
  | _ :: t, O => x :: t
  | h :: t, S k => h :: list_set k x t
  end.

Fixpoint list_remove {A} (i : nat) (l : list A) : list A :=
  match l, i with
  | [], _ => []
  | _ :: t, O => t
  | h :: t, S k => h :: list_remove k t
  end.

(** [df[name] = values] with one value per row: an existing column is
    overwritten, a new one is appended on the right. *)
Definition df_set (name : string) (values : list cell) (df : DataFrame) : DataFrame :=
  match index_of name (df_columns df) with
  | Some i =>
      mk_df (df_columns df)
            (map (fun rv => list_set i (snd rv) (fst rv)) (combine (df_rows df) values))
  | None =>
      mk_df (df_columns df ++ [name])
            (map (fun rv => fst rv ++ [snd rv]) (combine (df_rows df) values))
  end.

(** [df.drop(name, axis=1)] *)
Definition df_drop (name : string) (df : DataFrame) : result DataFrame :=
  match index_of name (df_columns df) with
  | Some i => Ok (mk_df (list_remove i (df_columns df)) (map (list_remove i) (df_rows df)))
  | None => Raise (KeyError name)
  end.

(** [pd.DataFrame({'Date': timestamps, column_name: values})], the two
    lists given as one list of pairs. *)
Definition series_df (column_name : string) (s : list (datetime * cell)) : DataFrame :=
  mk_df ["Date"; column_name] (map (fun tv => [CDate (fst tv); snd tv]) s).

(** *** [Series.pct_change] *)

(** Forward fill, the [fill_method='pad'] that older pandas applies before
    the division; [last] is the most recent non-null value. *)
Fixpoint ffill (last : cell) (l : list cell) : list cell :=
  match l with
  | [] => []
  | c :: t => let c' := if isnull c then last else c in c' :: ffill c' t
  end.

(** [data / data.shift(1) - 1], row by row; [prev] is the shifted value
    (missing for the first row). *)
Fixpoint pct_from (prev : cell) (l : list cell) : result (list cell) :=
  match l with
  | [] => Ok []
  | c :: t =>
      q ← cell_div c prev;
      r ← cell_sub q (CNum 1);
      rest ← pct_from c t;
      Ok (r :: rest)
  end.

Definition pct_change (pad : bool) (col : list cell) : result (list cell) :=
  pct_from CNull (if pad then ffill CNull col else col).

(** [series * k] *)
Definition series_mul (col : list cell) (k : Q) : result (list cell) :=
  mapM (fun c => cell_mul c (CNum k)) col.

(** *** [pd.merge(left, right, on=key, how='outer')] *)

Definition cell_eqb (a b : cell) : bool :=
  match a, b with
  | CNull, CNull => true
  | CNum x, CNum y => Qeq_bool x y
  | CInf s, CInf t => Bool.eqb s t
  | CStr s, CStr t => String.eqb s t
  | CDate x, CDate y => x =? y
  | _, _ => false
  end.

(** The order join keys are sorted in: floats, then strings, then
    timestamps, missing keys last. *)
Definition cell_rank (c : cell) : Z :=
  match c with
  | CNum _ | CInf _ => 0
  | CStr _ => 1
  | CDate _ => 2
  | CObj _ => 3
  | CNull => 4
  end.

Definition cell_ltb (a b : cell) : bool :=
  match a, b with
  | CNum x, CNum y => negb (Qle_bool y x)
  | CInf s, CNum _ => s
  | CNum _, CInf t => negb t
  | CInf s, CInf t => s && negb t
  | CStr s, CStr t => String.ltb s t
  | CDate x, CDate y => x <? y
  | _, _ => cell_rank a <? cell_rank b
  end.

Fixpoint insert_key (k : cell) (l : list cell) : list cell :=
  match l with
  | [] => [k]
  | h :: t =>
      if cell_eqb k h then l
      else if cell_ltb k h then k :: l
      else h :: insert_key k t
  end.

(** The distinct keys of both sides, sorted. *)
Definition sort_keys (l : list cell) : list cell := fold_right insert_key [] l.

Definition nulls (n : nat) : list cell := repeat CNull n.

(** Columns other than the key that both sides have get a suffix. *)
Definition suffixed (cols others : list string) (sfx : string) : list string :=
  map (fun c => if existsb (String.eqb c) others then c +:+ sfx else c) cols.

(** The rows of the result for one key [k]: the product of the rows that
    carry [k] on each side, or the rows of the one side that has it, padded
    with nulls. [i] and [j] are the positions of the key column. *)
Definition join_key (i j : nat) (l r : DataFrame) (k : cell) : list (list cell) :=
  let lm := List.filter (fun row => cell_eqb (row_get i row) k) (df_rows l) in
  let rm := List.filter (fun row => cell_eqb (row_get j row) k) (df_rows r) in
  match lm, rm with
  | [], _ =>
      map (fun b => list_set i k (nulls (length (df_columns l))) ++ list_remove j b) rm
  | _, [] =>
      map (fun a => a ++ nulls (length (df_columns r) - 1)) lm
  | _, _ =>
      flat_map (fun a => map (fun b => a ++ list_remove j b) rm) lm
  end.

Definition pd_merge_outer (on : string) (l r : DataFrame) : result DataFrame :=
  match index_of on (df_columns l), index_of on (df_columns r) with
  | Some i, Some j =>
      let lcols := list_remove i (df_columns l) in
      let rcols := list_remove j (df_columns r) in
      let keys := sort_keys (map (row_get i) (df_rows l) ++ map (row_get j) (df_rows r)) in
      Ok (mk_df (suffixed (df_columns l) rcols "_x" ++ suffixed rcols lcols "_y")
                (flat_map (join_key i j l r) keys))
  | _, _ => Raise (KeyError on)
  end.

(** *** [df.melt(id_vars=[id], var_name=.., value_name=..)] *)

Definition enumerate {A} (l : list A) : list (nat * A) :=
  combine (seq 0 (length l)) l.

Definition df_melt (id var_name value_name : string) (df : DataFrame)
  : result DataFrame :=
  match index_of id (df_columns df) with
  | None => Raise (KeyError id)
  | Some i =>
      let value_cols :=
        List.filter (fun p => negb (Nat.eqb (fst p) i)) (enumerate (df_columns df)) in
      Ok (mk_df [id; var_name; value_name]
            (flat_map (fun p =>
               map (fun row => [row_get i row; CStr (snd p); row_get (fst p) row])
                   (df_rows df)) value_cols))
  end.

(** *** Column conversions *)

(** [series.str.replace(old, new)]: cells that are not strings become
    missing. *)
Definition series_str_replace (old new : string) (col : list cell) : list cell :=
  map (fun c => match c with CStr s => CStr (str_replace old new s) | _ => CNull end) col.

(** [series.astype(str)], on the string columns the program applies it
    to; the rendering of other cells is not modelled. *)
Definition astype_str (col : list cell) : list cell := col.

(** [series.astype(float)]: a string that does not spell a number is a
    [ValueError] (strings that do are not modelled). *)
Definition astype_float (col : list cell) : result (list cell) :=
  mapM (fun c => match c with
                 | CNull | CNum _ | CInf _ => Ok c
                 | CStr _ => Raise ValueError
                 | CDate _ | CObj _ => Raise TypeError
                 end) col.

(** [series.astype('datetime64[ns]')] (date strings are not modelled). *)
Definition astype_datetime (col : list cell) : result (list cell) :=
  mapM (fun c => match c with
                 | CNull | CDate _ => Ok c
                 | CStr _ => Raise ValueError
                 | CNum _ | CInf _ | CObj _ => Raise TypeError
                 end) col.

Inductive dtype : Type := Float64 | Datetime64 | Object.

Definition is_float (c : cell) : bool :=
  match c with CNum _ | CInf _ => true | _ => false end.
Definition is_date (c : cell) : bool :=
  match c with CDate _ => true | _ => false end.

(** The dtype pandas infers for a column. *)
Definition column_dtype (col : list cell) : dtype :=
  if forallb (fun c => is_float c || isnull c) col && existsb is_float col then Float64
  else if forallb (fun c => is_date c || isnull c) col && existsb is_date col then Datetime64
  else Object.

Definition df_dtypes (df : DataFrame) : list dtype :=
  map (fun p => column_dtype (map (row_get (fst p)) (df_rows df)))
      (enumerate (df_columns df)).

(** ** requests *)

Record response : Type := mk_response
  { status_code : Z; body : option json }.

(** [response.raise_for_status()]: 4xx and 5xx raise. *)
Definition raise_for_status (r : response) : result unit :=
  if (400 <=? status_code r) && (status_code r <? 600)
  then Raise (HTTPError (status_code r))
  else Ok tt.

(** [response.json()] *)
Definition response_json (r : response) : result json :=
  match body r with
  | Some j => Ok j
  | None => Raise JSONDecodeError
  end.

Fixpoint assoc {A} (k : string) (l : list (string * A)) : option A :=
  match l with
  | [] => None
  | (k', v) :: t => if String.eqb k' k then Some v else assoc k t
  end.

(** [j[key]] for a string key. *)
Definition json_get (key : string) (j : json) : result json :=
  match j with
  | JObj l =>
      match assoc key l with
      | Some v => Ok v
      | None => Raise (KeyError key)
      end
  | _ => Raise TypeError
  end.

Fixpoint chars (s : string) : list json :=
  match s with
  | EmptyString => []
  | String c t => JStr (String c EmptyString) :: chars t
  end.

(** [for x in j]: the elements of a list, the keys of a dict, the
    characters of a string. *)
Definition json_iter (j : json) : result (list json) :=
  match j with
  | JArr l => Ok l
  | JObj l => Ok (map (fun kv => JStr (fst kv)) l)
  | JStr s => Ok (chars s)
  | _ => Raise TypeError
  end.

(** [datetime.fromtimestamp(j)]: seconds since the epoch (a fraction is
    cut to whole microseconds). *)
Definition fromtimestamp (j : json) : result datetime :=
  match j with
  | JInt z => Ok (z * us_per_second)
  | JBool b => Ok (if b then us_per_second else 0)
  | JFloat q => Ok (Qfloor (q * inject_Z us_per_second))
  | _ => Raise TypeError
  end.

(** The cell a JSON value becomes in a data frame. An integer counts as
    the float of the same value: the int64 dtype of pandas is not
    modelled. *)
Definition cell_of_json (j : json) : cell :=
  match j with
  | JNull => CNull
  | JBool b => CNum (if b then 1 else 0)
  | JInt z => CNum (inject_Z z)
  | JFloat q => CNum q
  | JStr s => CStr s
  | JArr _ | JObj _ => CObj j
  end.

(** [container[idx]] where the index is itself a JSON value. *)
Definition json_index (container idx : json) : result json :=
  match container, idx with
  | JObj _, JStr k => json_get k container
  | JObj _, _ => Raise (KeyError "")
  | JArr l, JInt i =>
      let n := Z.of_nat (length l) in
      let i' := if i <? 0 then i + n else i in
      if (0 <=? i') && (i' <? n) then Ok (nth (Z.to_nat i') l JNull)
      else Raise IndexError
  | _, _ => Raise TypeError
  end.

(** [str(j)] inside an f-string (the rendering of floats, lists and dicts
    is not modelled). *)
Definition py_str (j : json) : string :=
  match j with
  | JStr s => s
  | JNull => "None"
  | JBool b => if b then "True" else "False"
  | JInt z => str_of_Z z
  | JFloat _ | JArr _ | JObj _ => "?"
  end.

(** [df.sort_values(key)]: the rows sorted by the key, missing keys last.
    Rows with equal keys are kept in order here; pandas leaves their order
    open. *)
Fixpoint insert_row_sorted (i : nat) (row : list cell) (l : list (list cell))
  : list (list cell) :=
  match l with
  | [] => [row]
  | h :: t =>
      if cell_ltb (row_get i h) (row_get i row)
      then h :: insert_row_sorted i row t
      else row :: l
  end.

Definition df_sort_values (key : string) (df : DataFrame) : result DataFrame :=
  match index_of key (df_columns df) with
  | Some i => Ok (mk_df (df_columns df) (fold_right (insert_row_sorted i) [] (df_rows df)))
  | None => Raise (KeyError key)
  end.

(** ** SQLite *)

(** A stored value. A date is stored as the text [strftime] produces. *)
Inductive value : Type :=
| VNull
| VInt (z : Z)
| VNum (q : Q)
| VInf (neg : bool)
| VText (s : string).

(** A table: its columns (name, declared type) and its rows, one value per
    column. Declared types are kept as written (["TEXT PRIMARY KEY"]); type
    affinity is not modelled, a value is stored as given. Names are taken
    as given: the statements the program builds splice them in unquoted,
    and its own names are plain words. *)
Record table : Type := mk_table
  { t_columns : list (string * string); t_rows : list (list value) }.

(** The catalogue is keyed by table name. The program names its tables by
    lower-case literals, so the case-insensitive lookup of SQLite is not
    modelled for table names (it is for column names). *)
Abbreviation catalogue := (gmap string table).

(** A connection: the committed catalogue and, while a transaction is
    open, the catalogue as the transaction sees it. *)
Record connection : Type := mk_connection
  { committed : catalogue; pending : option catalogue }.

Definition current (c : connection) : catalogue :=
  match pending c with
  | Some p => p
  | None => committed c
  end.

(** [BEGIN], issued implicitly before an INSERT when no transaction is open. *)
Definition begin (c : connection) : connection :=
  match pending c with
  | Some _ => c
  | None => mk_connection (committed c) (Some (committed c))
  end.

(** [conn.commit()] and [conn.rollback()] *)
Definition commit (c : connection) : connection :=
  mk_connection (current c) None.
Definition rollback (c : connection) : connection :=
  mk_connection (committed c) None.

(** A statement that changes the catalogue: it takes effect at once in
    autocommit mode and inside the transaction when one is open. *)
Definition apply_stmt (f : catalogue -> catalogue) (c : connection) : connection :=
  match pending c with
  | Some p => mk_connection (committed c) (Some (f p))
  | None => mk_connection (f (committed c)) None
  end.

Definition ci_eqb (a b : string) : bool := String.eqb (lower a) (lower b).

Fixpoint ci_index_of (name : string) (l : list string) : option nat :=
  match l with
  | [] => None
  | c :: t => if ci_eqb c name then Some O else S <$> ci_index_of name t
  end.

Fixpoint ci_nodup (l : list string) : bool :=
  match l with
  | [] => true
  | c :: t => negb (existsb (ci_eqb c) t) && ci_nodup t
  end.

(** [CREATE TABLE IF NOT EXISTS name (columns)]: an empty column list is a
    syntax error; on a table that exists nothing else is checked and
    nothing changes; a new table must not name a column twice. *)
Definition sql_create_table (name : string) (columns : list (string * string))
    (c : connection) : result connection :=
  match columns with
  | [] => Raise (SqliteError "syntax error")
  | _ =>
      match current c !! name with
      | Some _ => Ok c
      | None =>
          if negb (ci_nodup (map fst columns))
          then Raise (SqliteError "duplicate column name")
          else Ok (apply_stmt (insert name (mk_table columns [])) c)
      end
  end.

(** [DROP TABLE IF EXISTS name], for the plain lower-case names the program
    gives its tables: the statement then cannot fail. Names that SQLite
    refuses or compares ignoring case are outside the model. *)
Definition sql_drop_table (name : string) (c : connection) : connection :=
  apply_stmt (delete name) c.

(** [SELECT name FROM sqlite_master WHERE type='table' AND name=..],
    [fetchone() is not None] *)
Definition sql_table_exists (name : string) (c : connection) : bool :=
  match current c !! name with
  | Some _ => true
  | None => false
  end.

(** [SELECT COUNT( * ) FROM name] *)
Definition sql_count (name : string) (c : connection) : result Z :=
  match current c !! name with
  | Some t => Ok (Z.of_nat (length (t_rows t)))
  | None => Raise (SqliteError "no such table")
  end.

(** The order of SQLite on stored values: numbers before text, numbers by
    value, text byte by byte. *)
Definition value_ltb (a b : value) : bool :=
  match a, b with
  | VNull, _ | _, VNull => false
  | VText s, VText t => String.ltb s t
  | VText _, _ => false
  | _, VText _ => true
  | VInf s, VInf t => s && negb t
  | VInf s, _ => s
  | _, VInf t => negb t
  | VInt x, VInt y => x <? y
  | VInt x, VNum y => negb (Qle_bool y (inject_Z x))
  | VNum x, VInt y => negb (Qle_bool (inject_Z y) x)
  | VNum x, VNum y => negb (Qle_bool y x)
  end.

(** The aggregate [MAX]: the greatest value that is not NULL, NULL when
    there is none. *)
Definition sql_max (l : list value) : value :=
  fold_left (fun acc v =>
               match acc, v with
               | _, VNull => acc
               | VNull, _ => v
               | _, _ => if value_ltb acc v then v else acc
               end) l VNull.

(** [SELECT MAX(date) FROM name] *)
Definition sql_max_date (name : string) (c : connection) : result value :=
  match current c !! name with
  | None => Raise (SqliteError "no such table")
  | Some t =>
      match ci_index_of "date" (map fst (t_columns t)) with
      | None => Raise (SqliteError "no such column: date")
      | Some i => Ok (sql_max (map (fun row => nth i row VNull) (t_rows t)))
      end
  end.

Definition is_primary_key (ty : string) : bool := contains "PRIMARY KEY" ty.
Definition is_rowid (ty : string) : bool :=
  String.prefix "INTEGER" ty && is_primary_key ty.

Definition value_eqb (a b : value) : bool :=
  match a, b with
  | VInt x, VInt y => x =? y
  | VInt x, VNum y | VNum y, VInt x => Qeq_bool (inject_Z x) y
  | VNum x, VNum y => Qeq_bool x y
  | VInf s, VInf t => Bool.eqb s t
  | VText s, VText t => String.eqb s t
  | _, _ => false
  end.

Definition column_values (i : nat) (rows : list (list value)) : list value :=
  map (fun row => nth i row VNull) rows.

(** The next key of an INTEGER PRIMARY KEY column: one more than the
    largest key in use (rows are never deleted one by one, so AUTOINCREMENT
    gives the same). *)
Definition next_rowid (i : nat) (rows : list (list value)) : Z :=
  1 + fold_right (fun v m => match v with VInt z => Z.max z m | _ => m end)
                 0 (column_values i rows).

(** The stored row for one INSERT: the given values under their columns,
    NULL elsewhere, a fresh key under an INTEGER PRIMARY KEY left NULL. *)
Definition build_row (t : table) (icols : list string) (vals : list value)
  : list value :=
  map (fun p =>
         let v := match ci_index_of (fst (snd p)) icols with
                  | Some k => nth k vals VNull
                  | None => VNull
                  end in
         match v with
         | VNull => if is_rowid (snd (snd p))
                    then VInt (next_rowid (fst p) (t_rows t)) else VNull
         | _ => v
         end)
      (enumerate (t_columns t)).

(** A PRIMARY KEY column holds no value twice (NULLs apart). *)
Definition violates_key (t : table) (row : list value) : bool :=
  existsb (fun p =>
             is_primary_key (snd (snd p)) &&
             let v := nth (fst p) row VNull in
             existsb (value_eqb v) (column_values (fst p) (t_rows t)))
          (enumerate (t_columns t)).

(** What preparing [INSERT INTO name (icols) VALUES (?, ..)] checks, for
    column names that are plain words (the statement is not parsed). *)
Definition sql_prepare_insert (name : string) (icols : list string)
    (c : connection) : result unit :=
  match current c !! name with
  | None => Raise (SqliteError "no such table")
  | Some t =>
      match icols with
      | [] => Raise (SqliteError "syntax error")
      | _ =>
          if forallb (fun ic => existsb (ci_eqb ic) (map fst (t_columns t))) icols
          then Ok tt
          else Raise (SqliteError "table has no such column")
      end
  end.

(** One execution of the prepared INSERT with the bound values. A value
    is stored as bound: the conversion by type affinity is not modelled,
    and of the constraints only PRIMARY KEY, written in capitals as the
    program writes it, is enforced. *)
Definition sql_insert_row (name : string) (icols : list string)
    (vals : list value) (c : connection) : result connection :=
  if negb (Nat.eqb (length vals) (length icols))
  then Raise (SqliteError "Incorrect number of bindings supplied")
  else match current c !! name with
       | None => Raise (SqliteError "no such table")
       | Some t =>
           let row := build_row t icols vals in
           if violates_key t row
           then Raise (SqliteError "UNIQUE constraint failed")
           else Ok (apply_stmt
                      (insert name (mk_table (t_columns t) (t_rows t ++ [row]))) c)
       end.

(** The parameter loop of [cursor.executemany]: each row is bound, then
    inserted; the rows before a failing one stay in the open transaction. *)
Fixpoint insert_rows (bind : cell -> result value) (name : string)
    (icols : list string) (rows : list (list cell)) (c : connection)
  : result unit * connection :=
  match rows with
  | [] => (Ok tt, c)
  | row :: rest =>
      match mapM bind row with
      | Raise e => (Raise e, c)
      | Ok vals =>
          match sql_insert_row name icols vals c with
          | Raise e => (Raise e, c)
          | Ok c' => insert_rows bind name icols rest c'
          end
      end
  end.

(** [cursor.executemany("INSERT INTO name (icols) VALUES (?, ..)", rows)]:
    the statement is prepared, a transaction is opened, the rows go in. *)
Definition sql_executemany_insert (bind : cell -> result value) (name : string)
    (icols : list string) (rows : list (list cell)) (c : connection)
  : result unit * connection :=
  match sql_prepare_insert name icols c with
  | Raise e => (Raise e, c)
  | Ok _ => insert_rows bind name icols rows (begin c)
  end.

(** How [sqlite3] binds a Python object: None and NaN as NULL, floats and
    strings as they are; a Timestamp, a list or a dict cannot be bound. *)
Definition bind_python (x : cell) : result value :=
  match x with
  | CNull => Ok VNull
  | CNum q => Ok (VNum q)
  | CInf s => Ok (VInf s)
  | CStr s => Ok (VText s)
  | CDate _ | CObj _ => Raise (SqliteError "Error binding parameter")
  end.

(** ** The world a run acts on *)

Record world : Type := mk_world
  { w_conn : connection;          (* db_manager.conn *)
    w_requests : list string;     (* URLs requested so far, latest first *)
    w_ticks : nat;                (* calls of datetime.now() so far *)
    w_stdout : list string }.     (* lines printed, latest first *)

(** A statement: it returns or raises, and leaves a world behind. *)
Definition M (A : Type) : Type := world -> result A * world.

#[export] Instance M_ret : MRet M := fun A a w => (Ok a, w).
#[export] Instance M_bind : MBind M := fun A B f m w =>
  match m w with
  | (Ok a, w') => f a w'
  | (Raise e, w') => (Raise e, w')
  end.

#[export] Instance M_fmap : FMap M := fun A B f m w =>
  match m w with
  | (Ok a, w') => (Ok (f a), w')
  | (Raise e, w') => (Raise e, w')
  end.

Definition lift {A} (r : result A) : M A := fun w => (r, w).
Definition raise {A} (e : exn) : M A := fun w => (Raise e, w).

(** [try: m except <class> as e: h e] *)
Definition try_except {A} (m : M A) (catches : exn -> bool) (h : exn -> M A) : M A :=
  fun w =>
    match m w with
    | (Raise e, w') => if catches e then h e w' else (Raise e, w')
    | r => r
    end.

Definition is_sqlite_error (e : exn) : bool :=
  match e with SqliteError _ => true | _ => false end.

Definition print (line : string) : M unit := fun w =>
  (Ok tt, mk_world (w_conn w) (w_requests w) (w_ticks w) (line :: w_stdout w)).

(** [str(e)], as far as the printed lines need it. *)
Definition str_of_exn (e : exn) : string :=
  match e with
  | HTTPError st => str_of_Z st +:+ " Error"
  | ConnectionError => "connection error"
  | JSONDecodeError => "Expecting value"
  | KeyError k => "'" +:+ k +:+ "'"
  | IndexError => "list index out of range"
  | TypeError => "type error"
  | ValueError => "value error"
  | SqliteError msg => msg
  end.

(** A query or a statement on the connection. *)
Definition query {A} (f : connection -> result A) : M A := fun w => (f (w_conn w), w).
Definition set_conn (c : connection) : M unit := fun w =>
  (Ok tt, mk_world c (w_requests w) (w_ticks w) (w_stdout w)).
Definition execute (f : connection -> result connection) : M unit := fun w =>
  match f (w_conn w) with
  | Ok c => set_conn c w
  | Raise e => (Raise e, w)
  end.
Definition execute_rows (f : connection -> result unit * connection) : M unit := fun w =>
  let (r, c) := f (w_conn w) in
  (r, mk_world c (w_requests w) (w_ticks w) (w_stdout w)).

Section Program.

(** [config.py] is not part of the sources: the tracked symbols and the API
    key are parameters. *)
Variable CRYPTOCURRENCIES : list string.
Variable API_KEY : string.

(** The remote API: the answer to the [n]-th request of the run, by URL. *)
Variable http : nat -> string -> result response.

(** The clock: what the [n]-th call of [datetime.now()] returns. *)
Variable clock : nat -> datetime.

(** [d.strftime("%Y-%m-%d %H:%M:%S")] and
    [datetime.strptime(s, "%Y-%m-%d %H:%M:%S")]. pandas writes a timestamp
    without a fraction of a second in the same format. *)
Variable strftime : datetime -> string.
Variable strptime : string -> result datetime.

(** Whether [pct_change] fills forward first (the default of the installed
    pandas: [fill_method='pad'] before pandas 3, none after). *)
Variable pct_pad : bool.

Definition requests_get (url : string) : M response := fun w =>
  (http (length (w_requests w)) url,
   mk_world (w_conn w) (url :: w_requests w) (w_ticks w) (w_stdout w)).

Definition datetime_now : M datetime := fun w =>
  (Ok (clock (w_ticks w)),
   mk_world (w_conn w) (w_requests w) (S (w_ticks w)) (w_stdout w)).

(** *** pandas [DataFrame.to_sql(name, conn, if_exists=.., index=False)] *)

Definition sql_type_of (d : dtype) : string :=
  match d with
  | Float64 => "REAL"
  | Datetime64 => "TIMESTAMP"
  | Object => "TEXT"
  end.

(** pandas hands a timestamp over as text. *)
Definition bind_pandas (x : cell) : result value :=
  match x with
  | CDate d => Ok (VText (strftime d))
  | _ => bind_python x
  end.

Definition to_sql (name : string) (replace : bool) (df : DataFrame) : M unit :=
  let schema := combine (df_columns df) (map sql_type_of (df_dtypes df)) in
  exists_ ← query (fun c => Ok (sql_table_exists name c));
  (if exists_ && negb replace then mret tt
   else
     (if (exists_ : bool) then execute (fun c => Ok (sql_drop_table name c)) else mret tt : M unit);;
     execute (sql_create_table name schema));;
  try_except
    (execute_rows (sql_executemany_insert bind_pandas name (df_columns df) (df_rows df));;
     execute (fun c => Ok (commit c)))
    (fun _ => true)
    (fun e => execute (fun c => Ok (rollback c));; raise e).

(** ** database_manager.py *)

Definition create_table (table_name : string) (columns : list (string * string))
  : M unit :=
  try_except
    (execute (sql_create_table table_name columns))
    is_sqlite_error
    (fun e => print ("Error creating table: " +:+ str_of_exn e);; raise e).

Definition table_exists (table_name : string) : M bool :=
  try_except
    (query (fun c => Ok (sql_table_exists table_name c)))
    is_sqlite_error
    (fun e => print ("Error checking table existence: " +:+ str_of_exn e);; raise e).

Definition drop_table (table_name : string) : M unit :=
  try_except
    (execute (fun c => Ok (sql_drop_table table_name c));;
     execute (fun c => Ok (commit c)))
    is_sqlite_error
    (fun e => print ("Error dropping table: " +:+ str_of_exn e);; raise e).

(** [bool(x)] of what [fetchone()] holds. *)
Definition value_truthy (v : value) : bool :=
  match v with
  | VNull => false
  | VInt z => negb (z =? 0)
  | VNum q => negb (Qeq_bool q 0)
  | VInf _ => true
  | VText s => negb (String.eqb s "")
  end.

Definition get_newest_date (table_name : string) : M (option datetime) :=
  try_except
    (result_ ← query (sql_max_date table_name);
     if value_truthy result_ then
       match result_ with
       | VText newest_date_str =>
           newest_date ← lift (strptime newest_date_str);
           mret (Some newest_date)
       | _ => raise TypeError     (* strptime() argument 1 must be str *)
       end
     else mret None)
    is_sqlite_error
    (fun e => print ("Error retrieving newest date: " +:+ str_of_exn e);; raise e).

(** [insert_dataframe]: the rows of [dataframe.to_numpy()] are bound as
    Python objects. ([cursor.lastrowid], which the method returns and no
    caller reads, is not modelled.) *)
Definition insert_dataframe (table_name : string) (dataframe : DataFrame) : M unit :=
  let columns := df_columns dataframe in
  let values := df_rows dataframe in
  try_except
    (execute_rows (sql_executemany_insert bind_python table_name columns values);;
     execute (fun c => Ok (commit c)))
    is_sqlite_error
    (fun e => execute (fun c => Ok (rollback c));; raise e).

Definition should_fetch_data (table_name : string) (max_age_hours : Z) : M bool :=
  try_except
    (count ← query (sql_count table_name);
     if count =? 0 then mret true
     else
       let max_age := timedelta_hours max_age_hours in
       last_update_date ← get_newest_date table_name;
       match last_update_date with
       | None => mret true
       | Some d =>
           now ← datetime_now;
           if timedelta_gtb (datetime_sub now d) max_age then mret true
           else mret false
       end)
    is_sqlite_error
    (fun e => print ("Error checking data in table: " +:+ str_of_exn e);; raise e).

(** ** coin_project.py *)

(** One turn of the loop of [calculate_price_change]; [acc] is the frame so
    far, or the exception an earlier turn raised. *)
Definition price_change_turn (acc : result DataFrame) (coin : string)
  : result DataFrame :=
  df ← acc;
  let column_name := coin +:+ " Price" in
  col ← df_get column_name df;
  chg ← pct_change pct_pad col;
  pct ← series_mul chg 100;
  Ok (df_set (coin +:+ " Price Change") pct df).

Definition calculate_price_change (df : DataFrame) : result DataFrame :=
  foldl price_change_turn (Ok df) CRYPTOCURRENCIES.

Definition get_start_date (newest_date : option datetime) : M datetime :=
  match newest_date with
  | None => now ← datetime_now; mret (datetime_sub_td now (timedelta_days 365))
  | Some d => mret d
  end.

(** [get_limit]: a datetime object is always truthy, so [if newest_date]
    tests for [None]. *)
Definition get_limit (newest_date : option datetime) (end_date : datetime) : Z :=
  match newest_date with
  | Some d => td_days (datetime_sub end_date d)
  | None => 2000
  end.

Definition histoday_url (symbol : string) (limit end_timestamp : Z) : string :=
  "https://min-api.cryptocompare.com/data/v2/histoday?fsym=" +:+ symbol
  +:+ "&tsym=USD&limit=" +:+ str_of_Z limit
  +:+ "&toTs=" +:+ str_of_Z end_timestamp
  +:+ "&api_key=" +:+ API_KEY.

Definition construct_api_urls (coins : list string) (limit end_timestamp : Z)
  : list string :=
  map (fun symbol => histoday_url symbol limit end_timestamp) coins.

(** The frame built from one answer: [data['Data']['Data']], one row per
    entry with its time and the value of [field]. *)
Definition series_frame (field column_name : string) (data : json)
  : result DataFrame :=
  d ← json_get "Data" data;
  entries_j ← json_get "Data" d;
  entries ← json_iter entries_j;
  timestamps ← mapM (fun e => t ← json_get "time" e; fromtimestamp t) entries;
  values ← mapM (fun e => cell_of_json <$> json_get field e) entries;
  Ok (series_df column_name (combine timestamps values)).

Fixpoint fetch_price_history_loop (pairs : list (string * string)) (df : DataFrame)
  : M DataFrame :=
  match pairs with
  | [] => mret df
  | (url, symbol) :: rest =>
      response ← requests_get url;
      lift (raise_for_status response);;
      data ← lift (response_json response);
      temp_df ← lift (series_frame "close" (symbol +:+ " Price") data);
      df' ← (if df_empty df then mret temp_df
             else lift (pd_merge_outer "Date" df temp_df));
      fetch_price_history_loop rest df'
  end.

Definition fetch_price_history (urls coins : list string) : M DataFrame :=
  fetch_price_history_loop (combine urls coins) df_new.

Definition coin_info_columns : list string :=
  ["Symbol"; "Name"; "Description"; "ImageUrl"; "Date"].

(** [pd.concat([df, temp_df], ignore_index=True)] for a one-row frame with
    the columns of [df]. *)
Definition df_append_row (df : DataFrame) (row : list cell) : DataFrame :=
  mk_df (df_columns df) (df_rows df ++ [row]).

Fixpoint fetch_coin_info_loop (coin_info : json) (coins : list string)
    (df : DataFrame) : M DataFrame :=
  match coins with
  | [] => mret df
  | symbol :: rest =>
      coin ← lift (json_get symbol coin_info);
      now ← datetime_now;
      let date_time := strftime now in
      name ← lift (json_get "CoinName" coin);
      description ← lift (json_get "Description" coin);
      image ← lift (json_get "ImageUrl" coin);
      let coin_details :=
        [CStr symbol; cell_of_json name; cell_of_json description;
         CStr ("https://www.cryptocompare.com" +:+ py_str image); CStr date_time] in
      fetch_coin_info_loop coin_info rest (df_append_row df coin_details)
  end.

Definition fetch_coin_info (coins : list string) : M DataFrame :=
  response ← requests_get "https://min-api.cryptocompare.com/data/all/coinlist";
  data ← lift (response_json response);
  coin_info ← lift (json_get "Data" data);
  fetch_coin_info_loop coin_info coins (mk_df coin_info_columns []).

(** [int(d.timestamp())] *)
Definition timestamp_int (d : datetime) : Z := Z.quot d us_per_second.

Definition get_historic_prices (coins : list string) : M DataFrame :=
  try_except
    (end_date ← datetime_now;
     let end_timestamp := timestamp_int end_date in
     exists_ ← table_exists "price_history";
     newest_date ← (if (exists_ : bool) then get_newest_date "price_history"
                    else mret None : M (option datetime));
     start_date ← get_start_date newest_date;
     let limit := get_limit newest_date end_date in
     let urls := construct_api_urls coins limit end_timestamp in
     df ← fetch_price_history urls coins;
     df ← lift (calculate_price_change df);
     lift (df_sort_values "Date" df))
    (fun _ => true)
    (fun e => print ("Error during API request: " +:+ str_of_exn e);; raise e).

Definition fetch_market_cap (coins : string) : M json :=
  let url := "https://min-api.cryptocompare.com/data/pricemultifull?fsyms=" +:+ coins
             +:+ "&tsyms=USD&api_key=" +:+ API_KEY in
  response ← requests_get url;
  data ← lift (response_json response);
  lift (json_get "RAW" data).

Definition populate_coin_data : M (option DataFrame) :=
  exists_ ← table_exists "coin_info";
  fresh ← (if (exists_ : bool) then negb <$> should_fetch_data "coin_info" 4380 else mret false : M bool);
  if (fresh : bool) then
    print "Coin Info has been updated within the last 6 months";; mret None
  else
    exists_ ← table_exists "coin_info";
    (if (exists_ : bool) then drop_table "coin_info" else mret tt : M unit);;
    create_table "coin_info"
      [("Symbol", "TEXT PRIMARY KEY"); ("Name", "TEXT"); ("Description", "TEXT");
       ("ImageUrl", "TEXT"); ("date", "DATE")];;
    coin_info_df ← fetch_coin_info CRYPTOCURRENCIES;
    mret (Some coin_info_df).

Fixpoint fetch_trading_volumes_loop (coins : list string) (limit end_timestamp : Z)
    (df : DataFrame) : M DataFrame :=
  match coins with
  | [] => mret df
  | symbol :: rest =>
      let url := histoday_url symbol limit end_timestamp in
      response ← requests_get url;
      lift (raise_for_status response);;
      data ← lift (response_json response);
      temp_df ← lift (series_frame "volumeto" (symbol +:+ " Volume") data);
      df' ← (if df_empty df then mret temp_df
             else lift (pd_merge_outer "Date" df temp_df));
      fetch_trading_volumes_loop rest limit end_timestamp df'
  end.

Definition fetch_trading_volumes (coins : list string) (limit end_timestamp : Z)
  : M DataFrame :=
  fetch_trading_volumes_loop coins limit end_timestamp df_new.

(** The reshaping both history tables go through: melt on [Date], strip
    [suffix] from the symbol, rename [Date] to [date], convert the columns. *)
Definition to_long_format (value_name suffix : string) (df : DataFrame)
  : result DataFrame :=
  df ← df_melt "Date" "symbol" value_name df;
  sym ← df_get "symbol" df;
  let df := df_set "symbol" (series_str_replace suffix "" sym) df in
  d ← df_get "Date" df;
  let df := df_set "date" d df in
  df ← df_drop "Date" df;
  sym ← df_get "symbol" df;
  let df := df_set "symbol" (astype_str sym) df in
  v ← df_get value_name df;
  v ← astype_float v;
  let df := df_set value_name v df in
  d ← df_get "date" df;
  d ← astype_datetime d;
  Ok (df_set "date" d df).

Definition populate_historic_prices : M unit :=
  exists_ ← table_exists "price_history";
  fresh ← (if (exists_ : bool) then negb <$> should_fetch_data "price_history" (24 * 60)
           else mret false : M bool);
  if (fresh : bool) then
    print "Price History Data was updated within the last 24 hours. Skipping update."
  else
    df ← get_historic_prices CRYPTOCURRENCIES;
    exists_ ← table_exists "price_history";
    (if negb (exists_ : bool) then
       create_table "price_history"
         [("id", "INTEGER PRIMARY KEY AUTOINCREMENT"); ("symbol", "TEXT");
          ("date", "DATE"); ("price", "REAL"); ("price_change", "REAL")]
     else mret tt : M unit);;
    df ← lift (to_long_format "price" " Price" df);
    to_sql "price_history" false df.

Fixpoint market_cap_rows (market_cap_data : json) (symbols : list json)
    (now : string) : result (list (list cell)) :=
  match symbols with
  | [] => Ok []
  | symbol :: rest =>
      entry ← json_index market_cap_data symbol;
      usd ← json_get "USD" entry;
      market_cap ← json_get "MKTCAP" usd;
      rows ← market_cap_rows market_cap_data rest now;
      Ok ([cell_of_json symbol; cell_of_json market_cap; CStr now] :: rows)
  end.

Definition populate_market_cap : M unit :=
  exists_ ← table_exists "market_cap";
  fresh ← (if (exists_ : bool) then negb <$> should_fetch_data "market_cap" 24 else mret false : M bool);
  if (fresh : bool) then
    print "Market Cap Info was updated witin the last 24 hours. Skipping Update"
  else
    let symbols := String.concat "," CRYPTOCURRENCIES in
    market_cap_data ← fetch_market_cap symbols;
    now ← strftime <$> datetime_now;
    keys ← lift (json_iter market_cap_data);
    data ← lift (market_cap_rows market_cap_data keys now);
    let df := mk_df ["symbol"; "market_cap"; "date"] data in
    exists_ ← table_exists "market_cap";
    (if negb (exists_ : bool) then
       create_table "market_cap"
         [("symbol", "TEXT"); ("market_cap", "REAL"); ("date", "DATE")]
     else mret tt : M unit);;
    to_sql "market_cap" true df.

Definition populate_trading_volumes : M unit :=
  exists_ ← table_exists "trading_volumes";
  fresh ← (if (exists_ : bool) then negb <$> should_fetch_data "trading_volumes" 24
           else mret false : M bool);
  if (fresh : bool) then
    print "Trading Volumes have been updated within 24 hours, skipping"
  else
    exists_ ← table_exists "trading_volumes";
    newest_date ← (if (exists_ : bool) then get_newest_date "trading_volumes"
                   else mret None : M (option datetime));
    end_date ← datetime_now;
    let end_timestamp := timestamp_int end_date in
    let limit := get_limit newest_date end_date in
    df ← fetch_trading_volumes CRYPTOCURRENCIES limit end_timestamp;
    exists_ ← table_exists "trading_volumes";
    (if negb (exists_ : bool) then
       create_table "trading_volumes"
         [("id", "INTEGER PRIMARY KEY AUTOINCREMENT"); ("symbol", "TEXT");
          ("date", "DATE"); ("volume", "REAL")]
     else mret tt : M unit);;
    df ← lift (to_long_format "volume" " Volume" df);
    to_sql "trading_volumes" false df.

(** [populate_data]: [fetch] stands for [fetch_function( *args)]. *)
Definition populate_data (table_name : string) (fetch : M DataFrame)
    (data_manipulator : option (DataFrame -> M DataFrame)) : M unit :=
  exists_ ← table_exists table_name;
  fresh ← (if (exists_ : bool) then negb <$> should_fetch_data table_name 24 else mret false : M bool);
  if (fresh : bool) then
    print (table_name +:+ " data was updated within the last 24 hours. Skipping update.")
  else
    df ← fetch;
    df ← match data_manipulator with
         | Some f => f df
         | None => mret df
         end;
    let columns :=
      map (fun cd =>
             match snd cd with
             | Datetime64 => (lower (fst cd), "DATE")
             | Float64 => (lower (fst cd), "REAL")
             | Object => (lower (fst cd), "TEXT")
             end)
          (combine (df_columns df) (df_dtypes df)) in
    create_table table_name columns;;
    insert_dataframe table_name df.

(** *** The entry point *)

(** [db_manager.connect()]: a new handle on the database file, which holds
    what was committed; no transaction is open. The connection of the world
    before the call stands for the file. *)
Definition connect : M unit :=
  execute (fun c => Ok (mk_connection (committed c) None)).

(** [main]. The second call of [populate_data] passes no [fetch_function]:
    Python raises [TypeError] when it binds the arguments, before the body
    runs. The commented-out calls are left out. *)
Definition main : M unit :=
  connect;;
  populate_data "coin_info" (fetch_coin_info CRYPTOCURRENCIES) None;;
  (raise TypeError : M unit);;
  populate_market_cap;;
  populate_trading_volumes.

End Program.

(** ** The timestamp format, for closed examples

    The program is stated over any [strftime]/[strptime]; the examples run
    it with this reading of ["%Y-%m-%d %H:%M:%S"] on zero-padded text
    (proleptic Gregorian calendar, days counted from 1970-01-01). *)

Definition civil_from_days (z : Z) : Z * Z * Z :=
  let z := z + 719468 in
  let era := z / 146097 in
  let doe := z - era * 146097 in
  let yoe := (doe - doe / 1460 + doe / 36524 - doe / 146096) / 365 in
  let doy := doe - (365 * yoe + yoe / 4 - yoe / 100) in
  let mp := (5 * doy + 2) / 153 in
  let d := doy - (153 * mp + 2) / 5 + 1 in
  let m := if mp <? 10 then mp + 3 else mp - 9 in
  let y := yoe + era * 400 + (if m <=? 2 then 1 else 0) in
  (y, m, d).

Definition days_from_civil (y m d : Z) : Z :=
  let y := if m <=? 2 then y - 1 else y in
  let era := y / 400 in
  let yoe := y - era * 400 in
  let doy := (153 * (if 2 <? m then m - 3 else m + 9) + 2) / 5 + d - 1 in
  let doe := yoe * 365 + yoe / 4 - yoe / 100 + doy in
  era * 146097 + doe - 719468.

Definition pad (width : nat) (n : Z) : string :=
  let s := str_of_Z n in
  string_of_list_ascii (repeat "0"%char (width - String.length s)) +:+ s.

Definition iso_strftime (d : datetime) : string :=
  let secs := d / us_per_second in
  let '(y, m, dd) := civil_from_days (secs / 86400) in
  let r := secs mod 86400 in
  pad 4 y +:+ "-" +:+ pad 2 m +:+ "-" +:+ pad 2 dd +:+ " "
  +:+ pad 2 (r / 3600) +:+ ":" +:+ pad 2 (r mod 3600 / 60) +:+ ":" +:+ pad 2 (r mod 60).

Fixpoint digits_val (acc : Z) (s : string) : option Z :=
  match s with
  | EmptyString => Some acc
  | String c t =>
      let n := Z.of_nat (nat_of_ascii c) - 48 in
      if (0 <=? n) && (n <=? 9) then digits_val (10 * acc + n) t else None
  end.

Definition field (start len : nat) (s : string) : option Z :=
  digits_val 0 (substring start len s).

Definition sep_at (i : nat) (c : ascii) (s : string) : bool :=
  match String.get i s with
  | Some c' => Ascii.eqb c c'
  | None => false
  end.

Definition iso_strptime (s : string) : result datetime :=
  if negb (Nat.eqb (String.length s) 19
           && sep_at 4 "-" s && sep_at 7 "-" s && sep_at 10 " " s
           && sep_at 13 ":" s && sep_at 16 ":" s)
  then Raise ValueError
  else
    match field 0 4 s, field 5 2 s, field 8 2 s,
          field 11 2 s, field 14 2 s, field 17 2 s with
    | Some y, Some m, Some d, Some h, Some mi, Some sec =>
        if (1 <=? m) && (m <=? 12) && (1 <=? d) && (h <? 24) && (mi <? 60) && (sec <? 62)
           && (let '(y', m', d') := civil_from_days (days_from_civil y m d) in
               (y' =? y) && (m' =? m) && (d' =? d))
        then Ok ((days_from_civil y m d * 86400 + h * 3600 + mi * 60 + sec) * us_per_second)
        else Raise ValueError
    | _, _, _, _, _, _ => Raise ValueError
    end.

(** ** Notions the statements use *)

(** The table exists and the staleness policy reports it fresh. *)
Definition fresh_table (clock : nat -> datetime) (strptime : string -> result datetime)
    (table_name : string) (max_age_hours : Z) (w : world) : Prop :=
  fst (table_exists table_name w) = Ok true /\
  fst (should_fetch_data clock strptime table_name max_age_hours w) = Ok false.

(** The operation returns normally, has sent no request and has left the
    connection, committed and pending state alike, as it was. *)
Definition skips (op : M unit) (w : world) : Prop :=
  exists w', op w = (Ok tt, w') /\
             w_conn w' = w_conn w /\ w_requests w' = w_requests w.

(** Every row has one cell per column. *)
Definition df_wf (df : DataFrame) : Prop :=
  Forall (fun r => length r = length (df_columns df)) (df_rows df).

(** What [calculate_price_change] stores for a price column. *)
Definition price_change_of (pad : bool) (prices : list cell) : result (list cell) :=
  chg ← pct_change pad prices; series_mul chg 100.

(** [df] holds, under the change column of [coin], what
    [calculate_price_change] computes from the price column of [df0]. *)
Definition price_change_stored (pad : bool) (df0 df : DataFrame) (coin : string) : Prop :=
  exists prices pct,
    df_get (coin +:+ " Price") df0 = Ok prices /\
    price_change_of pad prices = Ok pct /\
    df_get (coin +:+ " Price Change") df = Ok pct.

(** [df] agrees with [df0] on every column that is not a change column. *)
Definition keeps_other_columns (df0 df : DataFrame) : Prop :=
  forall name, (forall c, name <> c +:+ " Price Change") ->
               df_get name df = df_get name df0.

(** The [n]-th request of the run, to [url], is answered with a status that
    passes [raise_for_status] and a body that holds the series [s] under
    [field]. *)
Definition answers (http : nat -> string -> result response) (n : nat)
    (url field column_name : string) (s : list (datetime * cell)) : Prop :=
  exists r data,
    http n url = Ok r /\ raise_for_status r = Ok tt /\
    response_json r = Ok data /\
    series_frame field column_name data = Ok (series_df column_name s).

(** Two date sets that share a date while one of them has a date the other
    lacks. *)
Definition partial_overlap (a b : list datetime) : Prop :=
  (exists d, In d a /\ In d b) /\
  ((exists d, In d a /\ ~ In d b) \/ (exists d, In d b /\ ~ In d a)).

(** [df] is the outer join of the two series on the date: its dates are
    the dates of either series, and each row carries its date, then for
    each series the value the series has on that date, or a missing value
    when the series has none. *)
Definition outer_merged (sa sb : list (datetime * cell)) (df : DataFrame) : Prop :=
  (forall d, In (CDate d) (map (row_get 0) (df_rows df)) <->
             In d (map fst sa) \/ In d (map fst sb)) /\
  (forall row, In row (df_rows df) ->
     exists d x y, row = [CDate d; x; y] /\
       (In d (map fst sa) -> In (d, x) sa) /\ (~ In d (map fst sa) -> x = CNull) /\
       (In d (map fst sb) -> In (d, y) sb) /\ (~ In d (map fst sb) -> y = CNull)).

(** The world after one more request. *)
Definition logged (url : string) (w : world) : world :=
  mk_world (w_conn w) (url :: w_requests w) (w_ticks w) (w_stdout w).

(** What the code computes for a row from the price before it:
    [pct_change] divides, subtracts one, and the code multiplies by 100,
    each step in float arithmetic. *)
Definition percent_change (prev curr : cell) : result cell :=
  q ← cell_div curr prev; d ← cell_sub q (CNum 1); cell_mul d (CNum 100).

(** [(curr - prev) / prev * 100] evaluated in the same float arithmetic. *)
Definition percent_formula (prev curr : cell) : result cell :=
  d ← cell_sub curr prev; q ← cell_div d prev; cell_mul q (CNum 100).

(** The statement leaves the connection as it was, whether it returns or
    raises; and it sends no request. *)
Definition keeps_db {A} (m : M A) : Prop :=
  forall w, w_conn (snd (m w)) = w_conn w.

Definition sends_nothing {A} (m : M A) : Prop :=
  forall w, w_requests (snd (m w)) = w_requests w.

(** No column of the table is declared a key. *)
Definition keyless (columns : list (string * string)) : Prop :=
  Forall (fun col => is_primary_key (snd col) = false) columns.

(** ** Inputs for the closed examples *)

(** A fresh database file, no request made, nothing printed. *)
Definition empty_world : world := mk_world (mk_connection ∅ None) [] 0 [].

(** A clock that stands at 2023-11-14 22:13:20. *)
Definition clock_2023 (_ : nat) : datetime := 1700000000 * us_per_second.

(** A database whose four tables each hold one row dated ten hours before
    [clock_2023]. *)
Definition one_row_table (date : string) : table :=
  mk_table [("symbol", "TEXT"); ("date", "DATE")] [[VText "BTC"; VText date]].

Definition fresh_catalogue : catalogue :=
  <["coin_info" := one_row_table "2023-11-14 12:00:00"]>
  (<["price_history" := one_row_table "2023-11-14 12:00:00"]>
  (<["market_cap" := one_row_table "2023-11-14 12:00:00"]>
  (<["trading_volumes" := one_row_table "2023-11-14 12:00:00"]> ∅))).

Definition fresh_world : world := mk_world (mk_connection fresh_catalogue None) [] 0 [].

(** An API that is down. *)
Definition http_down (_ : nat) (_ : string) : result response := Raise ConnectionError.

(** A [coin_info] table as [populate_coin_data] creates it, holding BTC;
    and a frame of two coins whose second row repeats that key. *)
Definition coin_info_keyed : table :=
  mk_table [("Symbol", "TEXT PRIMARY KEY"); ("Name", "TEXT"); ("Description", "TEXT");
            ("ImageUrl", "TEXT"); ("date", "DATE")]
           [[VText "BTC"; VText "Bitcoin"; VText "A coin"; VText "/btc.png";
             VText "2023-01-01 00:00:00"]].

Definition keyed_world : world :=
  mk_world (mk_connection (<["coin_info" := coin_info_keyed]> ∅) None) [] 0 [].

Definition eth_then_btc : DataFrame :=
  mk_df coin_info_columns
        [[CStr "ETH"; CStr "Ethereum"; CStr "Another"; CStr "/eth.png";
          CStr "2023-11-14 22:13:20"];
         [CStr "BTC"; CStr "Bitcoin"; CStr "A coin"; CStr "/btc.png";
          CStr "2023-11-14 22:13:20"]].

(** A database last updated on 2023-01-01, with the tables as the program
    creates them, and an API that answers every request. *)
Definition stale_coin_info : table :=
  mk_table [("symbol", "TEXT"); ("name", "TEXT"); ("description", "TEXT");
            ("imageurl", "TEXT"); ("date", "TEXT")]
           [[VText "BTC"; VText "Bitcoin"; VText "Old text";
             VText "https://www.cryptocompare.com/old.png"; VText "2023-01-01 00:00:00"]].

Definition stale_market_cap : table :=
  mk_table [("symbol", "TEXT"); ("market_cap", "REAL"); ("date", "TEXT")]
           [[VText "BTC"; VNum 5; VText "2023-01-01 00:00:00"]].

Definition stale_price_history : table :=
  mk_table [("id", "INTEGER PRIMARY KEY AUTOINCREMENT"); ("symbol", "TEXT");
            ("date", "DATE"); ("price", "REAL"); ("price_change", "REAL")]
           [[VInt 1; VText "BTC"; VText "2023-01-01 00:00:00"; VNum 16000; VNull]].

Definition stale_trading_volumes : table :=
  mk_table [("id", "INTEGER PRIMARY KEY AUTOINCREMENT"); ("symbol", "TEXT");
            ("date", "DATE"); ("volume", "REAL")]
           [[VInt 1; VText "BTC"; VText "2023-01-01 00:00:00"; VNum 900]].

Definition stale_world : world :=
  mk_world
    (mk_connection
       (<["coin_info" := stale_coin_info]>
        (<["market_cap" := stale_market_cap]>
         (<["price_history" := stale_price_history]>
          (<["trading_volumes" := stale_trading_volumes]> ∅))))
       None)
    [] 0 [].

Definition coinlist_body : json :=
  JObj [("Data", JObj [("BTC", JObj [("CoinName", JStr "Bitcoin");
                                     ("Description", JStr "New text");
                                     ("ImageUrl", JStr "/btc.png")])])].

Definition market_cap_body : json :=
  JObj [("RAW", JObj [("BTC", JObj [("USD", JObj [("MKTCAP", JInt 700)])])])].

(** One day of history: 2023-11-14 00:00:00. *)
Definition histoday_body : json :=
  JObj [("Data", JObj [("Data", JArr [JObj [("time", JInt 1699920000);
                                            ("close", JInt 35000);
                                            ("volumeto", JInt 1200)]])])].

Definition body_for (url : string) : json :=
  if contains "coinlist" url then coinlist_body
  else if contains "pricemultifull" url then market_cap_body
  else histoday_body.

Definition http_ok (_ : nat) (url : string) : result response :=
  Ok (mk_response 200 (Some (body_for url))).

(** The same API answering every request with status 500 and the same
    bodies. *)
Definition http_500 (_ : nat) (url : string) : result response :=
  Ok (mk_response 500 (Some (body_for url))).

Definition rows_of (name : string) (w : world) : option (list (list value)) :=
  t_rows <$> (current (w_conn w) !! name).

(** A frame of three days of BTC prices. *)
Definition three_days : DataFrame :=
  mk_df ["Date"; "BTC Price"]
        [[CDate (1699833600 * us_per_second); CNum 200];
         [CDate (1699920000 * us_per_second); CNum 250];
         [CDate (1700006400 * us_per_second); CNum 225]].

(** Two answers whose days overlap in part: BTC has 1970-01-02 and -03,
    ETH has 1970-01-03 and -04; price and volume carry the same figures. *)
Definition history_body (entries : list (Z * Z)) : json :=
  JObj [("Data",
         JObj [("Data",
                JArr (map (fun e => JObj [("time", JInt (fst e));
                                          ("close", JInt (snd e));
                                          ("volumeto", JInt (snd e))]) entries))])].

Definition overlap_http (n : nat) (_ : string) : result response :=
  match n with
  | O => Ok (mk_response 200 (Some (history_body [(86400, 10); (172800, 20)])))
  | _ => Ok (mk_response 200 (Some (history_body [(172800, 7); (259200, 14)])))
  end.

Definition btc_series : list (datetime * cell) :=
  [(86400 * us_per_second, CNum 10); (172800 * us_per_second, CNum 20)].
Definition eth_series : list (datetime * cell) :=
  [(172800 * us_per_second, CNum 7); (259200 * us_per_second, CNum 14)].

(** A frame of one coin the keyed table does not hold yet. *)
Definition eth_only : DataFrame :=
  mk_df coin_info_columns
        [[CStr "ETH"; CStr "Ethereum"; CStr "Another"; CStr "/eth.png";
          CStr "2023-11-14 22:13:20"]].

(** ** Properties *)

(** *** The reference timestamp format on a known instant *)

Example iso_strftime_2023 :
  iso_strftime (1700000000 * us_per_second) = "2023-11-14 22:13:20".
Proof. reflexivity. Qed.

Example iso_strptime_2023 :
  iso_strptime "2023-11-14 22:13:20" = Ok (1700000000 * us_per_second).
Proof. reflexivity. Qed.

Example iso_strptime_rejects_fraction :
  iso_strptime "2023-11-14 22:13:20.5" = Raise ValueError.
Proof. reflexivity. Qed.

(** *** The fetch window *)

Lemma us_per_day_pos : 0 < us_per_day.
Proof. unfold us_per_day, us_per_second; lia. Qed.

Lemma td_days_sub (a b : datetime) :
  td_days (datetime_sub a b) = (a - b) / us_per_day.
Proof. reflexivity. Qed.

Lemma timedelta_of_us_total (us : Z) :
  timedelta_total_us (timedelta_of_us us) = us.
Proof.
  unfold timedelta_total_us, timedelta_of_us; simpl.
  pose proof (Z.div_mod us us_per_day ltac:(unfold us_per_day, us_per_second; lia)) as H1.
  pose proof (Z.div_mod (us mod us_per_day) us_per_second
                ltac:(unfold us_per_second; lia)) as H2.
  lia.
Qed.

Lemma timedelta_days_total (d : Z) :
  timedelta_total_us (timedelta_days d) = d * us_per_day.
Proof. apply timedelta_of_us_total. Qed.

(** C3: with no most recent stored date, [get_limit] returns the default
    request limit 2000, whatever the end date. *)
Theorem get_limit_default_2000 (end_date : datetime) :
  get_limit None end_date = 2000.
Proof. reflexivity. Qed.

(** C10: [get_limit] clamps nothing. For a stored date it returns the day
    component of [end_date - newest_date], the whole days of the
    difference rounded down: zero when the stored date is less than a day
    before the end date, negative when it is after the end date, and [n]
    for a stored date [n] days back, however large [n] is; 2000 plays no
    part once a date is stored. *)
Theorem get_limit_no_clamping :
  (forall d e, get_limit (Some d) e = td_days (datetime_sub e d)) /\
  (forall d e, get_limit (Some d) e = (e - d) / us_per_day) /\
  (forall d e, 0 <= e - d < us_per_day -> get_limit (Some d) e = 0) /\
  (forall d e, e < d -> get_limit (Some d) e < 0) /\
  (forall e n, get_limit (Some (e - n * us_per_day)) e = n) /\
  (forall e, get_limit (Some (e + 1)) e = -1) /\
  (forall e, get_limit (Some (e - 5000 * us_per_day)) e = 5000).
Proof.
  assert (Hn : forall e n, get_limit (Some (e - n * us_per_day)) e = n).
  { intros e n. simpl. replace (e - (e - n * us_per_day)) with (n * us_per_day) by lia.
    apply Z.div_mul. pose proof us_per_day_pos; lia. }
  pose proof us_per_day_pos as HD.
  split; [reflexivity|]. split; [reflexivity|]. split; [|split; [|split; [|split]]].
  - intros d e H. simpl. now apply Z.div_small.
  - intros d e H. simpl. apply Z.div_lt_upper_bound; lia.
  - exact Hn.
  - intros e. simpl. now replace (e - (e + 1)) with (-1) by lia.
  - intros e. apply Hn.
Qed.

(** C10 at 2023-11-14 22:13:20: a date one hour earlier, a date one hour
    later, and a date 5000 days earlier. *)
Lemma get_limit_no_clamping_witness :
  let e := 1700000000 * us_per_second in
  (0 <= e - (e - 3600 * us_per_second) < us_per_day /\
   get_limit (Some (e - 3600 * us_per_second)) e = 0) /\
  (e < e + 3600 * us_per_second /\
   get_limit (Some (e + 3600 * us_per_second)) e < 0) /\
  get_limit (Some (e - 5000 * us_per_day)) e = 5000.
Proof.
  intros e.
  destruct get_limit_no_clamping as (_ & _ & Hzero & Hneg & Hdays & _).
  assert (H1 : 0 <= e - (e - 3600 * us_per_second) < us_per_day)
    by (subst e; unfold us_per_day, us_per_second; lia).
  assert (H2 : e < e + 3600 * us_per_second)
    by (subst e; unfold us_per_second; lia).
  split; [exact (conj H1 (Hzero _ _ H1))|].
  split; [exact (conj H2 (Hneg _ _ H2))|].
  apply Hdays.
Defined.

(** C2, as the code has it: the 365-day default belongs to
    [get_start_date], which with no stored date returns the current time
    minus 365 days and otherwise the stored date; [get_limit] returns 2000
    with no stored date and otherwise the whole days between the stored
    date and the end date. *)
Theorem fetch_window_defaults (clock : nat -> datetime) :
  (forall w, get_start_date clock None w =
             (Ok (clock (w_ticks w) - 365 * us_per_day),
              mk_world (w_conn w) (w_requests w) (S (w_ticks w)) (w_stdout w))) /\
  (forall d w, get_start_date clock (Some d) w = (Ok d, w)) /\
  (forall e, get_limit None e = 2000) /\
  (forall d e, get_limit (Some d) e = (e - d) / us_per_day).
Proof.
  repeat split.
Qed.

(** C2 fails as stated: with no stored date [get_limit] does not return a
    365-day lookback. *)
Lemma get_limit_none_is_not_365 :
  get_limit None (1700000000 * us_per_second) <> 365.
Proof. discriminate. Qed.

(** *** The newest stored date *)

Lemma string_ltb_leb (a b : string) : String.ltb a b = true -> String.leb a b = true.
Proof. unfold String.ltb, String.leb. destruct (String.compare a b); auto. Qed.

Lemma string_not_ltb_leb (a b : string) : String.ltb a b = false -> String.leb b a = true.
Proof.
  unfold String.ltb, String.leb. rewrite (String.compare_antisym b a).
  destruct (String.compare a b); simpl; auto.
Qed.

Lemma string_leb_trans (a b c : string) :
  String.leb a b = true -> String.leb b c = true -> String.leb a c = true.
Proof.
  intros H1 H2. apply Is_true_true.
  apply (@transitivity _ String.le _ a b c); apply Is_true_true; assumption.
Qed.

Lemma string_leb_refl (a : string) : String.leb a a = true.
Proof. apply Is_true_true. apply (@reflexivity _ String.le _ a). Qed.

(** [MAX] over a column of texts and NULLs is the greatest text, in byte
    order, and NULL when the column has no text. *)
Lemma sql_max_from (col : list value) (acc : value) :
  Forall (fun v => v = VNull \/ exists s, v = VText s) col ->
  (acc = VNull \/ exists a, acc = VText a) ->
  let m := fold_left (fun acc v =>
                        match acc, v with
                        | _, VNull => acc
                        | VNull, _ => v
                        | _, _ => if value_ltb acc v then v else acc
                        end) col acc in
  (m = VNull /\ acc = VNull /\ Forall (eq VNull) col) \/
  (exists t, m = VText t /\
             (acc = VText t \/ In (VText t) col) /\
             (forall s, acc = VText s \/ In (VText s) col -> String.leb s t = true)).
Proof.
  intros Hcol. revert acc.
  induction Hcol as [|v col Hv Hcol IH]; intros acc Hacc; cbn [fold_left].
  - destruct Hacc as [->|[a ->]]; [left; auto|].
    right. exists a. split; [reflexivity|]. split; [now left|].
    intros s [[= ->]|[]]. apply string_leb_refl.
  - destruct Hv as [->|[s ->]].
    + replace (match acc with VNull => acc | _ => acc end) with acc
        by (destruct acc; reflexivity).
      destruct (IH acc Hacc) as [(Hm & Ha & Hf)|(t & Hm & Hin & Hle)].
      * left. split; [exact Hm|]. split; [exact Ha|]. now constructor.
      * right. exists t. split; [exact Hm|]. split.
        -- destruct Hin as [H|H]; [left; exact H | right; right; exact H].
        -- intros s0 [H|[H|H]];
             [apply Hle; left; exact H | discriminate H | apply Hle; right; exact H].
    + destruct Hacc as [->|[a ->]].
      * destruct (IH (VText s) (or_intror (ex_intro _ s eq_refl)))
          as [(_ & Ha & _)|(t & Hm & Hin & Hle)]; [discriminate Ha|].
        right. exists t. split; [exact Hm|]. split.
        -- destruct Hin as [H|H]; [right; left; exact H | right; right; exact H].
        -- intros s0 [H|[H|H]];
             [discriminate H | apply Hle; left; exact H | apply Hle; right; exact H].
      * cbn [value_ltb]. destruct (String.ltb a s) eqn:Hlt.
        -- destruct (IH (VText s) (or_intror (ex_intro _ s eq_refl)))
             as [(_ & Ha & _)|(t & Hm & Hin & Hle)]; [discriminate Ha|].
           right. exists t. split; [exact Hm|]. split.
           ++ destruct Hin as [H|H]; [right; left; exact H | right; right; exact H].
           ++ intros s0 [H|[H|H]].
              ** injection H as <-.
                 apply (string_leb_trans a s t);
                   [now apply string_ltb_leb | apply Hle; now left].
              ** apply Hle; left; exact H.
              ** apply Hle; right; exact H.
        -- destruct (IH (VText a) (or_intror (ex_intro _ a eq_refl)))
             as [(_ & Ha & _)|(t & Hm & Hin & Hle)]; [discriminate Ha|].
           right. exists t. split; [exact Hm|]. split.
           ++ destruct Hin as [H|H]; [left; exact H | right; right; exact H].
           ++ intros s0 [H|[H|H]].
              ** apply Hle; left; exact H.
              ** injection H as <-.
                 apply (string_leb_trans s a t);
                   [now apply string_not_ltb_leb | apply Hle; now left].
              ** apply Hle; right; exact H.
Qed.

Lemma sql_max_text (col : list value) :
  Forall (fun v => v = VNull \/ exists s, v = VText s) col ->
  (sql_max col = VNull /\ Forall (eq VNull) col) \/
  (exists t, sql_max col = VText t /\ In (VText t) col /\
             forall s, In (VText s) col -> String.leb s t = true).
Proof.
  intros Hcol. unfold sql_max.
  destruct (sql_max_from col VNull Hcol (or_introl eq_refl))
    as [(Hm & _ & Hf)|(t & Hm & [Hin|Hin] & Hle)]; [left; auto | discriminate |].
  right. exists t. repeat split; auto.
Qed.

(** *** The staleness policy *)

Lemma timedelta_gtb_of_us (a b : Z) :
  timedelta_gtb (timedelta_of_us a) (timedelta_of_us b) = (b <? a).
Proof.
  unfold timedelta_gtb, timedelta_of_us; simpl.
  assert (HD : 0 < us_per_day) by apply us_per_day_pos.
  assert (HS : 0 < us_per_second) by (unfold us_per_second; lia).
  pose proof (Z.div_mod a us_per_day ltac:(lia)) as Ha.
  pose proof (Z.div_mod b us_per_day ltac:(lia)) as Hb.
  pose proof (Z.mod_pos_bound a us_per_day HD) as Ha'.
  pose proof (Z.mod_pos_bound b us_per_day HD) as Hb'.
  pose proof (Z.div_mod (a mod us_per_day) us_per_second ltac:(lia)) as Hc.
  pose proof (Z.div_mod (b mod us_per_day) us_per_second ltac:(lia)) as Hd.
  pose proof (Z.mod_pos_bound (a mod us_per_day) us_per_second HS) as Hc'.
  pose proof (Z.mod_pos_bound (b mod us_per_day) us_per_second HS) as Hd'.
  set (qa := a / us_per_day) in *. set (qb := b / us_per_day) in *.
  set (ra := a mod us_per_day) in *. set (rb := b mod us_per_day) in *.
  set (sa := ra / us_per_second) in *. set (sb := rb / us_per_second) in *.
  set (ua := ra mod us_per_second) in *. set (ub := rb mod us_per_second) in *.
  destruct (qa =? qb) eqn:E1; [apply Z.eqb_eq in E1 | apply Z.eqb_neq in E1].
  - destruct (sa =? sb) eqn:E2; [apply Z.eqb_eq in E2 | apply Z.eqb_neq in E2].
    + destruct (ub <? ua) eqn:E3; [apply Z.ltb_lt in E3 | apply Z.ltb_ge in E3];
        symmetry; [apply Z.ltb_lt | apply Z.ltb_ge]; nia.
    + destruct (sb <? sa) eqn:E3; [apply Z.ltb_lt in E3 | apply Z.ltb_ge in E3];
        symmetry; [apply Z.ltb_lt | apply Z.ltb_ge]; nia.
  - assert (Hday : us_per_day = 86400 * us_per_second) by reflexivity.
    destruct (qb <? qa) eqn:E3; [apply Z.ltb_lt in E3 | apply Z.ltb_ge in E3];
      symmetry; [apply Z.ltb_lt | apply Z.ltb_ge]; nia.
Qed.

Section Staleness.

Variable clock : nat -> datetime.
Variable strptime : string -> result datetime.

(** A successful [get_newest_date] leaves the world as it was. *)
Lemma get_newest_date_ok (name : string) (w w' : world) (r : option datetime) :
  get_newest_date strptime name w = (Ok r, w') -> w' = w.
Proof.
  unfold get_newest_date, try_except, mbind, M_bind, query, lift, raise, mret, M_ret.
  destruct (sql_max_date name (w_conn w)) as [v|e]; simpl.
  - destruct (value_truthy v); [|congruence].
    destruct v; simpl; try congruence.
    destruct (strptime s) as [d|e]; simpl; [congruence|].
    destruct (is_sqlite_error e); congruence.
  - destruct e; simpl; congruence.
Qed.

(** A failing [get_newest_date] raises the same error through
    [should_fetch_data], whose handler only prints. *)
Lemma try_except_reraise {A} (m : M A) (catches : exn -> bool) (line : exn -> string)
    (w : world) (e : exn) :
  fst (m w) = Raise e ->
  fst (try_except m catches (fun e => print (line e);; raise e) w) = Raise e.
Proof.
  unfold try_except. destruct (m w) as [[a|e'] w']; simpl; [discriminate|].
  intros [= ->]. destruct (catches e); reflexivity.
Qed.

Lemma try_except_ok {A} (m : M A) (catches : exn -> bool) (h : exn -> M A)
    (w w' : world) (a : A) :
  m w = (Ok a, w') -> try_except m catches h w = (Ok a, w').
Proof. unfold try_except. now intros ->. Qed.

(** What [get_newest_date] returns on a table with a date column: the
    parse of the greatest stored date text, or nothing when [MAX(date)] is
    NULL or empty. *)
Lemma get_newest_date_reads_max (name : string) (w : world) (t : table) (i : nat) :
  current (w_conn w) !! name = Some t ->
  ci_index_of "date" (map fst (t_columns t)) = Some i ->
  fst (get_newest_date strptime name w) =
    match sql_max (column_values i (t_rows t)) with
    | VText s => if String.eqb s "" then Ok None else Some <$> strptime s
    | v => if value_truthy v then Raise TypeError else Ok None
    end.
Proof.
  intros Ht Hi.
  unfold get_newest_date, try_except, mbind, M_bind, query, sql_max_date.
  rewrite Ht, Hi. fold (column_values i (t_rows t)).
  destruct (sql_max (column_values i (t_rows t))) as [|z|q|b|s]; simpl.
  - reflexivity.
  - destruct (z =? 0); reflexivity.
  - destruct (Qeq_bool q 0); reflexivity.
  - reflexivity.
  - destruct (String.eqb s ""); simpl; [reflexivity|].
    unfold lift. destruct (strptime s) as [d|e]; simpl; [reflexivity|].
    destruct (is_sqlite_error e); reflexivity.
Qed.

(** C1, as the code has it. On a table that exists [should_fetch_data]
    returns true when the table has no row, when it has no newest date, or
    when the newest date is more than [max_age_hours] before now, and false
    otherwise; an error of [get_newest_date] is raised on. On a table that
    does not exist it raises the database error (every caller asks
    [table_exists] first). *)
Theorem should_fetch_data_policy (name : string) (max_age_hours : Z) (w : world) :
  let answer := fst (should_fetch_data clock strptime name max_age_hours w) in
  match current (w_conn w) !! name with
  | None => answer = Raise (SqliteError "no such table")
  | Some t =>
      match t_rows t with
      | [] => answer = Ok true
      | _ :: _ =>
          match fst (get_newest_date strptime name w) with
          | Ok None => answer = Ok true
          | Ok (Some newest) =>
              answer = Ok (max_age_hours * 3600 * us_per_second
                           <? clock (w_ticks w) - newest)
          | Raise e => answer = Raise e
          end
      end
  end.
Proof.
  intros answer; subst answer.
  destruct (current (w_conn w) !! name) as [t|] eqn:Ht.
  - destruct (t_rows t) as [|row rows] eqn:Hr.
    + unfold should_fetch_data, try_except, mbind, M_bind, query, sql_count.
      rewrite Ht, Hr. reflexivity.
    + destruct (get_newest_date strptime name w) as [[[d|]|e] w1] eqn:Hn; simpl.
      * pose proof (get_newest_date_ok _ _ _ _ Hn) as ->.
        unfold should_fetch_data, try_except, mbind, M_bind, query, sql_count.
        rewrite Ht, Hr. cbn [length].
        change (Z.of_nat (S (length rows)) =? 0) with false; cbv beta iota.
        rewrite Hn.
        unfold datetime_now, mret, M_ret; simpl.
        unfold datetime_sub, timedelta_hours. rewrite timedelta_gtb_of_us.
        destruct (_ <? _); reflexivity.
      * pose proof (get_newest_date_ok _ _ _ _ Hn) as ->.
        unfold should_fetch_data, try_except, mbind, M_bind, query, sql_count.
        rewrite Ht, Hr. cbn [length].
        change (Z.of_nat (S (length rows)) =? 0) with false; cbv beta iota.
        rewrite Hn. reflexivity.
      * apply try_except_reraise.
        unfold mbind, M_bind, query, sql_count.
        rewrite Ht, Hr. cbn [length].
        change (Z.of_nat (S (length rows)) =? 0) with false; cbv beta iota.
        rewrite Hn. reflexivity.
  - apply try_except_reraise.
    unfold mbind, M_bind, query, sql_count. rewrite Ht. reflexivity.
Qed.

End Staleness.

(** C1 fails as stated on a table that does not exist: the policy raises
    the database error instead of returning true. *)
Lemma should_fetch_data_absent_raises :
  sql_table_exists "price_history" (w_conn empty_world) = false /\
  fst (should_fetch_data clock_2023 iso_strptime "price_history" 24 empty_world)
    = Raise (SqliteError "no such table") /\
  fst (should_fetch_data clock_2023 iso_strptime "price_history" 24 empty_world)
    <> Ok true.
Proof. repeat split. discriminate. Qed.

(** *** Skipping the update of a fresh table *)

Section Skip.

Variable CRYPTOCURRENCIES : list string.
Variable API_KEY : string.
Variable http : nat -> string -> result response.
Variable clock : nat -> datetime.
Variable strftime : datetime -> string.
Variable strptime : string -> result datetime.
Variable pct_pad : bool.

Lemma table_exists_eq (name : string) (w : world) :
  table_exists name w = (Ok (sql_table_exists name (w_conn w)), w).
Proof. reflexivity. Qed.

(** Reading the newest date changes neither the connection nor the
    request log, whether it returns or raises. *)
Lemma get_newest_date_frame (name : string) (w : world) :
  let w' := snd (get_newest_date strptime name w) in
  w_conn w' = w_conn w /\ w_requests w' = w_requests w /\ w_ticks w' = w_ticks w.
Proof.
  unfold get_newest_date, try_except, mbind, M_bind, query, lift, raise, mret, M_ret.
  destruct (sql_max_date name (w_conn w)) as [v|e]; simpl.
  - destruct (value_truthy v); [|auto].
    destruct v; simpl; auto.
    destruct (strptime s) as [d|e]; simpl; auto.
    destruct (is_sqlite_error e); simpl; auto.
  - destruct e; simpl; auto.
Qed.

(** So does the staleness policy. *)
Lemma should_fetch_data_frame (name : string) (age : Z) (w : world) :
  let w' := snd (should_fetch_data clock strptime name age w) in
  w_conn w' = w_conn w /\ w_requests w' = w_requests w.
Proof.
  unfold should_fetch_data, try_except, mbind, M_bind, query.
  destruct (sql_count name (w_conn w)) as [n|e]; simpl.
  - destruct (n =? 0); simpl; [auto|].
    pose proof (get_newest_date_frame name w) as (Hc & Hr & _).
    destruct (get_newest_date strptime name w) as [[[d|]|e] w1]; simpl in *.
    + destruct (timedelta_gtb _ _); simpl; auto.
    + auto.
    + destruct (is_sqlite_error e); simpl; auto.
  - destruct (is_sqlite_error e); simpl; auto.
Qed.

(** The guard every populate operation starts with. *)
Lemma fresh_guard (name : string) (age : Z) (w : world) :
  fresh_table clock strptime name age w ->
  sql_table_exists name (w_conn w) = true /\
  exists w',
    (negb <$> should_fetch_data clock strptime name age) w = (Ok true, w') /\
    w_conn w' = w_conn w /\ w_requests w' = w_requests w.
Proof.
  intros [He Hs]. rewrite table_exists_eq in He. simpl in He. injection He as He.
  split; [exact He|].
  pose proof (should_fetch_data_frame name age w) as [Hc Hr].
  unfold fmap, M_fmap.
  destruct (should_fetch_data clock strptime name age w) as [[b|e] w1];
    simpl in *; [|discriminate].
  injection Hs as ->. eauto.
Qed.

Lemma mbind_ok {A B} (m : M A) (f : A -> M B) (w w' : world) (a : A) :
  m w = (Ok a, w') -> (m ≫= f) w = f a w'.
Proof. unfold mbind, M_bind. now intros ->. Qed.

Ltac skip_by_guard H :=
  destruct (fresh_guard _ _ _ H) as (He & w1 & Hg & Hc & Hr);
  unfold skips; erewrite mbind_ok by apply table_exists_eq;
  rewrite He; erewrite mbind_ok by exact Hg;
  eexists; split; [reflexivity | simpl; auto].

(** C9: when the target table exists and [should_fetch_data] returns
    false, each populate operation returns at once: it sends no HTTP
    request and leaves the whole database state unchanged. *)
Theorem populate_skips_when_fresh :
  (forall w, fresh_table clock strptime "market_cap" 24 w ->
             skips (populate_market_cap CRYPTOCURRENCIES API_KEY http clock
                      strftime strptime) w) /\
  (forall w, fresh_table clock strptime "trading_volumes" 24 w ->
             skips (populate_trading_volumes CRYPTOCURRENCIES API_KEY http clock
                      strftime strptime) w) /\
  (forall w, fresh_table clock strptime "price_history" (24 * 60) w ->
             skips (populate_historic_prices CRYPTOCURRENCIES API_KEY http clock
                      strftime strptime pct_pad) w) /\
  (forall table_name fetch data_manipulator w,
             fresh_table clock strptime table_name 24 w ->
             skips (populate_data clock strptime table_name fetch data_manipulator) w).
Proof.
  repeat split; intros.
  - unfold populate_market_cap. skip_by_guard H.
  - unfold populate_trading_volumes. skip_by_guard H.
  - unfold populate_historic_prices. skip_by_guard H.
  - unfold populate_data. skip_by_guard H.
Qed.

End Skip.

(** C9 on a database whose tables were all updated ten hours ago. *)
Lemma populate_skips_when_fresh_witness :
  (fresh_table clock_2023 iso_strptime "market_cap" 24 fresh_world /\
   skips (populate_market_cap ["BTC"; "ETH"] "KEY" http_down clock_2023
            iso_strftime iso_strptime) fresh_world) /\
  (fresh_table clock_2023 iso_strptime "trading_volumes" 24 fresh_world /\
   skips (populate_trading_volumes ["BTC"; "ETH"] "KEY" http_down clock_2023
            iso_strftime iso_strptime) fresh_world) /\
  (fresh_table clock_2023 iso_strptime "price_history" (24 * 60) fresh_world /\
   skips (populate_historic_prices ["BTC"; "ETH"] "KEY" http_down clock_2023
            iso_strftime iso_strptime true) fresh_world) /\
  (fresh_table clock_2023 iso_strptime "coin_info" 24 fresh_world /\
   skips (populate_data clock_2023 iso_strptime "coin_info"
            (fetch_coin_info http_down clock_2023 iso_strftime ["BTC"; "ETH"]) None)
         fresh_world).
Proof.
  destruct (populate_skips_when_fresh ["BTC"; "ETH"] "KEY" http_down clock_2023
              iso_strftime iso_strptime true) as (Hm & Hv & Hp & Hd).
  assert (H1 : fresh_table clock_2023 iso_strptime "market_cap" 24 fresh_world)
    by (split; vm_compute; reflexivity).
  assert (H2 : fresh_table clock_2023 iso_strptime "trading_volumes" 24 fresh_world)
    by (split; vm_compute; reflexivity).
  assert (H3 : fresh_table clock_2023 iso_strptime "price_history" (24 * 60) fresh_world)
    by (split; vm_compute; reflexivity).
  assert (H4 : fresh_table clock_2023 iso_strptime "coin_info" 24 fresh_world)
    by (split; vm_compute; reflexivity).
  split; [exact (conj H1 (Hm _ H1))|].
  split; [exact (conj H2 (Hv _ H2))|].
  split; [exact (conj H3 (Hp _ H3))|].
  exact (conj H4 (Hd _ _ _ _ H4)).
Defined.

(** *** Rolling back a failed insert *)

Lemma mapM_bind_python_error (row : list cell) (e : exn) :
  mapM bind_python row = Raise e -> is_sqlite_error e = true.
Proof.
  revert e. induction row as [|x row IH]; intros e; simpl; [discriminate|].
  unfold mbind, result_bind.
  destruct x; simpl; try (intros [= <-]; reflexivity);
    (destruct (mapM bind_python row) as [vs|e'] eqn:Hm;
     [discriminate | intros [= <-]; now apply IH]).
Qed.

Lemma sql_insert_row_error (name : string) (icols : list string)
    (vals : list value) (c : connection) (e : exn) :
  sql_insert_row name icols vals c = Raise e -> is_sqlite_error e = true.
Proof.
  unfold sql_insert_row.
  destruct (negb _); [intros [= <-]; reflexivity|].
  destruct (current c !! name) as [t|]; [|intros [= <-]; reflexivity].
  destruct (violates_key _ _); [intros [= <-]; reflexivity | discriminate].
Qed.

(** Inside an open transaction an INSERT touches the pending catalogue only. *)
Lemma sql_insert_row_committed (name : string) (icols : list string)
    (vals : list value) (c c' : connection) :
  is_Some (pending c) ->
  sql_insert_row name icols vals c = Ok c' ->
  committed c' = committed c /\ is_Some (pending c').
Proof.
  intros [p Hp]. unfold sql_insert_row.
  destruct (negb _); [discriminate|].
  destruct (current c !! name) as [t|]; [|discriminate].
  destruct (violates_key _ _); [discriminate|].
  intros [= <-]. unfold apply_stmt. rewrite Hp. simpl. eauto.
Qed.

Lemma insert_rows_spec (name : string) (icols : list string)
    (rows : list (list cell)) (c : connection) :
  is_Some (pending c) ->
  let out := insert_rows bind_python name icols rows c in
  committed (snd out) = committed c /\
  (forall e, fst out = Raise e -> is_sqlite_error e = true).
Proof.
  revert c. induction rows as [|row rows IH]; intros c Hp; simpl.
  - split; [reflexivity | discriminate].
  - destruct (mapM bind_python row) as [vals|e] eqn:Hb; simpl.
    + destruct (sql_insert_row name icols vals c) as [c'|e] eqn:Hi; simpl.
      * destruct (sql_insert_row_committed _ _ _ _ _ Hp Hi) as [Hc Hp'].
        destruct (IH c' Hp') as [H1 H2]. split; [congruence | exact H2].
      * split; [reflexivity|]. intros e' [= <-].
        eapply sql_insert_row_error; eauto.
    + split; [reflexivity|]. intros e' [= <-].
      eapply mapM_bind_python_error; eauto.
Qed.

Lemma sql_executemany_insert_spec (name : string) (icols : list string)
    (rows : list (list cell)) (c : connection) :
  let out := sql_executemany_insert bind_python name icols rows c in
  committed (snd out) = committed c /\
  (forall e, fst out = Raise e -> is_sqlite_error e = true).
Proof.
  unfold sql_executemany_insert.
  destruct (sql_prepare_insert name icols c) as [[]|e] eqn:Hprep; simpl.
  - assert (Hb : is_Some (pending (begin c))).
    { unfold begin. destruct (pending c) eqn:Hp; simpl; [rewrite Hp|]; eauto. }
    destruct (insert_rows_spec name icols rows (begin c) Hb) as [H1 H2].
    split; [|exact H2].
    rewrite H1. unfold begin. destruct (pending c); reflexivity.
  - split; [reflexivity|]. intros e' [= <-].
    unfold sql_prepare_insert in Hprep.
    destruct (current c !! name) as [t|]; [|injection Hprep as <-; reflexivity].
    destruct icols; [injection Hprep as <-; reflexivity|].
    destruct (forallb _ _); [discriminate | injection Hprep as <-; reflexivity].
Qed.

(** No operation on the database leaves a transaction open: the
    statements of [create_table] run in autocommit mode, and the others end
    with a commit or a rollback. *)
Lemma create_table_no_transaction (name : string) (columns : list (string * string))
    (w : world) :
  pending (w_conn w) = None ->
  pending (w_conn (snd (create_table name columns w))) = None.
Proof.
  intros Hp. unfold create_table, try_except, execute, sql_create_table.
  destruct columns as [|c cs]; [exact Hp|].
  destruct (current (w_conn w) !! name); simpl; [exact Hp|].
  destruct (negb _); simpl; [exact Hp|].
  unfold apply_stmt. now rewrite Hp.
Qed.

Lemma drop_table_no_transaction (name : string) (w : world) :
  pending (w_conn (snd (drop_table name w))) = None.
Proof. reflexivity. Qed.

Lemma insert_dataframe_no_transaction (name : string) (df : DataFrame) (w : world) :
  pending (w_conn (snd (insert_dataframe name df w))) = None.
Proof.
  unfold insert_dataframe, try_except, mbind, M_bind, execute_rows, execute, set_conn, raise.
  pose proof (sql_executemany_insert_spec name (df_columns df) (df_rows df) (w_conn w))
    as [_ He].
  destruct (sql_executemany_insert bind_python name (df_columns df) (df_rows df)
              (w_conn w)) as [[[]|e] c]; simpl in *; [reflexivity|].
  now rewrite (He e eq_refl).
Qed.

Lemma to_sql_no_transaction (strftime : datetime -> string) (name : string)
    (replace : bool) (df : DataFrame) (w : world) :
  pending (w_conn w) = None ->
  pending (w_conn (snd (to_sql strftime name replace df w))) = None.
Proof.
  intros Hp. unfold to_sql, mbind at 1, M_bind at 1, query.
  set (body := try_except _ _ _).
  assert (Hbody : forall w1, pending (w_conn (snd (body w1))) = None).
  { intros w1. subst body.
    unfold try_except, mbind, M_bind, execute_rows, execute, set_conn, raise.
    destruct (sql_executemany_insert _ _ _ _ _) as [[[]|e] c]; reflexivity. }
  unfold mbind, M_bind.
  destruct (sql_table_exists name (w_conn w) && negb replace); [apply Hbody|].
  assert (Hcreate : forall w1, pending (w_conn w1) = None ->
            pending (w_conn (snd
              (match execute (sql_create_table name
                       (combine (df_columns df) (map sql_type_of (df_dtypes df)))) w1 with
               | (Ok _, w') => body w'
               | (Raise e, w') => (Raise e, w')
               end))) = None).
  { intros w1 Hp1. unfold execute, sql_create_table.
    destruct (combine _ _); [exact Hp1|].
    destruct (current (w_conn w1) !! name); simpl; [apply Hbody|].
    destruct (negb _); simpl; [exact Hp1 | apply Hbody]. }
  destruct (sql_table_exists name (w_conn w)).
  - refine (Hcreate (mk_world (sql_drop_table name (w_conn w)) (w_requests w)
                               (w_ticks w) (w_stdout w)) _).
    simpl. unfold sql_drop_table, apply_stmt. now rewrite Hp.
  - exact (Hcreate w Hp).
Qed.


(** In the example the row before the failing one is in the open
    transaction when the error is raised; the rollback is what removes it. *)
Example failed_batch_leaves_row_pending :
  let out := sql_executemany_insert bind_python "coin_info" coin_info_columns
               (df_rows eth_then_btc) (w_conn keyed_world) in
  fst out = Raise (SqliteError "UNIQUE constraint failed") /\
  (t_rows <$> (current (snd out) !! "coin_info"))
    = Some (t_rows coin_info_keyed
            ++ [[VText "ETH"; VText "Ethereum"; VText "Another"; VText "/eth.png";
                 VText "2023-11-14 22:13:20"]]).
Proof. split; vm_compute; reflexivity. Qed.


(** *** HTTP status checks *)

(** [fetch_price_history] raises on the first 4xx or 5xx answer, after that
    one request. *)
Lemma fetch_price_history_raises_on_error_status
    (http : nat -> string -> result response) (url symbol : string)
    (urls coins : list string) (w : world) (r : response) :
  http (length (w_requests w)) url = Ok r ->
  400 <= status_code r < 600 ->
  fetch_price_history http (url :: urls) (symbol :: coins) w =
    (Raise (HTTPError (status_code r)),
     mk_world (w_conn w) (url :: w_requests w) (w_ticks w) (w_stdout w)).
Proof.
  intros Hr Hs. unfold fetch_price_history; simpl.
  unfold mbind, M_bind, requests_get. rewrite Hr.
  unfold lift, raise_for_status.
  replace ((400 <=? status_code r) && (status_code r <? 600)) with true; [reflexivity|].
  symmetry. apply andb_true_iff. split; [apply Z.leb_le | apply Z.ltb_lt]; lia.
Qed.

(** [fetch_trading_volumes] does the same. *)
Lemma fetch_trading_volumes_raises_on_error_status
    (API_KEY : string) (http : nat -> string -> result response) (symbol : string)
    (coins : list string) (limit end_timestamp : Z) (w : world) (r : response) :
  http (length (w_requests w)) (histoday_url API_KEY symbol limit end_timestamp) = Ok r ->
  400 <= status_code r < 600 ->
  fetch_trading_volumes API_KEY http (symbol :: coins) limit end_timestamp w =
    (Raise (HTTPError (status_code r)),
     mk_world (w_conn w) (histoday_url API_KEY symbol limit end_timestamp :: w_requests w)
              (w_ticks w) (w_stdout w)).
Proof.
  intros Hr Hs. unfold fetch_trading_volumes; simpl.
  unfold mbind, M_bind, requests_get. rewrite Hr.
  unfold lift, raise_for_status.
  replace ((400 <=? status_code r) && (status_code r <? 600)) with true; [reflexivity|].
  symmetry. apply andb_true_iff. split; [apply Z.leb_le | apply Z.ltb_lt]; lia.
Qed.

(** C6 does not hold for the market-cap and coin-list fetches: they never
    look at the status. An answer with status 500 and a JSON body is
    accepted, [fetch_market_cap] and [fetch_coin_info] return normally, and
    [populate_market_cap] goes on to replace the stored table; the
    price-history fetch raises on the same answer. *)
Theorem fetch_market_cap_ignores_status :
  fst (fetch_market_cap "KEY" http_500 "BTC" stale_world)
    = Ok (JObj [("BTC", JObj [("USD", JObj [("MKTCAP", JInt 700)])])]) /\
  fst (fetch_coin_info http_500 clock_2023 iso_strftime ["BTC"] stale_world)
    = Ok (mk_df coin_info_columns
            [[CStr "BTC"; CStr "Bitcoin"; CStr "New text";
              CStr "https://www.cryptocompare.com/btc.png";
              CStr "2023-11-14 22:13:20"]]) /\
  (let out := populate_market_cap ["BTC"] "KEY" http_500 clock_2023
                iso_strftime iso_strptime stale_world in
   fst out = Ok tt /\
   rows_of "market_cap" (snd out)
     = Some [[VText "BTC"; VNum 700; VText "2023-11-14 22:13:20"]]) /\
  fst (fetch_price_history http_500 ["u"] ["BTC"] stale_world) = Raise (HTTPError 500).
Proof. repeat split; vm_compute; reflexivity. Qed.

(** *** Append and replace *)

(** C8 does not hold for the coin-info table: [populate_data] creates the
    table only if it is missing and then inserts, so on a stale table the
    rows stored before are still there after a successful update. *)
Theorem populate_data_keeps_old_coin_info :
  let out := populate_data clock_2023 iso_strptime "coin_info"
               (fetch_coin_info http_ok clock_2023 iso_strftime ["BTC"]) None
               stale_world in
  fst (should_fetch_data clock_2023 iso_strptime "coin_info" 24 stale_world) = Ok true /\
  fst out = Ok tt /\
  rows_of "coin_info" (snd out)
    = Some (t_rows stale_coin_info
            ++ [[VText "BTC"; VText "Bitcoin"; VText "New text";
                 VText "https://www.cryptocompare.com/btc.png";
                 VText "2023-11-14 22:13:20"]]).
Proof. repeat split; vm_compute; reflexivity. Qed.

(** On the same database the market-cap table is replaced and the two
    history tables are appended to. *)
Example populate_market_cap_replaces :
  let out := populate_market_cap ["BTC"] "KEY" http_ok clock_2023
               iso_strftime iso_strptime stale_world in
  fst out = Ok tt /\
  rows_of "market_cap" (snd out)
    = Some [[VText "BTC"; VNum 700; VText "2023-11-14 22:13:20"]].
Proof. repeat split; vm_compute; reflexivity. Qed.

Example populate_historic_prices_appends :
  let out := populate_historic_prices ["BTC"] "KEY" http_ok clock_2023
               iso_strftime iso_strptime true stale_world in
  fst out = Ok tt /\
  rows_of "price_history" (snd out)
    = Some (t_rows stale_price_history
            ++ [[VInt 2; VText "BTC"; VText "2023-11-14 00:00:00"; VNum 35000; VNull];
                [VInt 3; VText "BTC Change"; VText "2023-11-14 00:00:00"; VNull; VNull]]).
Proof. repeat split; vm_compute; reflexivity. Qed.

Example populate_trading_volumes_appends :
  let out := populate_trading_volumes ["BTC"] "KEY" http_ok clock_2023
               iso_strftime iso_strptime stale_world in
  fst out = Ok tt /\
  rows_of "trading_volumes" (snd out)
    = Some (t_rows stale_trading_volumes
            ++ [[VInt 2; VText "BTC"; VText "2023-11-14 00:00:00"; VNum 1200]]).
Proof. repeat split; vm_compute; reflexivity. Qed.

(** [populate_coin_data], which [main] no longer calls, drops the table
    before it creates it; its insert is commented out. *)
Example populate_coin_data_drops :
  let out := populate_coin_data ["BTC"] http_ok clock_2023 iso_strftime iso_strptime
               stale_world in
  rows_of "coin_info" (snd out) = Some [].
Proof. vm_compute; reflexivity. Qed.

(** *** Data frame columns *)

Lemma index_of_lt (name : string) (l : list string) (i : nat) :
  index_of name l = Some i -> (i < length l)%nat.
Proof.
  revert i. induction l as [|c l IH]; intros i; simpl; [discriminate|].
  destruct (String.eqb c name); [intros [= <-]; lia|].
  destruct (index_of name l) as [j|]; simpl; [|discriminate].
  intros [= <-]. specialize (IH j eq_refl). lia.
Qed.

Lemma index_of_app_l (name : string) (l m : list string) (i : nat) :
  index_of name l = Some i -> index_of name (l ++ m) = Some i.
Proof.
  revert i. induction l as [|c l IH]; intros i; simpl; [discriminate|].
  destruct (String.eqb c name); [auto|].
  destruct (index_of name l) as [j|]; simpl; [|discriminate].
  intros [= <-]. now rewrite (IH j eq_refl).
Qed.

Lemma index_of_app_new (name : string) (l : list string) :
  index_of name l = None -> index_of name (l ++ [name]) = Some (length l).
Proof.
  induction l as [|c l IH]; simpl.
  - now rewrite String.eqb_refl.
  - destruct (String.eqb c name); [discriminate|].
    destruct (index_of name l) as [j|]; simpl; [discriminate|].
    intros _. now rewrite IH.
Qed.

Lemma index_of_app_other (name other : string) (l : list string) :
  index_of name l = None -> other <> name -> index_of name (l ++ [other]) = None.
Proof.
  intros Hn Hne. induction l as [|c l IH]; simpl in *.
  - apply String.eqb_neq in Hne. now rewrite Hne.
  - destruct (String.eqb c name); [discriminate|].
    destruct (index_of name l) as [j|]; simpl in *; [discriminate|].
    now rewrite IH.
Qed.

Lemma index_of_inj (a b : string) (l : list string) (i : nat) :
  index_of a l = Some i -> index_of b l = Some i -> a = b.
Proof.
  revert i. induction l as [|c l IH]; intros i; simpl; [discriminate|].
  destruct (String.eqb c a) eqn:Ea, (String.eqb c b) eqn:Eb.
  - apply String.eqb_eq in Ea, Eb. congruence.
  - intros [= <-]. destruct (index_of b l); simpl; discriminate.
  - destruct (index_of a l); simpl; [|discriminate]. intros [= <-]. discriminate.
  - destruct (index_of a l) as [j|], (index_of b l) as [k|]; simpl; try discriminate.
    intros [= <-] [= ->]. eauto.
Qed.

Lemma length_list_set {A} (i : nat) (x : A) (l : list A) :
  length (list_set i x l) = length l.
Proof.
  revert i. induction l as [|h l IH]; intros [|i]; simpl; auto.
Qed.

Lemma row_get_list_set_same (i : nat) (x : cell) (r : list cell) :
  (i < length r)%nat -> row_get i (list_set i x r) = x.
Proof.
  unfold row_get. revert i. induction r as [|h r IH]; intros [|i]; simpl; try lia; auto.
  intros H. apply IH. lia.
Qed.

Lemma row_get_list_set_other (i j : nat) (x : cell) (r : list cell) :
  i <> j -> row_get j (list_set i x r) = row_get j r.
Proof.
  unfold row_get. revert i j. induction r as [|h r IH]; intros [|i] [|j]; simpl;
    try congruence; auto.
Qed.

Lemma row_get_app_last (r : list cell) (x : cell) :
  row_get (length r) (r ++ [x]) = x.
Proof. unfold row_get. induction r; simpl; auto. Qed.

Lemma row_get_app_lt (j : nat) (r : list cell) (x : cell) :
  (j < length r)%nat -> row_get j (r ++ [x]) = row_get j r.
Proof. unfold row_get. intros H. now apply app_nth1. Qed.

Lemma map_combine_values {A B} (f : A -> B -> B) (rows : list A) (vals : list B) :
  length vals = length rows ->
  (forall r v, In r rows -> f r v = v) ->
  map (fun rv => f (fst rv) (snd rv)) (combine rows vals) = vals.
Proof.
  revert vals. induction rows as [|r rows IH]; intros [|v vals]; simpl;
    try discriminate; auto.
  intros [= Hl] Hf. f_equal; auto.
Qed.

Lemma map_combine_rows {A B C} (f : A -> B -> C) (g : A -> C)
    (rows : list A) (vals : list B) :
  length vals = length rows ->
  (forall r v, In r rows -> f r v = g r) ->
  map (fun rv => f (fst rv) (snd rv)) (combine rows vals) = map g rows.
Proof.
  revert vals. induction rows as [|r rows IH]; intros [|v vals]; simpl;
    try discriminate; auto.
  intros [= Hl] Hf. f_equal; auto.
Qed.

Lemma df_wf_row (df : DataFrame) (r : list cell) :
  df_wf df -> In r (df_rows df) -> length r = length (df_columns df).
Proof. unfold df_wf. rewrite List.Forall_forall. auto. Qed.

Lemma df_set_wf (name : string) (vals : list cell) (df : DataFrame) :
  df_wf df -> df_wf (df_set name vals df).
Proof.
  intros Hwf. unfold df_set, df_wf.
  destruct (index_of name (df_columns df)) as [i|]; simpl;
    apply List.Forall_forall; intros r Hin; apply in_map_iff in Hin as ([r0 v] & <- & Hin);
    apply in_combine_l in Hin; simpl.
  - rewrite length_list_set. now apply df_wf_row.
  - rewrite !length_app. simpl. f_equal. now apply df_wf_row.
Qed.

Lemma df_set_rows_length (name : string) (vals : list cell) (df : DataFrame) :
  length vals = length (df_rows df) ->
  length (df_rows (df_set name vals df)) = length (df_rows df).
Proof.
  intros Hl. unfold df_set.
  destruct (index_of name (df_columns df)); simpl;
    rewrite length_map, length_combine; lia.
Qed.

Lemma df_get_length (name : string) (df : DataFrame) (col : list cell) :
  df_get name df = Ok col -> length col = length (df_rows df).
Proof.
  unfold df_get. destruct (index_of _ _); [|discriminate].
  intros [= <-]. apply length_map.
Qed.

Lemma df_get_set_same (name : string) (vals : list cell) (df : DataFrame) :
  df_wf df -> length vals = length (df_rows df) ->
  df_get name (df_set name vals df) = Ok vals.
Proof.
  intros Hwf Hl. unfold df_set, df_get.
  destruct (index_of name (df_columns df)) as [i|] eqn:Hi; simpl.
  - rewrite Hi. f_equal. rewrite map_map.
    apply (map_combine_values (fun r v => row_get i (list_set i v r))); auto.
    intros r v Hin. apply row_get_list_set_same.
    rewrite (df_wf_row _ _ Hwf Hin). eapply index_of_lt; eauto.
  - rewrite (index_of_app_new _ _ Hi). f_equal. rewrite map_map.
    apply (map_combine_values
             (fun r v => row_get (length (df_columns df)) (r ++ [v]))); auto.
    intros r v Hin. rewrite <- (df_wf_row _ _ Hwf Hin). apply row_get_app_last.
Qed.

Lemma df_get_set_other (name other : string) (vals : list cell) (df : DataFrame) :
  df_wf df -> length vals = length (df_rows df) -> other <> name ->
  df_get other (df_set name vals df) = df_get other df.
Proof.
  intros Hwf Hl Hne. unfold df_set, df_get.
  destruct (index_of name (df_columns df)) as [i|] eqn:Hi; simpl.
  - destruct (index_of other (df_columns df)) as [j|] eqn:Hj; [|reflexivity].
    f_equal. rewrite map_map.
    apply (map_combine_rows (fun r v => row_get j (list_set i v r))); auto.
    intros r v _. apply row_get_list_set_other.
    intros ->. apply Hne. eapply index_of_inj; eauto.
  - destruct (index_of other (df_columns df)) as [j|] eqn:Hj.
    + rewrite (index_of_app_l _ _ _ _ Hj). f_equal. rewrite map_map.
      apply (map_combine_rows (fun r v => row_get j (r ++ [v]))); auto.
      intros r v Hin. apply row_get_app_lt.
      rewrite (df_wf_row _ _ Hwf Hin). eapply index_of_lt; eauto.
    + rewrite index_of_app_other; auto.
Qed.

(** *** Column names *)

Lemma list_ascii_of_string_app (a b : string) :
  list_ascii_of_string (a +:+ b) = list_ascii_of_string a ++ list_ascii_of_string b.
Proof.
  induction a as [|c a IH]; [reflexivity|].
  change (list_ascii_of_string (String c a +:+ b))
    with (c :: list_ascii_of_string (a +:+ b)).
  now rewrite IH.
Qed.

Lemma append_inj_r (a b s : string) : a +:+ s = b +:+ s -> a = b.
Proof.
  intros H. apply (f_equal list_ascii_of_string) in H.
  rewrite !list_ascii_of_string_app in H.
  apply app_inj_2 in H as [H _]; [|reflexivity].
  apply (f_equal string_of_list_ascii) in H.
  now rewrite !string_of_list_ascii_of_string in H.
Qed.

(** No price column is named like a price-change column. *)
Lemma price_is_not_change (a b : string) :
  a +:+ " Price" <> b +:+ " Price Change".
Proof.
  intros H. apply (f_equal list_ascii_of_string) in H.
  rewrite !list_ascii_of_string_app in H.
  change (list_ascii_of_string " Price Change")
    with (list_ascii_of_string " Price " ++ list_ascii_of_string "Change") in H.
  rewrite app_assoc in H.
  apply app_inj_2 in H as [_ H]; [discriminate | reflexivity].
Qed.

(** *** Percentage change *)

Lemma mapM_result_length {A B} (f : A -> result B) (l : list A) (r : list B) :
  mapM f l = Ok r -> length r = length l.
Proof.
  revert r. induction l as [|x l IH]; intros r; simpl.
  - now intros [= <-].
  - unfold mbind, result_bind. destruct (f x); [|discriminate].
    destruct (mapM f l) as [r'|]; [|discriminate].
    intros [= <-]. simpl. f_equal. now apply IH.
Qed.

Lemma mapM_result_lookup {A B} (f : A -> result B) (l : list A) (r : list B)
    (i : nat) (x : A) :
  mapM f l = Ok r -> l !! i = Some x -> exists y, f x = Ok y /\ r !! i = Some y.
Proof.
  revert r i. induction l as [|h l IH]; intros r i; simpl; [discriminate 2|].
  unfold mbind, result_bind. destruct (f h) as [y|] eqn:Hy; [|discriminate].
  destruct (mapM f l) as [r'|] eqn:Hm; [|discriminate].
  intros [= <-]. destruct i as [|i]; simpl.
  - intros [= <-]. eauto.
  - intros Hx. eapply IH; eauto.
Qed.

Lemma ffill_length (last : cell) (l : list cell) : length (ffill last l) = length l.
Proof. revert last. induction l; intros; simpl; auto. Qed.

(** Forward fill leaves the cells that are not missing where they are. *)
Lemma ffill_lookup (last : cell) (l : list cell) (i : nat) (c : cell) :
  l !! i = Some c -> isnull c = false -> ffill last l !! i = Some c.
Proof.
  revert last i. induction l as [|h l IH]; intros last [|i]; simpl; try discriminate.
  - intros [= ->] ->. reflexivity.
  - intros Hc Hn. now apply IH.
Qed.

Lemma pct_from_length (prev : cell) (l r : list cell) :
  pct_from prev l = Ok r -> length r = length l.
Proof.
  revert prev r. induction l as [|c l IH]; intros prev r; simpl.
  - now intros [= <-].
  - unfold mbind, result_bind.
    destruct (cell_div c prev); [|discriminate].
    destruct (cell_sub _ _); [|discriminate].
    destruct (pct_from c l) as [r'|] eqn:Hr; [|discriminate].
    intros [= <-]. simpl. f_equal. eauto.
Qed.

(** The first row has nothing to be compared with. *)
Lemma pct_from_head (c : cell) (l r : list cell) :
  pct_from CNull (c :: l) = Ok r -> r !! 0%nat = Some CNull.
Proof.
  simpl. unfold mbind, result_bind.
  destruct c; simpl; try discriminate;
    (destruct (pct_from _ l); [|discriminate]); now intros [= <-].
Qed.

(** Every later row is divided by the row before it. *)
Lemma pct_from_lookup (p : cell) (l r : list cell) (i : nat) (prev curr : cell) :
  pct_from p l = Ok r ->
  l !! i = Some prev -> l !! S i = Some curr ->
  exists q d, cell_div curr prev = Ok q /\ cell_sub q (CNum 1) = Ok d /\
              r !! S i = Some d.
Proof.
  revert p r i. induction l as [|c l IH]; intros p r i; simpl; [discriminate 2|].
  unfold mbind, result_bind.
  destruct (cell_div c p); [|discriminate].
  destruct (cell_sub _ _); [|discriminate].
  destruct (pct_from c l) as [r'|] eqn:Hr; [|discriminate].
  intros [= <-]. destruct i as [|i]; simpl.
  - intros [= ->] Hc. destruct l as [|c' l]; [discriminate|].
    simpl in Hc. injection Hc as ->.
    simpl in Hr. unfold mbind, result_bind in Hr.
    destruct (cell_div curr prev) as [q|] eqn:Hq; [|discriminate].
    destruct (cell_sub q (CNum 1)) as [d|] eqn:Hd; [|discriminate].
    destruct (pct_from curr l); [|discriminate].
    injection Hr as <-. exists q, d. auto.
  - intros Hp Hc. eapply IH; eauto.
Qed.

Lemma price_change_of_length (pad : bool) (prices pct : list cell) :
  price_change_of pad prices = Ok pct -> length pct = length prices.
Proof.
  unfold price_change_of, mbind, result_bind, pct_change, series_mul.
  destruct (pct_from _ _) as [chg|] eqn:Hc; [|discriminate].
  intros Hm. apply mapM_result_length in Hm. apply pct_from_length in Hc.
  destruct pad; [rewrite ffill_length in Hc|]; lia.
Qed.

(** The value of a row after a row with a price. *)
Lemma price_change_of_rows (pad : bool) (prices pct : list cell) (i : nat) (prev curr : Q) :
  price_change_of pad prices = Ok pct ->
  prices !! i = Some (CNum prev) -> prices !! S i = Some (CNum curr) ->
  exists y, pct !! S i = Some y /\ percent_change (CNum prev) (CNum curr) = Ok y.
Proof.
  unfold price_change_of, mbind, result_bind, pct_change, series_mul.
  destruct (pct_from _ _) as [chg|] eqn:Hc; [|discriminate].
  intros Hm Hp Hcur.
  assert (Hp' : (if pad then ffill CNull prices else prices) !! i = Some (CNum prev))
    by (destruct pad; [apply ffill_lookup|]; auto).
  assert (Hc' : (if pad then ffill CNull prices else prices) !! S i = Some (CNum curr))
    by (destruct pad; [apply ffill_lookup|]; auto).
  destruct (pct_from_lookup _ _ _ _ _ _ Hc Hp' Hc') as (q & d & Hq & Hd & Hr).
  destruct (mapM_result_lookup _ _ _ _ _ Hm Hr) as (y & Hy & Hpct).
  exists y. split; [exact Hpct|].
  unfold percent_change, mbind, result_bind. rewrite Hq, Hd. exact Hy.
Qed.

Section PriceChange.

Variable pct_pad : bool.
Variable df0 : DataFrame.

Lemma price_change_turn_spec (df df1 : DataFrame) (coin : string) :
  df_wf df -> keeps_other_columns df0 df ->
  price_change_turn pct_pad (Ok df) coin = Ok df1 ->
  df_wf df1 /\ keeps_other_columns df0 df1 /\
  price_change_stored pct_pad df0 df1 coin /\
  (forall c, price_change_stored pct_pad df0 df c ->
             price_change_stored pct_pad df0 df1 c).
Proof.
  intros Hwf Hkeep. unfold price_change_turn. simpl. unfold mbind, result_bind.
  destruct (df_get (coin +:+ " Price") df) as [col|] eqn:Hcol; [|discriminate].
  destruct (pct_change pct_pad col) as [chg|] eqn:Hchg; [|discriminate].
  destruct (series_mul chg 100) as [pct|] eqn:Hpct; [|discriminate].
  intros [= <-].
  assert (Hpc : price_change_of pct_pad col = Ok pct).
  { unfold price_change_of, mbind, result_bind. now rewrite Hchg. }
  assert (Hlen : length pct = length (df_rows df)).
  { rewrite (price_change_of_length _ _ _ Hpc). eapply df_get_length; eauto. }
  assert (Hcol0 : df_get (coin +:+ " Price") df0 = Ok col).
  { rewrite <- Hcol. symmetry. apply Hkeep. intros c. apply price_is_not_change. }
  repeat split.
  - now apply df_set_wf.
  - intros name Hname. rewrite df_get_set_other; auto.
  - exists col, pct. repeat split; auto. now apply df_get_set_same.
  - intros c (prices & pct' & Hp & Hc & Hg).
    exists prices, pct'. repeat split; auto.
    destruct (String.eqb_spec c coin) as [->|Hne].
    + rewrite Hcol0 in Hp. injection Hp as <-.
      rewrite Hpc in Hc. injection Hc as <-. now apply df_get_set_same.
    + rewrite df_get_set_other; auto.
      intros Heq. apply Hne. eapply append_inj_r; eauto.
Qed.

Lemma calculate_price_change_loop (coins : list string) (df df' : DataFrame) :
  df_wf df -> keeps_other_columns df0 df ->
  foldl (price_change_turn pct_pad) (Ok df) coins = Ok df' ->
  df_wf df' /\ keeps_other_columns df0 df' /\
  (forall c, price_change_stored pct_pad df0 df c ->
             price_change_stored pct_pad df0 df' c) /\
  (forall c, In c coins -> price_change_stored pct_pad df0 df' c).
Proof.
  revert df. induction coins as [|coin coins IH]; intros df Hwf Hkeep.
  - intros [= <-]. repeat split; auto. intros c [].
  - change (foldl (price_change_turn pct_pad) (Ok df) (coin :: coins))
      with (foldl (price_change_turn pct_pad)
                  (price_change_turn pct_pad (Ok df) coin) coins).
    destruct (price_change_turn pct_pad (Ok df) coin) as [df1|e] eqn:Hstep.
    + intros Hfold.
      destruct (price_change_turn_spec _ _ _ Hwf Hkeep Hstep)
        as (Hwf1 & Hkeep1 & Hst1 & Hpres1).
      destruct (IH df1 Hwf1 Hkeep1 Hfold) as (Hwf' & Hkeep' & Hpres' & Hall).
      repeat split; auto.
      intros c [<-|Hin]; auto.
    + intros Hfold. exfalso. clear -Hfold.
      induction coins as [|c coins IH]; [discriminate|auto].
Qed.

End PriceChange.

Lemma price_change_of_head (pad : bool) (c : cell) (prices pct : list cell) :
  price_change_of pad (c :: prices) = Ok pct -> pct !! 0%nat = Some CNull.
Proof.
  unfold price_change_of, mbind, result_bind, pct_change, series_mul.
  destruct (pct_from _ _) as [chg|] eqn:Hc; [|discriminate].
  intros Hm.
  assert (Hh : chg !! 0%nat = Some CNull).
  { destruct pad; simpl in Hc; eapply pct_from_head; exact Hc. }
  destruct (mapM_result_lookup _ _ _ _ _ Hm Hh) as (y & Hy & Hpct).
  simpl in Hy. now injection Hy as <-.
Qed.

(** C4: for every tracked coin whose price column the frame has,
    [calculate_price_change], when it returns, has stored a change column
    with one cell per row, whose first cell is missing and whose cell after
    two consecutive prices [prev] and [curr] is the float value of
    [(curr / prev - 1) * 100], each of the three operations rounded (an
    infinity or a missing value for a zero [prev]). *)
Theorem calculate_price_change_rows (CRYPTOCURRENCIES : list string) (pct_pad : bool)
    (df df' : DataFrame) (coin : string) (prices : list cell) :
  df_wf df ->
  In coin CRYPTOCURRENCIES ->
  df_get (coin +:+ " Price") df = Ok prices ->
  calculate_price_change CRYPTOCURRENCIES pct_pad df = Ok df' ->
  exists changes,
    df_get (coin +:+ " Price Change") df' = Ok changes /\
    length changes = length prices /\
    (prices <> [] -> changes !! 0%nat = Some CNull) /\
    (forall i prev curr,
        prices !! i = Some (CNum prev) -> prices !! S i = Some (CNum curr) ->
        exists y, changes !! S i = Some y /\
                  percent_change (CNum prev) (CNum curr) = Ok y).
Proof.
  intros Hwf Hin Hprices Hcalc.
  destruct (calculate_price_change_loop pct_pad df CRYPTOCURRENCIES df df' Hwf
              (fun _ _ => eq_refl) Hcalc) as (_ & _ & _ & Hall).
  destruct (Hall coin Hin) as (prices' & pct & Hp & Hpc & Hg).
  rewrite Hprices in Hp. injection Hp as <-.
  exists pct. split; [exact Hg|]. split; [|split].
  - eapply price_change_of_length; eauto.
  - destruct prices as [|c prices]; [congruence|]. intros _.
    eapply price_change_of_head; eauto.
  - intros i prev curr Hi HSi. eapply price_change_of_rows; eauto.
Qed.

(** C4 on three days of prices, 200, 250, 225: the changes are 25 and the
    float next to -10, -9.999999999999998. *)
Lemma calculate_price_change_rows_witness :
  df_wf three_days /\
  In "BTC" ["BTC"] /\
  df_get ("BTC" +:+ " Price") three_days = Ok [CNum 200; CNum 250; CNum 225] /\
  exists df',
    calculate_price_change ["BTC"] true three_days = Ok df' /\
    exists changes,
      df_get ("BTC" +:+ " Price Change") df' = Ok changes /\
      length changes = 3%nat /\
      changes !! 0%nat = Some CNull /\
      changes !! 1%nat = Some (CNum 25) /\
      changes !! 2%nat = Some (CNum (-5629499534213119 # 562949953421312)).
Proof.
  assert (Hwf : df_wf three_days) by (repeat constructor).
  assert (Hin : In "BTC" ["BTC"]) by (left; reflexivity).
  assert (Hp : df_get ("BTC" +:+ " Price") three_days
               = Ok [CNum 200; CNum 250; CNum 225]) by reflexivity.
  destruct (calculate_price_change ["BTC"] true three_days) as [df'|e] eqn:Hc;
    [|vm_compute in Hc; discriminate].
  destruct (calculate_price_change_rows _ _ _ _ _ _ Hwf Hin Hp Hc)
    as (changes & Hg & Hl & H0 & Hrows).
  split; [exact Hwf|]. split; [exact Hin|]. split; [exact Hp|].
  exists df'. split; [reflexivity|].
  exists changes. split; [exact Hg|]. split; [exact Hl|].
  split; [apply H0; discriminate|]. split.
  - destruct (Hrows 0%nat 200%Q 250%Q eq_refl eq_refl) as (y & Hy & Hf).
    vm_compute in Hf. injection Hf as <-. exact Hy.
  - destruct (Hrows 1%nat 250%Q 225%Q eq_refl eq_refl) as (y & Hy & Hf).
    vm_compute in Hf. injection Hf as <-. exact Hy.
Defined.

(** C4 does not hold with the formula of the claim. From 250 to 225 the
    code stores -9.999999999999998, which is neither the rational
    [(225 - 250) / 250 * 100 = -10] nor what that formula gives in float
    arithmetic, -10 again. *)
Theorem calculate_price_change_not_formula :
  exists df' changes x,
    calculate_price_change ["BTC"] true three_days = Ok df' /\
    df_get "BTC Price" three_days = Ok [CNum 200; CNum 250; CNum 225] /\
    df_get "BTC Price Change" df' = Ok changes /\
    changes !! 2%nat = Some (CNum x) /\
    x = (-5629499534213119 # 562949953421312)%Q /\
    ~ (x == (225 - 250) / 250 * 100)%Q /\
    percent_formula (CNum 250) (CNum 225) = Ok (CNum (-10)).
Proof.
  eexists _, _, _.
  split; [vm_compute; reflexivity|].
  split; [reflexivity|].
  split; [vm_compute; reflexivity|].
  split; [vm_compute; reflexivity|].
  split; [reflexivity|].
  split; [|vm_compute; reflexivity].
  intros H. vm_compute in H. discriminate H.
Qed.

(** *** [round64] against the machine

    On these operands, which include ties, subnormal results, underflow to
    zero and overflow, the three cell operations give what the binary64
    arithmetic of the kernel gives. *)

Example cell_div_agrees :
  forallb (agrees cell_div PrimFloat.div)
    (flat_map (fun x => map (fun y => ((x, 0), (y, 0)))
                            [1; 3; 7; 10; 200; 250; 35000; 99991; 123456789;
                             4503599627370497; 9007199254740991])
              [1; 2; 3; 9; 225; 250; 35001; -17; 1000003; 4503599627370495;
               6755399441055745; 9007199254740991]
     ++ [((1, 0), (0, 0)); ((-1, 0), (0, 0)); ((0, 0), (0, 0)); ((0, 0), (5, 0));
         ((1, -1000), (3, 60)); ((1, -1022), (1, 52)); ((3, -1022), (1, 53));
         ((1, 1000), (1, -30)); ((9007199254740991, 971), (1, -1))]) = true.
Proof. vm_compute. reflexivity. Qed.

Example cell_sub_agrees :
  forallb (agrees cell_sub PrimFloat.sub)
    [((3, 0), (5, -60)); ((9007199254740991, 0), (1, -1));
     ((9007199254740991, 0), (1, -2)); ((9007199254740991, 1), (-1, 0));
     ((9007199254740991, 1), (-3, 0)); ((1, 0), (1, -53)); ((1, 0), (1, -54));
     ((1, 0), (-1, -53)); ((1, 0), (-1, -52)); ((1, 0), (-3, -54)); ((5, 3), (5, 3));
     ((8106479329266893, -53), (1, 0)); ((5, -2), (1, 0));
     ((9007199254740991, 971), (-9007199254740991, 971)); ((1, -1074), (3, -1074))] = true.
Proof. vm_compute. reflexivity. Qed.

Example cell_mul_agrees :
  forallb (agrees cell_mul PrimFloat.mul)
    [((3, -600), (5, -470)); ((3, -600), (5, -474)); ((3, -600), (7, -475));
     ((1, -600), (1, -474)); ((1, -600), (1, -475)); ((1, -600), (3, -476));
     ((3, 500), (5, 520)); ((1, 512), (1, 511)); ((9007199254740991, 500), (3, 470));
     ((9007199254740991, 520), (1, 451)); ((9007199254740991, 520), (2, 451));
     ((4503599627370497, -537), (3, -538)); ((123456789, -540), (987654321, -560));
     ((-7205759403792793, -56), (100, 0)); ((1, -2), (100, 0)); ((0, 0), (100, 0));
     ((-3, 0), (1, 1023))] = true.
Proof. vm_compute. reflexivity. Qed.

(** The change from 35000 to 35001, as the machine computes it. *)
Example percent_change_35001 :
  cell_same (percent_change (CNum 35000) (CNum 35001))
            (Ok (cell_of_float
                   (PrimFloat.mul
                      (PrimFloat.sub (PrimFloat.div (float_of_Z 35001) (float_of_Z 35000))
                                     (float_of_Z 1))
                      (float_of_Z 100)))) = true.
Proof. vm_compute. reflexivity. Qed.

(** *** The outer merge of two series *)

Lemma insert_key_In (k x : cell) (l : list cell) :
  In x (insert_key k l) -> x = k \/ In x l.
Proof.
  induction l as [|h l IH]; simpl.
  - intros [<-|[]]; auto.
  - destruct (cell_eqb k h); [auto|].
    destruct (cell_ltb k h); simpl.
    + intros [<-|[<-|H]]; auto.
    + intros [<-|H]; auto. destruct (IH H); auto.
Qed.

Lemma insert_key_keeps (k x : cell) (l : list cell) :
  In x l -> In x (insert_key k l).
Proof.
  induction l as [|h l IH]; simpl; [intros []|].
  destruct (cell_eqb k h); [auto|].
  destruct (cell_ltb k h); simpl; intros [<-|H]; auto.
Qed.

Lemma cell_eqb_date (d : datetime) (c : cell) :
  cell_eqb (CDate d) c = true -> c = CDate d.
Proof.
  destruct c; simpl; try discriminate. intros H. apply Z.eqb_eq in H. now subst.
Qed.

Lemma cell_eqb_date_l (d : datetime) (c : cell) :
  cell_eqb c (CDate d) = true -> c = CDate d.
Proof.
  destruct c; simpl; try discriminate. intros H. apply Z.eqb_eq in H. now subst.
Qed.

Lemma insert_key_has_date (d : datetime) (l : list cell) :
  In (CDate d) (insert_key (CDate d) l).
Proof.
  induction l as [|h l IH]; cbn [insert_key]; [now left|].
  destruct (cell_eqb (CDate d) h) eqn:E.
  - apply cell_eqb_date in E. subst. now left.
  - destruct (cell_ltb (CDate d) h); [now left | right; exact IH].
Qed.

(** The sorted keys are the keys. *)
Lemma sort_keys_dates (l : list cell) (d : datetime) :
  In (CDate d) (sort_keys l) <-> In (CDate d) l.
Proof.
  unfold sort_keys. induction l as [|h l IH]; simpl; [tauto|].
  split.
  - intros H. apply insert_key_In in H as [->|H]; [auto | right; now apply IH].
  - intros [->|H]; [apply insert_key_has_date | apply insert_key_keeps, IH, H].
Qed.

Lemma sort_keys_In (l : list cell) (k : cell) : In k (sort_keys l) -> In k l.
Proof.
  unfold sort_keys. induction l as [|h l IH]; simpl; [tauto|].
  intros H. apply insert_key_In in H as [->|H]; auto.
Qed.

(** The rows of a series frame that carry a given date. *)
Lemma series_rows_on_date (s : list (datetime * cell)) (d : datetime) (row : list cell) :
  In row (List.filter (fun row => cell_eqb (row_get 0 row) (CDate d))
            (map (fun tv => [CDate (fst tv); snd tv]) s)) <->
  exists v, In (d, v) s /\ row = [CDate d; v].
Proof.
  rewrite filter_In, in_map_iff. split.
  - intros [([t v] & <- & Hin) He]. simpl in He. apply Z.eqb_eq in He. subst.
    eauto.
  - intros (v & Hin & ->). split; [exists (d, v); auto|]. simpl. apply Z.eqb_refl.
Qed.

Lemma in_dates (s : list (datetime * cell)) (d : datetime) :
  In d (map fst s) <-> exists v, In (d, v) s.
Proof.
  rewrite in_map_iff. split.
  - intros ([t v] & <- & H). eauto.
  - intros (v & H). exists (d, v). auto.
Qed.

Lemma join_key_two_series (na nb : string) (sa sb : list (datetime * cell))
    (d : datetime) :
  (forall row, In row (join_key 0 0 (series_df na sa) (series_df nb sb) (CDate d)) ->
     exists x y, row = [CDate d; x; y] /\
       (In d (map fst sa) -> In (d, x) sa) /\ (~ In d (map fst sa) -> x = CNull) /\
       (In d (map fst sb) -> In (d, y) sb) /\ (~ In d (map fst sb) -> y = CNull)) /\
  (In d (map fst sa) \/ In d (map fst sb) ->
   exists row, In row (join_key 0 0 (series_df na sa) (series_df nb sb) (CDate d))).
Proof.
  unfold join_key. cbn [series_df df_rows df_columns length Nat.sub].
  pose proof (series_rows_on_date sa d) as Ha.
  pose proof (series_rows_on_date sb d) as Hb.
  destruct (List.filter _ (map _ sa)) as [|a lm] eqn:Elm.
  - assert (Hna : ~ In d (map fst sa)).
    { rewrite in_dates. intros (v & Hv).
      destruct (proj2 (Ha [CDate d; v])); eauto. }
    split.
    + intros row Hrow. apply in_map_iff in Hrow as (b & <- & Hb').
      apply Hb in Hb' as (v & Hv & ->).
      exists CNull, v. repeat split; auto; try tauto.
      intros Hno. exfalso. apply Hno. apply in_dates. eauto.
    + intros [H|H]; [tauto|]. apply in_dates in H as (v & Hv).
      eexists. apply in_map_iff. exists [CDate d; v]. split; [reflexivity|].
      apply Hb. eauto.
  - destruct (List.filter _ (map _ sb)) as [|b rm] eqn:Erm.
    + assert (Hnb : ~ In d (map fst sb)).
      { rewrite in_dates. intros (v & Hv).
        destruct (proj2 (Hb [CDate d; v])); eauto. }
      split.
      * intros row Hrow. apply in_map_iff in Hrow as (a' & <- & Ha').
        apply Ha in Ha' as (v & Hv & ->).
        exists v, CNull. repeat split; auto; try tauto.
        intros Hno. exfalso. apply Hno. apply in_dates. eauto.
      * intros _. eexists. apply in_map_iff. exists a. split; [reflexivity|].
        now left.
    + split.
      * intros row Hrow. apply in_flat_map in Hrow as (a' & Ha' & Hrow).
        apply in_map_iff in Hrow as (b' & <- & Hb').
        apply Ha in Ha' as (va & Hva & ->). apply Hb in Hb' as (vb & Hvb & ->).
        exists va, vb. repeat split; auto.
        -- intros Hno. exfalso. apply Hno. apply in_dates. eauto.
        -- intros Hno. exfalso. apply Hno. apply in_dates. eauto.
      * intros _. eexists. apply in_flat_map. exists a. split; [now left|].
        apply in_map_iff. exists b. split; [reflexivity | now left].
Qed.

Lemma series_keys (sa sb : list (datetime * cell)) (k : cell) :
  In k (map (row_get 0) (map (fun tv => [CDate (fst tv); snd tv]) sa)
        ++ map (row_get 0) (map (fun tv => [CDate (fst tv); snd tv]) sb)) <->
  exists d, k = CDate d /\ (In d (map fst sa) \/ In d (map fst sb)).
Proof.
  rewrite in_app_iff, !map_map, !in_map_iff. simpl. split.
  - intros [([t v] & <- & H)|([t v] & <- & H)]; exists t; split; auto;
      [left | right]; apply in_map_iff; exists (t, v); auto.
  - intros (d & -> & [H|H]); apply in_map_iff in H as ([t v] & <- & H);
      [left | right]; exists (t, v); auto.
Qed.

Lemma merge_two_series (na nb : string) (sa sb : list (datetime * cell)) :
  exists df,
    pd_merge_outer "Date" (series_df na sa) (series_df nb sb) = Ok df /\
    outer_merged sa sb df /\
    (na <> nb -> nb <> "Date" -> df_columns df = ["Date"; na; nb]).
Proof.
  eexists. split; [reflexivity|]. split; [split|].
  - intros d. cbn [df_rows series_df]. rewrite in_map_iff. split.
    + intros (row & Hd & Hrow). apply in_flat_map in Hrow as (k & Hk & Hrow).
      apply sort_keys_In, series_keys in Hk as (d' & -> & Hd').
      apply (proj1 (join_key_two_series na nb sa sb d')) in Hrow
        as (x & y & -> & _).
      simpl in Hd. now injection Hd as <-.
    + intros Hd.
      destruct (proj2 (join_key_two_series na nb sa sb d) Hd) as (row & Hrow).
      exists row. split.
      * apply (proj1 (join_key_two_series na nb sa sb d)) in Hrow
          as (x & y & -> & _). reflexivity.
      * apply in_flat_map. exists (CDate d). split; [|exact Hrow].
        apply sort_keys_dates, series_keys. eauto.
  - intros row Hrow. cbn [df_rows series_df] in Hrow.
    apply in_flat_map in Hrow as (k & Hk & Hrow).
    apply sort_keys_In, series_keys in Hk as (d & -> & Hd).
    exists d. now apply (proj1 (join_key_two_series na nb sa sb d)).
  - intros Hne Hnd. cbn [df_columns series_df]. unfold suffixed.
    cbn [list_remove map existsb app]. rewrite !orb_false_r.
    apply String.eqb_neq in Hne, Hnd.
    rewrite (String.eqb_sym "Date" nb), Hnd, Hne.
    rewrite String.eqb_sym in Hne. now rewrite Hne.
Qed.

Lemma suffixed_name_not_date (b sfx : string) :
  (4 < String.length sfx)%nat -> b +:+ sfx <> "Date".
Proof.
  intros Hl H. apply (f_equal list_ascii_of_string) in H.
  rewrite list_ascii_of_string_app in H. apply (f_equal (@length ascii)) in H.
  rewrite length_app in H. simpl in H.
  assert (Hs : length (list_ascii_of_string sfx) = String.length sfx).
  { clear. induction sfx; simpl; auto. }
  lia.
Qed.

Section Merge.

Variable API_KEY : string.
Variable http : nat -> string -> result response.

(** One turn of the loop of [fetch_price_history] on a good answer. *)
Lemma fetch_price_history_loop_turn (url symbol : string)
    (rest : list (string * string)) (df : DataFrame) (w : world)
    (s : list (datetime * cell)) :
  answers http (length (w_requests w)) url "close" (symbol +:+ " Price") s ->
  fetch_price_history_loop http ((url, symbol) :: rest) df w =
    match (if df_empty df then Ok (series_df (symbol +:+ " Price") s)
           else pd_merge_outer "Date" df (series_df (symbol +:+ " Price") s)) with
    | Ok df' => fetch_price_history_loop http rest df' (logged url w)
    | Raise e => (Raise e, logged url w)
    end.
Proof.
  intros (r & data & Hr & Hs & Hj & Hf).
  cbn [fetch_price_history_loop]. unfold mbind, M_bind, requests_get, lift, mret, M_ret.
  rewrite Hr, Hs, Hj, Hf. fold (logged url w).
  destruct (df_empty df); [reflexivity|].
  destruct (pd_merge_outer _ _ _); reflexivity.
Qed.

(** One turn of the loop of [fetch_trading_volumes] on a good answer. *)
Lemma fetch_trading_volumes_loop_turn (symbol : string) (rest : list string)
    (limit end_timestamp : Z) (df : DataFrame) (w : world)
    (s : list (datetime * cell)) :
  let url := histoday_url API_KEY symbol limit end_timestamp in
  answers http (length (w_requests w)) url "volumeto" (symbol +:+ " Volume") s ->
  fetch_trading_volumes_loop API_KEY http (symbol :: rest) limit end_timestamp df w =
    match (if df_empty df then Ok (series_df (symbol +:+ " Volume") s)
           else pd_merge_outer "Date" df (series_df (symbol +:+ " Volume") s)) with
    | Ok df' =>
        fetch_trading_volumes_loop API_KEY http rest limit end_timestamp df' (logged url w)
    | Raise e => (Raise e, logged url w)
    end.
Proof.
  intros url (r & data & Hr & Hs & Hj & Hf).
  cbn [fetch_trading_volumes_loop].
  unfold mbind, M_bind, requests_get, lift, mret, M_ret.
  fold url. rewrite Hr, Hs, Hj, Hf. fold (logged url w).
  destruct (df_empty df); [reflexivity|].
  destruct (pd_merge_outer _ _ _); reflexivity.
Qed.

Lemma series_df_not_empty (name : string) (s : list (datetime * cell)) :
  s <> [] -> df_empty (series_df name s) = false.
Proof. destruct s; [congruence | reflexivity]. Qed.

Lemma partial_overlap_nonempty (a b : list datetime) :
  partial_overlap a b -> a <> [].
Proof. intros [(d & Hd & _) _] ->. destruct Hd. Qed.

(** C5: when the series fetched for two symbols partially overlap in
    their dates, [fetch_price_history] and [fetch_trading_volumes] return
    the outer join: the dates of the table are the union of the dates of
    the two series, and a symbol's column is missing on every date the
    symbol has no data for. *)
Theorem fetch_merges_to_union_with_nulls (a b : string)
    (sa sb : list (datetime * cell)) (w : world) :
  partial_overlap (map fst sa) (map fst sb) ->
  (forall ua ub,
      answers http (length (w_requests w)) ua "close" (a +:+ " Price") sa ->
      answers http (S (length (w_requests w))) ub "close" (b +:+ " Price") sb ->
      exists df w',
        fetch_price_history http [ua; ub] [a; b] w = (Ok df, w') /\
        outer_merged sa sb df /\
        (a <> b -> df_columns df = ["Date"; a +:+ " Price"; b +:+ " Price"])) /\
  (forall limit end_timestamp,
      answers http (length (w_requests w))
        (histoday_url API_KEY a limit end_timestamp) "volumeto" (a +:+ " Volume") sa ->
      answers http (S (length (w_requests w)))
        (histoday_url API_KEY b limit end_timestamp) "volumeto" (b +:+ " Volume") sb ->
      exists df w',
        fetch_trading_volumes API_KEY http [a; b] limit end_timestamp w = (Ok df, w') /\
        outer_merged sa sb df /\
        (a <> b -> df_columns df = ["Date"; a +:+ " Volume"; b +:+ " Volume"])).
Proof.
  intros Hov.
  assert (Hsa : sa <> []).
  { apply partial_overlap_nonempty in Hov. now destruct sa. }
  split.
  - intros ua ub Ha Hb.
    destruct (merge_two_series (a +:+ " Price") (b +:+ " Price") sa sb)
      as (df & Hm & Hout & Hcols).
    exists df, (logged ub (logged ua w)).
    unfold fetch_price_history. cbn [combine].
    rewrite (fetch_price_history_loop_turn _ _ _ _ _ _ Ha). cbn [df_empty df_new df_columns].
    rewrite (fetch_price_history_loop_turn ub b [] _ (logged ua w) sb Hb).
    rewrite (series_df_not_empty _ _ Hsa), Hm.
    repeat split; try apply Hout.
    intros Hab. apply Hcols.
    + intros H. apply Hab. eapply append_inj_r; eauto.
    + apply suffixed_name_not_date. simpl. lia.
  - intros limit ts Ha Hb.
    destruct (merge_two_series (a +:+ " Volume") (b +:+ " Volume") sa sb)
      as (df & Hm & Hout & Hcols).
    exists df, (logged (histoday_url API_KEY b limit ts)
                  (logged (histoday_url API_KEY a limit ts) w)).
    unfold fetch_trading_volumes.
    rewrite (fetch_trading_volumes_loop_turn _ _ _ _ _ _ _ Ha).
    cbn [df_empty df_new df_columns].
    rewrite (fetch_trading_volumes_loop_turn b [] limit ts _
               (logged (histoday_url API_KEY a limit ts) w) sb Hb).
    rewrite (series_df_not_empty _ _ Hsa), Hm.
    repeat split; try apply Hout.
    intros Hab. apply Hcols.
    + intros H. apply Hab. eapply append_inj_r; eauto.
    + apply suffixed_name_not_date. simpl. lia.
Qed.

End Merge.

(** C5 on two series that share one of their two days. *)
Lemma fetch_merges_to_union_with_nulls_witness :
  partial_overlap (map fst btc_series) (map fst eth_series) /\
  (exists df w',
      fetch_price_history overlap_http ["u1"; "u2"] ["BTC"; "ETH"] empty_world
        = (Ok df, w') /\
      outer_merged btc_series eth_series df /\
      df_columns df = ["Date"; "BTC" +:+ " Price"; "ETH" +:+ " Price"]) /\
  (exists df w',
      fetch_trading_volumes "KEY" overlap_http ["BTC"; "ETH"] 2000 1700000000 empty_world
        = (Ok df, w') /\
      outer_merged btc_series eth_series df /\
      df_columns df = ["Date"; "BTC" +:+ " Volume"; "ETH" +:+ " Volume"]).
Proof.
  assert (Hov : partial_overlap (map fst btc_series) (map fst eth_series)).
  { split.
    - exists (172800 * us_per_second). simpl. auto.
    - left. exists (86400 * us_per_second). split; [simpl; auto|].
      simpl. intros [H|[H|[]]]; discriminate H. }
  destruct (fetch_merges_to_union_with_nulls "KEY" overlap_http "BTC" "ETH"
              btc_series eth_series empty_world Hov) as [Hp Hv].
  split; [exact Hov|]. split.
  - destruct (Hp "u1" "u2") as (df & w' & Hf & Hout & Hcols).
    + do 2 eexists. repeat split; reflexivity.
    + do 2 eexists. repeat split; reflexivity.
    + exists df, w'. split; [exact Hf|]. split; [exact Hout|].
      apply Hcols. discriminate.
  - destruct (Hv 2000 1700000000) as (df & w' & Hf & Hout & Hcols).
    + do 2 eexists. repeat split; reflexivity.
    + do 2 eexists. repeat split; reflexivity.
    + exists df, w'. split; [exact Hf|]. split; [exact Hout|].
      apply Hcols. discriminate.
Defined.

(** The table of the example. *)
Example fetch_price_history_overlap :
  fst (fetch_price_history overlap_http ["u1"; "u2"] ["BTC"; "ETH"] empty_world)
  = Ok (mk_df ["Date"; "BTC Price"; "ETH Price"]
          [[CDate (86400 * us_per_second); CNum 10; CNull];
           [CDate (172800 * us_per_second); CNum 20; CNum 7];
           [CDate (259200 * us_per_second); CNull; CNum 14]]).
Proof. reflexivity. Qed.

(** When the first symbol has no data the loop starts over with the second
    frame, and the first symbol has no column at all. *)
Example fetch_price_history_empty_first :
  fst (fetch_price_history
         (fun n _ => match n with
                     | O => Ok (mk_response 200 (Some (history_body [])))
                     | _ => Ok (mk_response 200 (Some (history_body [(172800, 7)])))
                     end)
         ["u1"; "u2"] ["BTC"; "ETH"] empty_world)
  = Ok (mk_df ["Date"; "ETH Price"] [[CDate (172800 * us_per_second); CNum 7]]).
Proof. reflexivity. Qed.

(** ** Further properties *)

(** *** Statements that leave the connection alone *)

Lemma keeps_db_ret {A} (a : A) : keeps_db (mret a : M A).
Proof. intros w. reflexivity. Qed.

Lemma keeps_db_bind {A B} (m : M A) (f : A -> M B) :
  keeps_db m -> (forall a, keeps_db (f a)) -> keeps_db (m ≫= f).
Proof.
  intros Hm Hf w. unfold mbind, M_bind. specialize (Hm w).
  destruct (m w) as [[a|e] w1]; simpl in *; [|exact Hm].
  rewrite (Hf a w1). exact Hm.
Qed.

Lemma keeps_db_fmap {A B} (g : A -> B) (m : M A) : keeps_db m -> keeps_db (g <$> m).
Proof.
  intros Hm w. unfold fmap, M_fmap. specialize (Hm w).
  destruct (m w) as [[a|e] w1]; exact Hm.
Qed.

Lemma keeps_db_try {A} (m : M A) (catches : exn -> bool) (h : exn -> M A) :
  keeps_db m -> (forall e, keeps_db (h e)) -> keeps_db (try_except m catches h).
Proof.
  intros Hm Hh w. unfold try_except. specialize (Hm w).
  destruct (m w) as [[a|e] w1]; simpl in *; [exact Hm|].
  destruct (catches e); [|exact Hm]. rewrite (Hh e w1). exact Hm.
Qed.

Lemma keeps_db_lift {A} (r : result A) : keeps_db (lift r).
Proof. intros w. reflexivity. Qed.

Lemma keeps_db_raise {A} (e : exn) : keeps_db (raise e : M A).
Proof. intros w. reflexivity. Qed.

Lemma keeps_db_print (line : string) : keeps_db (print line).
Proof. intros w. reflexivity. Qed.

Lemma keeps_db_query {A} (f : connection -> result A) : keeps_db (query f).
Proof. intros w. reflexivity. Qed.

Lemma keeps_db_requests_get (http : nat -> string -> result response) (url : string) :
  keeps_db (requests_get http url).
Proof. intros w. reflexivity. Qed.

Lemma keeps_db_datetime_now (clock : nat -> datetime) : keeps_db (datetime_now clock).
Proof. intros w. reflexivity. Qed.

Lemma sends_nothing_ret {A} (a : A) : sends_nothing (mret a : M A).
Proof. intros w. reflexivity. Qed.

Lemma sends_nothing_bind {A B} (m : M A) (f : A -> M B) :
  sends_nothing m -> (forall a, sends_nothing (f a)) -> sends_nothing (m ≫= f).
Proof.
  intros Hm Hf w. unfold mbind, M_bind. specialize (Hm w).
  destruct (m w) as [[a|e] w1]; simpl in *; [|exact Hm].
  rewrite (Hf a w1). exact Hm.
Qed.

Lemma sends_nothing_fmap {A B} (g : A -> B) (m : M A) :
  sends_nothing m -> sends_nothing (g <$> m).
Proof.
  intros Hm w. unfold fmap, M_fmap. specialize (Hm w).
  destruct (m w) as [[a|e] w1]; exact Hm.
Qed.

Lemma sends_nothing_try {A} (m : M A) (catches : exn -> bool) (h : exn -> M A) :
  sends_nothing m -> (forall e, sends_nothing (h e)) ->
  sends_nothing (try_except m catches h).
Proof.
  intros Hm Hh w. unfold try_except. specialize (Hm w).
  destruct (m w) as [[a|e] w1]; simpl in *; [exact Hm|].
  destruct (catches e); [|exact Hm]. rewrite (Hh e w1). exact Hm.
Qed.

Lemma sends_nothing_lift {A} (r : result A) : sends_nothing (lift r).
Proof. intros w. reflexivity. Qed.

Lemma sends_nothing_raise {A} (e : exn) : sends_nothing (raise e : M A).
Proof. intros w. reflexivity. Qed.

Lemma sends_nothing_print (line : string) : sends_nothing (print line).
Proof. intros w. reflexivity. Qed.

Lemma sends_nothing_query {A} (f : connection -> result A) : sends_nothing (query f).
Proof. intros w. reflexivity. Qed.

Lemma sends_nothing_execute (f : connection -> result connection) :
  sends_nothing (execute f).
Proof. intros w. unfold execute. destruct (f (w_conn w)); reflexivity. Qed.

Lemma sends_nothing_execute_rows (f : connection -> result unit * connection) :
  sends_nothing (execute_rows f).
Proof. intros w. unfold execute_rows. destruct (f (w_conn w)); reflexivity. Qed.

Lemma sends_nothing_datetime_now (clock : nat -> datetime) :
  sends_nothing (datetime_now clock).
Proof. intros w. reflexivity. Qed.

Ltac frame_step :=
  first
    [ apply keeps_db_ret | apply keeps_db_lift | apply keeps_db_raise
    | apply keeps_db_print | apply keeps_db_query | apply keeps_db_requests_get
    | apply keeps_db_datetime_now
    | apply sends_nothing_ret | apply sends_nothing_lift | apply sends_nothing_raise
    | apply sends_nothing_print | apply sends_nothing_query
    | apply sends_nothing_execute | apply sends_nothing_execute_rows
    | apply sends_nothing_datetime_now
    | apply keeps_db_bind; [|intros ?] | apply sends_nothing_bind; [|intros ?]
    | apply keeps_db_fmap | apply sends_nothing_fmap
    | apply keeps_db_try; [|intros ?] | apply sends_nothing_try; [|intros ?]
    | match goal with
      | |- keeps_db (if ?b then _ else _) => destruct b
      | |- sends_nothing (if ?b then _ else _) => destruct b
      | |- keeps_db (match ?x with _ => _ end) => destruct x
      | |- sends_nothing (match ?x with _ => _ end) => destruct x
      end ].

Ltac frame := repeat frame_step; eauto.

Section Frames.

Variable CRYPTOCURRENCIES : list string.
Variable API_KEY : string.
Variable http : nat -> string -> result response.
Variable clock : nat -> datetime.
Variable strftime : datetime -> string.
Variable strptime : string -> result datetime.
Variable pct_pad : bool.

Lemma table_exists_keeps_db (name : string) : keeps_db (table_exists name).
Proof. unfold table_exists. frame. Qed.

Lemma table_exists_sends_nothing (name : string) : sends_nothing (table_exists name).
Proof. unfold table_exists. frame. Qed.

Lemma get_newest_date_keeps_db (name : string) :
  keeps_db (get_newest_date strptime name).
Proof. unfold get_newest_date. frame. Qed.

Lemma get_newest_date_sends_nothing (name : string) :
  sends_nothing (get_newest_date strptime name).
Proof. unfold get_newest_date. frame. Qed.

Lemma should_fetch_data_keeps_db (name : string) (age : Z) :
  keeps_db (should_fetch_data clock strptime name age).
Proof. unfold should_fetch_data. frame; apply get_newest_date_keeps_db. Qed.

Lemma should_fetch_data_sends_nothing (name : string) (age : Z) :
  sends_nothing (should_fetch_data clock strptime name age).
Proof. unfold should_fetch_data. frame; apply get_newest_date_sends_nothing. Qed.

Lemma fetch_price_history_keeps_db (urls coins : list string) :
  keeps_db (fetch_price_history http urls coins).
Proof.
  unfold fetch_price_history. generalize df_new.
  induction (combine urls coins) as [|[url symbol] rest IH]; intros df;
    cbn [fetch_price_history_loop]; frame.
Qed.

Lemma fetch_trading_volumes_keeps_db (coins : list string) (limit ts : Z) :
  keeps_db (fetch_trading_volumes API_KEY http coins limit ts).
Proof.
  unfold fetch_trading_volumes. generalize df_new.
  induction coins as [|symbol rest IH]; intros df;
    cbn [fetch_trading_volumes_loop]; frame.
Qed.

Lemma fetch_coin_info_keeps_db (coins : list string) :
  keeps_db (fetch_coin_info http clock strftime coins).
Proof.
  unfold fetch_coin_info. frame.
  match goal with |- keeps_db (fetch_coin_info_loop _ _ ?j _ ?d) =>
    generalize d; generalize j end.
  induction coins as [|symbol rest IH]; intros j df;
    cbn [fetch_coin_info_loop]; frame.
Qed.

Lemma fetch_market_cap_keeps_db (coins : string) :
  keeps_db (fetch_market_cap API_KEY http coins).
Proof. unfold fetch_market_cap. frame. Qed.

Lemma get_start_date_keeps_db (d : option datetime) : keeps_db (get_start_date clock d).
Proof. unfold get_start_date. frame. Qed.

Lemma get_historic_prices_keeps_db (coins : list string) :
  keeps_db (get_historic_prices CRYPTOCURRENCIES API_KEY http clock strptime pct_pad coins).
Proof.
  unfold get_historic_prices. frame;
    first [ apply table_exists_keeps_db | apply get_newest_date_keeps_db
          | apply get_start_date_keeps_db | apply fetch_price_history_keeps_db ].
Qed.

End Frames.

(** *** What the queries and the fetches leave alone *)

(** X1: the three queries of [DatabaseManager] are read-only: whether they
    return or raise, [table_exists], [get_newest_date] and
    [should_fetch_data] leave the connection (committed and pending state)
    as it was and send no request. *)
Theorem queries_are_read_only (clock : nat -> datetime)
    (strptime : string -> result datetime) (name : string) (age : Z) :
  (keeps_db (table_exists name) /\ sends_nothing (table_exists name)) /\
  (keeps_db (get_newest_date strptime name) /\
   sends_nothing (get_newest_date strptime name)) /\
  (keeps_db (should_fetch_data clock strptime name age) /\
   sends_nothing (should_fetch_data clock strptime name age)).
Proof.
  split; [|split]; split.
  - apply table_exists_keeps_db.
  - apply table_exists_sends_nothing.
  - apply get_newest_date_keeps_db.
  - apply get_newest_date_sends_nothing.
  - apply should_fetch_data_keeps_db.
  - apply should_fetch_data_sends_nothing.
Qed.

(** X2: fetching never writes: [fetch_price_history],
    [fetch_trading_volumes], [fetch_coin_info], [fetch_market_cap] and
    [get_historic_prices] leave the connection as it was on every answer of
    the API, whether they return or raise. *)
Theorem fetches_never_touch_database (CRYPTOCURRENCIES : list string) (API_KEY : string)
    (http : nat -> string -> result response) (clock : nat -> datetime)
    (strftime : datetime -> string) (strptime : string -> result datetime)
    (pct_pad : bool) :
  (forall urls coins, keeps_db (fetch_price_history http urls coins)) /\
  (forall coins limit ts, keeps_db (fetch_trading_volumes API_KEY http coins limit ts)) /\
  (forall coins, keeps_db (fetch_coin_info http clock strftime coins)) /\
  (forall coins, keeps_db (fetch_market_cap API_KEY http coins)) /\
  (forall coins, keeps_db (get_historic_prices CRYPTOCURRENCIES API_KEY http clock
                             strptime pct_pad coins)).
Proof.
  split; [|split; [|split; [|split]]]; intros.
  - apply fetch_price_history_keeps_db.
  - apply fetch_trading_volumes_keeps_db.
  - apply fetch_coin_info_keeps_db.
  - apply fetch_market_cap_keeps_db.
  - apply get_historic_prices_keeps_db.
Qed.

(** *** The requests of the history fetches *)

(** One turn of each loop, spelled out. *)
Lemma fetch_price_history_loop_step (http : nat -> string -> result response)
    (url symbol : string) (rest : list (string * string)) (df : DataFrame) (w : world) :
  fetch_price_history_loop http ((url, symbol) :: rest) df w =
    match http (length (w_requests w)) url with
    | Raise e => (Raise e, logged url w)
    | Ok r =>
        match raise_for_status r with
        | Raise e => (Raise e, logged url w)
        | Ok _ =>
            match response_json r with
            | Raise e => (Raise e, logged url w)
            | Ok data =>
                match series_frame "close" (symbol +:+ " Price") data with
                | Raise e => (Raise e, logged url w)
                | Ok temp =>
                    match (if df_empty df then Ok temp
                           else pd_merge_outer "Date" df temp) with
                    | Raise e => (Raise e, logged url w)
                    | Ok df1 => fetch_price_history_loop http rest df1 (logged url w)
                    end
                end
            end
        end
    end.
Proof.
  cbn [fetch_price_history_loop].
  unfold mbind, M_bind, requests_get, lift, mret, M_ret, logged.
  destruct (http _ _) as [r|]; [|reflexivity].
  destruct (raise_for_status r) as [[]|]; [|reflexivity].
  destruct (response_json r) as [data|]; [|reflexivity].
  destruct (series_frame _ _ data) as [temp|]; [|reflexivity].
  destruct (df_empty df); [reflexivity|].
  destruct (pd_merge_outer _ _ _); reflexivity.
Qed.

Lemma fetch_trading_volumes_loop_step (API_KEY : string)
    (http : nat -> string -> result response) (symbol : string) (rest : list string)
    (limit ts : Z) (df : DataFrame) (w : world) :
  fetch_trading_volumes_loop API_KEY http (symbol :: rest) limit ts df w =
    let url := histoday_url API_KEY symbol limit ts in
    match http (length (w_requests w)) url with
    | Raise e => (Raise e, logged url w)
    | Ok r =>
        match raise_for_status r with
        | Raise e => (Raise e, logged url w)
        | Ok _ =>
            match response_json r with
            | Raise e => (Raise e, logged url w)
            | Ok data =>
                match series_frame "volumeto" (symbol +:+ " Volume") data with
                | Raise e => (Raise e, logged url w)
                | Ok temp =>
                    match (if df_empty df then Ok temp
                           else pd_merge_outer "Date" df temp) with
                    | Raise e => (Raise e, logged url w)
                    | Ok df1 =>
                        fetch_trading_volumes_loop API_KEY http rest limit ts df1
                          (logged url w)
                    end
                end
            end
        end
    end.
Proof.
  cbn [fetch_trading_volumes_loop].
  unfold mbind, M_bind, requests_get, lift, mret, M_ret, logged.
  destruct (http _ _) as [r|]; [|reflexivity].
  destruct (raise_for_status r) as [[]|]; [|reflexivity].
  destruct (response_json r) as [data|]; [|reflexivity].
  destruct (series_frame _ _ data) as [temp|]; [|reflexivity].
  destruct (df_empty df); [reflexivity|].
  destruct (pd_merge_outer _ _ _); reflexivity.
Qed.

Ltac stops_after_one :=
  exists 1%nat; split; [simpl; lia|]; split; [reflexivity|];
  split; [intros ? H; discriminate H | intros; lia].

Lemma fetch_price_history_loop_requests (http : nat -> string -> result response)
    (pairs : list (string * string)) (df : DataFrame) (w : world) :
  exists k, (k <= length pairs)%nat /\
    w_requests (snd (fetch_price_history_loop http pairs df w))
      = rev (firstn k (map fst pairs)) ++ w_requests w /\
    (forall df', fst (fetch_price_history_loop http pairs df w) = Ok df' ->
                 k = length pairs) /\
    (forall e, fst (fetch_price_history_loop http pairs df w) = Raise e -> (0 < k)%nat).
Proof.
  revert df w. induction pairs as [|[url symbol] rest IH]; intros df w.
  - exists 0%nat. split; [simpl; lia|]. split; [reflexivity|].
    split; [reflexivity | intros e H; discriminate H].
  - rewrite fetch_price_history_loop_step.
    assert (Hnext : forall df1,
      exists k, (k <= length ((url, symbol) :: rest))%nat /\
        w_requests (snd (fetch_price_history_loop http rest df1 (logged url w)))
          = rev (firstn k (map fst ((url, symbol) :: rest))) ++ w_requests w /\
        (forall df', fst (fetch_price_history_loop http rest df1 (logged url w)) = Ok df' ->
                     k = length ((url, symbol) :: rest)) /\
        (forall e, fst (fetch_price_history_loop http rest df1 (logged url w)) = Raise e ->
                   (0 < k)%nat)).
    { intros df1. destruct (IH df1 (logged url w)) as (k & Hk & Hreq & Hok & _).
      exists (S k). split; [simpl; lia|]. split; [|split].
      - rewrite Hreq. simpl. now rewrite <- app_assoc.
      - intros df' H. simpl. f_equal. eauto.
      - intros; lia. }
    destruct (http (length (w_requests w)) url) as [r|e]; [|stops_after_one].
    destruct (raise_for_status r) as [[]|e]; [|stops_after_one].
    destruct (response_json r) as [data|e]; [|stops_after_one].
    destruct (series_frame "close" (symbol +:+ " Price") data) as [temp|e];
      [|stops_after_one].
    destruct (df_empty df); [apply Hnext|].
    destruct (pd_merge_outer "Date" df temp) as [df1|e]; [apply Hnext|].
    stops_after_one.
Qed.

(** X3: [fetch_price_history] requests the URLs in order, one per pair of
    a URL and a coin, and stops at the first failure: the requests it has
    sent are the first [k] URLs, where [k] is at most the shorter length of
    the two lists, the whole of it when the call returns, and at least one
    when it raises. It never requests anything else. *)
Theorem fetch_price_history_requests (http : nat -> string -> result response)
    (urls coins : list string) (w : world) :
  exists k, (k <= Nat.min (length urls) (length coins))%nat /\
    w_requests (snd (fetch_price_history http urls coins w))
      = rev (firstn k urls) ++ w_requests w /\
    (forall df, fst (fetch_price_history http urls coins w) = Ok df ->
                k = Nat.min (length urls) (length coins)) /\
    (forall e, fst (fetch_price_history http urls coins w) = Raise e -> (0 < k)%nat).
Proof.
  unfold fetch_price_history.
  destruct (fetch_price_history_loop_requests http (combine urls coins) df_new w)
    as (k & Hk & Hreq & Hok & Hraise).
  rewrite length_combine in Hk, Hok.
  exists k. split; [exact Hk|]. split; [|split; [exact Hok | exact Hraise]].
  rewrite Hreq. f_equal. f_equal.
  clear -Hk. revert coins k Hk.
  induction urls as [|u urls IH]; intros [|c coins] [|k] Hk; simpl in *;
    try reflexivity; try lia.
  f_equal. apply IH. lia.
Qed.

Lemma fetch_trading_volumes_loop_requests (API_KEY : string)
    (http : nat -> string -> result response) (coins : list string) (limit ts : Z)
    (df : DataFrame) (w : world) :
  exists k, (k <= length coins)%nat /\
    w_requests (snd (fetch_trading_volumes_loop API_KEY http coins limit ts df w))
      = rev (firstn k (construct_api_urls API_KEY coins limit ts)) ++ w_requests w /\
    (forall df', fst (fetch_trading_volumes_loop API_KEY http coins limit ts df w) = Ok df' ->
                 k = length coins) /\
    (forall e, fst (fetch_trading_volumes_loop API_KEY http coins limit ts df w) = Raise e ->
               (0 < k)%nat).
Proof.
  revert df w. induction coins as [|symbol rest IH]; intros df w.
  - exists 0%nat. split; [simpl; lia|]. split; [reflexivity|].
    split; [reflexivity | intros e H; discriminate H].
  - rewrite fetch_trading_volumes_loop_step. cbv zeta.
    set (url := histoday_url API_KEY symbol limit ts).
    assert (Hnext : forall df1,
      exists k, (k <= length (symbol :: rest))%nat /\
        w_requests (snd (fetch_trading_volumes_loop API_KEY http rest limit ts df1
                           (logged url w)))
          = rev (firstn k (construct_api_urls API_KEY (symbol :: rest) limit ts))
            ++ w_requests w /\
        (forall df', fst (fetch_trading_volumes_loop API_KEY http rest limit ts df1
                            (logged url w)) = Ok df' ->
                     k = length (symbol :: rest)) /\
        (forall e, fst (fetch_trading_volumes_loop API_KEY http rest limit ts df1
                          (logged url w)) = Raise e -> (0 < k)%nat)).
    { intros df1. destruct (IH df1 (logged url w)) as (k & Hk & Hreq & Hok & _).
      exists (S k). split; [simpl; lia|]. split; [|split].
      - rewrite Hreq. simpl. now rewrite <- app_assoc.
      - intros df' H. simpl. f_equal. eauto.
      - intros; lia. }
    destruct (http (length (w_requests w)) url) as [r|e]; [|stops_after_one].
    destruct (raise_for_status r) as [[]|e]; [|stops_after_one].
    destruct (response_json r) as [data|e]; [|stops_after_one].
    destruct (series_frame "volumeto" (symbol +:+ " Volume") data) as [temp|e];
      [|stops_after_one].
    destruct (df_empty df); [apply Hnext|].
    destruct (pd_merge_outer "Date" df temp) as [df1|e]; [apply Hnext|].
    stops_after_one.
Qed.

(** X4: the URLs [fetch_trading_volumes] builds itself are the ones
    [construct_api_urls] builds for the same coins, limit and end time: the
    requests it has sent are the first [k] of them in order, all of them
    when the call returns, at least one when it raises. *)
Theorem fetch_trading_volumes_requests (API_KEY : string)
    (http : nat -> string -> result response) (coins : list string) (limit ts : Z)
    (w : world) :
  exists k, (k <= length coins)%nat /\
    w_requests (snd (fetch_trading_volumes API_KEY http coins limit ts w))
      = rev (firstn k (construct_api_urls API_KEY coins limit ts)) ++ w_requests w /\
    (forall df, fst (fetch_trading_volumes API_KEY http coins limit ts w) = Ok df ->
                k = length coins) /\
    (forall e, fst (fetch_trading_volumes API_KEY http coins limit ts w) = Raise e ->
               (0 < k)%nat).
Proof. apply fetch_trading_volumes_loop_requests. Qed.

(** *** The coin list *)

Lemma fetch_coin_info_loop_rows (clock : nat -> datetime) (strftime : datetime -> string)
    (info : json) (coins : list string) (df df' : DataFrame) (w w' : world) :
  fetch_coin_info_loop clock strftime info coins df w = (Ok df', w') ->
  exists new,
    df' = mk_df (df_columns df) (df_rows df ++ new) /\
    map (row_get 0) new = map CStr coins /\
    Forall (fun row => length row = 5%nat) new /\
    w_requests w' = w_requests w /\ w_conn w' = w_conn w /\
    w_ticks w' = (w_ticks w + length coins)%nat /\
    (forall c, In c coins -> exists entry, json_get c info = Ok entry).
Proof.
  revert df w. induction coins as [|symbol rest IH]; intros df w.
  - simpl. intros [= <- <-]. exists []. rewrite app_nil_r.
    destruct df. repeat split; auto. intros c [].
  - cbn [fetch_coin_info_loop]. unfold mbind at 1, M_bind at 1, lift.
    destruct (json_get symbol info) as [coin|] eqn:Hcoin; [|discriminate].
    unfold mbind at 1, M_bind at 1, datetime_now.
    unfold mbind at 1, M_bind at 1, lift.
    destruct (json_get "CoinName" coin) as [name|]; [|discriminate].
    unfold mbind at 1, M_bind at 1.
    destruct (json_get "Description" coin) as [description|]; [|discriminate].
    unfold mbind at 1, M_bind at 1.
    destruct (json_get "ImageUrl" coin) as [image|]; [|discriminate].
    intros H. apply IH in H as (new & -> & Hsym & Hlen & Hreq & Hconn & Hticks & Hkeys).
    eexists (_ :: new). unfold df_append_row in *. simpl in *.
    split; [now rewrite <- app_assoc|].
    split; [now rewrite Hsym|].
    split; [constructor; [reflexivity | exact Hlen]|].
    split; [exact Hreq|]. split; [exact Hconn|]. split; [lia|].
    intros c [<-|Hc]; eauto.
Qed.

(** X5: when [fetch_coin_info] returns, it has sent one request (the coin
    list) whatever the number of coins, read the clock once per coin, and
    built one row of five cells per coin, in the order of the coins, under
    the columns Symbol, Name, Description, ImageUrl, Date; and every coin
    asked for is a key of [data['Data']] (a coin the API does not list
    makes the whole fetch raise). *)
Theorem fetch_coin_info_rows (http : nat -> string -> result response)
    (clock : nat -> datetime) (strftime : datetime -> string)
    (coins : list string) (df : DataFrame) (w w' : world) :
  fetch_coin_info http clock strftime coins w = (Ok df, w') ->
  df_columns df = coin_info_columns /\
  map (row_get 0) (df_rows df) = map CStr coins /\
  Forall (fun row => length row = 5%nat) (df_rows df) /\
  w_requests w' = "https://min-api.cryptocompare.com/data/all/coinlist" :: w_requests w /\
  w_ticks w' = (w_ticks w + length coins)%nat /\
  exists r data info,
    http (length (w_requests w)) "https://min-api.cryptocompare.com/data/all/coinlist"
      = Ok r /\
    response_json r = Ok data /\ json_get "Data" data = Ok info /\
    forall c, In c coins -> exists entry, json_get c info = Ok entry.
Proof.
  unfold fetch_coin_info. unfold mbind at 1, M_bind at 1, requests_get.
  destruct (http _ _) as [r|] eqn:Hr; [|discriminate].
  unfold mbind at 1, M_bind at 1, lift.
  destruct (response_json r) as [data|] eqn:Hdata; [|discriminate].
  unfold mbind at 1, M_bind at 1.
  destruct (json_get "Data" data) as [info|] eqn:Hinfo; [|discriminate].
  intros H.
  apply fetch_coin_info_loop_rows in H
    as (new & -> & Hsym & Hlen & Hreq & _ & Hticks & Hkeys).
  simpl in *. repeat split; auto.
  exists r, data, info. auto.
Qed.

(** X5 on the coin list of the examples. *)
Lemma fetch_coin_info_rows_witness :
  exists df w',
    fetch_coin_info http_ok clock_2023 iso_strftime ["BTC"] stale_world = (Ok df, w') /\
    df_columns df = coin_info_columns /\
    map (row_get 0) (df_rows df) = map CStr ["BTC"] /\
    w_requests w' = ["https://min-api.cryptocompare.com/data/all/coinlist"].
Proof.
  destruct (fetch_coin_info http_ok clock_2023 iso_strftime ["BTC"] stale_world)
    as [[df|e] w'] eqn:H; [|vm_compute in H; discriminate H].
  exists df, w'. split; [reflexivity|].
  destruct (fetch_coin_info_rows _ _ _ _ _ _ _ H) as (Hc & Hs & _ & Hr & _).
  split; [exact Hc|]. split; [exact Hs|]. exact Hr.
Defined.

(** A coin the list lacks raises [KeyError] with the coin as its key, after
    the rows of the coins before it were built. *)
Example fetch_coin_info_unknown_coin :
  fst (fetch_coin_info http_ok clock_2023 iso_strftime ["BTC"; "NOPE"] stale_world)
  = Raise (KeyError "NOPE").
Proof. reflexivity. Qed.

(** *** Creating tables *)

Lemma current_apply_stmt (f : catalogue -> catalogue) (c : connection) :
  current (apply_stmt f c) = f (current c).
Proof. unfold apply_stmt, current. destruct (pending c); reflexivity. Qed.


(** *** The newest date, and the policy in time *)

(** X8: on a table whose date column holds texts and NULLs,
    [get_newest_date] returns nothing when every date is NULL, and
    otherwise parses the greatest stored text (in byte order, which for
    the fixed-width format is the order in time); an empty greatest text
    counts as no date. *)
Theorem get_newest_date_greatest (strptime : string -> result datetime)
    (name : string) (w : world) (t : table) (i : nat) :
  current (w_conn w) !! name = Some t ->
  ci_index_of "date" (map fst (t_columns t)) = Some i ->
  Forall (fun v => v = VNull \/ exists s, v = VText s) (column_values i (t_rows t)) ->
  (Forall (eq VNull) (column_values i (t_rows t)) /\
   fst (get_newest_date strptime name w) = Ok None) \/
  (exists s, In (VText s) (column_values i (t_rows t)) /\
             (forall s', In (VText s') (column_values i (t_rows t)) ->
                         String.leb s' s = true) /\
             fst (get_newest_date strptime name w)
               = if String.eqb s "" then Ok None else Some <$> strptime s).
Proof.
  intros Ht Hi Hcol.
  rewrite (get_newest_date_reads_max strptime name w t i Ht Hi).
  destruct (sql_max_text _ Hcol) as [[Hm Hall]|(s & Hm & Hin & Hle)]; rewrite Hm.
  - left. split; [exact Hall | reflexivity].
  - right. exists s. split; [exact Hin|]. split; [exact Hle | reflexivity].
Qed.

(** X8 on the stale [coin_info] table, whose one date is 2023-01-01. *)
Lemma get_newest_date_greatest_witness :
  current (w_conn stale_world) !! "coin_info" = Some stale_coin_info /\
  ci_index_of "date" (map fst (t_columns stale_coin_info)) = Some 4%nat /\
  fst (get_newest_date iso_strptime "coin_info" stale_world)
    = Some <$> iso_strptime "2023-01-01 00:00:00".
Proof.
  assert (Ht : current (w_conn stale_world) !! "coin_info" = Some stale_coin_info)
    by reflexivity.
  assert (Hi : ci_index_of "date" (map fst (t_columns stale_coin_info)) = Some 4%nat)
    by reflexivity.
  assert (Hcol : Forall (fun v => v = VNull \/ exists s, v = VText s)
                   (column_values 4 (t_rows stale_coin_info)))
    by (constructor; [right; eexists; reflexivity | constructor]).
  split; [exact Ht|]. split; [exact Hi|].
  destruct (get_newest_date_greatest iso_strptime _ _ _ _ Ht Hi Hcol)
    as [[Hall _]|(s & Hin & _ & Hr)].
  - inversion Hall as [|? ? Hv]. discriminate Hv.
  - destruct Hin as [Hs|[]]. injection Hs as <-. exact Hr.
Defined.

Section PolicyInTime.

Variable strptime : string -> result datetime.

(** [should_fetch_data], case by case. *)
Lemma should_fetch_data_cases (clock : nat -> datetime) (name : string) (age : Z)
    (w : world) :
  fst (should_fetch_data clock strptime name age w) =
    match current (w_conn w) !! name with
    | None => Raise (SqliteError "no such table")
    | Some t =>
        match t_rows t with
        | [] => Ok true
        | _ :: _ =>
            match fst (get_newest_date strptime name w) with
            | Ok None => Ok true
            | Ok (Some d) => Ok (age * 3600 * us_per_second <? clock (w_ticks w) - d)
            | Raise e => Raise e
            end
        end
    end.
Proof.
  destruct (current (w_conn w) !! name) as [t|] eqn:Ht.
  - destruct (t_rows t) as [|row rows] eqn:Hr.
    + unfold should_fetch_data, try_except, mbind, M_bind, query, sql_count.
      rewrite Ht, Hr. reflexivity.
    + pose proof (get_newest_date_frame strptime name w) as (_ & _ & Hticks).
      destruct (get_newest_date strptime name w) as [[[d|]|e] w1] eqn:Hn; simpl in *.
      * unfold should_fetch_data, try_except, mbind, M_bind, query, sql_count.
        rewrite Ht, Hr. cbn [length].
        change (Z.of_nat (S (length rows)) =? 0) with false; cbv beta iota.
        rewrite Hn. unfold datetime_now, mret, M_ret; simpl.
        unfold datetime_sub, timedelta_hours. rewrite timedelta_gtb_of_us, Hticks.
        destruct (_ <? _); reflexivity.
      * unfold should_fetch_data, try_except, mbind, M_bind, query, sql_count.
        rewrite Ht, Hr. cbn [length].
        change (Z.of_nat (S (length rows)) =? 0) with false; cbv beta iota.
        rewrite Hn. reflexivity.
      * apply try_except_reraise.
        unfold mbind, M_bind, query, sql_count.
        rewrite Ht, Hr. cbn [length].
        change (Z.of_nat (S (length rows)) =? 0) with false; cbv beta iota.
        rewrite Hn. reflexivity.
  - apply try_except_reraise.
    unfold mbind, M_bind, query, sql_count. rewrite Ht. reflexivity.
Qed.

(** X9: the policy is monotone. Data that is fresh under a threshold is
    fresh under every larger one, and data that is stale at one time is
    stale at every later time (on the same database). *)
Theorem should_fetch_data_monotone (name : string) (w : world) :
  (forall clock age1 age2,
      age1 <= age2 ->
      fst (should_fetch_data clock strptime name age1 w) = Ok false ->
      fst (should_fetch_data clock strptime name age2 w) = Ok false) /\
  (forall clock clock' age,
      clock (w_ticks w) <= clock' (w_ticks w) ->
      fst (should_fetch_data clock strptime name age w) = Ok true ->
      fst (should_fetch_data clock' strptime name age w) = Ok true).
Proof.
  split.
  - intros clock age1 age2 Hle. rewrite !should_fetch_data_cases.
    destruct (current (w_conn w) !! name) as [t|]; [|discriminate].
    destruct (t_rows t); [discriminate|].
    destruct (fst (get_newest_date strptime name w)) as [[d|]|e]; try discriminate.
    intros [= H]. f_equal. apply Z.ltb_ge in H. apply Z.ltb_ge.
    unfold us_per_second in *. lia.
  - intros clock clock' age Hle. rewrite !should_fetch_data_cases.
    destruct (current (w_conn w) !! name) as [t|]; [|discriminate].
    destruct (t_rows t); [reflexivity|].
    destruct (fst (get_newest_date strptime name w)) as [[d|]|e]; try discriminate;
      [|reflexivity].
    intros [= H]. f_equal. apply Z.ltb_lt in H. apply Z.ltb_lt. lia.
Qed.

End PolicyInTime.

(** X9 on the fresh and the stale database of the examples: fresh under
    24 hours, hence under 48; stale in 2023, hence a day later. *)
Lemma should_fetch_data_monotone_witness :
  (24 <= 48 /\
   fst (should_fetch_data clock_2023 iso_strptime "market_cap" 24 fresh_world) = Ok false /\
   fst (should_fetch_data clock_2023 iso_strptime "market_cap" 48 fresh_world) = Ok false) /\
  (fst (should_fetch_data clock_2023 iso_strptime "market_cap" 24 stale_world) = Ok true /\
   fst (should_fetch_data (fun n => clock_2023 n + us_per_day) iso_strptime
          "market_cap" 24 stale_world) = Ok true).
Proof.
  assert (H1 : fst (should_fetch_data clock_2023 iso_strptime "market_cap" 24 fresh_world)
               = Ok false) by (vm_compute; reflexivity).
  assert (H2 : fst (should_fetch_data clock_2023 iso_strptime "market_cap" 24 stale_world)
               = Ok true) by (vm_compute; reflexivity).
  split.
  - split; [lia|]. split; [exact H1|].
    exact (proj1 (should_fetch_data_monotone iso_strptime "market_cap" fresh_world)
             clock_2023 24 48 ltac:(lia) H1).
  - split; [exact H2|].
    refine (proj2 (should_fetch_data_monotone iso_strptime "market_cap" stale_world)
              clock_2023 (fun n => clock_2023 n + us_per_day) 24 _ H2).
    unfold clock_2023, us_per_day, us_per_second. lia.
Defined.

(** *** Inserting rows *)

Lemma table_eta (t : table) : mk_table (t_columns t) (t_rows t ++ []) = t.
Proof. destruct t. simpl. now rewrite app_nil_r. Qed.

Lemma sql_insert_row_appends (name : string) (icols : list string)
    (vals : list value) (c c' : connection) :
  sql_insert_row name icols vals c = Ok c' ->
  exists t,
    current c !! name = Some t /\
    length vals = length icols /\
    violates_key t (build_row t icols vals) = false /\
    current c' = <[name := mk_table (t_columns t)
                              (t_rows t ++ [build_row t icols vals])]> (current c).
Proof.
  unfold sql_insert_row.
  destruct (Nat.eqb (length vals) (length icols)) eqn:Hl; [|discriminate].
  cbn [negb]. destruct (current c !! name) as [t|]; [|discriminate].
  destruct (violates_key t _) eqn:Hk; [discriminate|].
  intros [= <-]. exists t. apply Nat.eqb_eq in Hl.
  repeat split; auto. apply current_apply_stmt.
Qed.

(** The rows a successful batch adds: they follow the rows stored before,
    one per row of the batch, and nothing else changes. *)
Lemma insert_rows_appends (bind : cell -> result value) (name : string)
    (icols : list string) (rows : list (list cell)) (c c' : connection) (t : table) :
  insert_rows bind name icols rows c = (Ok tt, c') ->
  current c !! name = Some t ->
  exists new,
    length new = length rows /\
    current c' = <[name := mk_table (t_columns t) (t_rows t ++ new)]> (current c).
Proof.
  revert c t. induction rows as [|row rows IH]; intros c t; simpl.
  - intros [= <-] Ht. exists []. split; [reflexivity|].
    rewrite table_eta. symmetry. now apply insert_id.
  - destruct (mapM bind row) as [vals|]; [|discriminate].
    destruct (sql_insert_row name icols vals c) as [c1|] eqn:Hrow; [|discriminate].
    intros Hrest Ht.
    apply sql_insert_row_appends in Hrow as (t0 & Ht0 & _ & _ & Hc1).
    rewrite Ht in Ht0. injection Ht0 as <-.
    destruct (IH c1 (mk_table (t_columns t) (t_rows t ++ [build_row t icols vals]))
                Hrest) as (new & Hlen & Hc').
    { rewrite Hc1. apply lookup_insert_eq. }
    exists (build_row t icols vals :: new). split; [simpl; now rewrite Hlen|].
    rewrite Hc', Hc1. cbn [t_columns t_rows].
    rewrite insert_insert_eq, <- app_assoc. reflexivity.
Qed.

Lemma current_begin (c : connection) : current (begin c) = current c.
Proof. destruct c as [cm [p|]]; reflexivity. Qed.

Lemma sql_executemany_insert_appends (bind : cell -> result value) (name : string)
    (icols : list string) (rows : list (list cell)) (c c' : connection) :
  sql_executemany_insert bind name icols rows c = (Ok tt, c') ->
  exists t new,
    current c !! name = Some t /\
    length new = length rows /\
    current c' = <[name := mk_table (t_columns t) (t_rows t ++ new)]> (current c).
Proof.
  unfold sql_executemany_insert, sql_prepare_insert.
  destruct (current c !! name) as [t|] eqn:Ht; [|discriminate].
  destruct icols as [|ic icols]; [discriminate|].
  destruct (forallb _ _); [|discriminate].
  intros H. eapply insert_rows_appends in H as (new & Hlen & Hc').
  2:{ rewrite current_begin. exact Ht. }
  exists t, new. rewrite current_begin in Hc'. auto.
Qed.

(** X10: when [insert_dataframe] returns, the table existed before, its
    columns are unchanged, its rows are the rows stored before followed by
    one new row per row of the frame, every other table is untouched, and
    the insert is committed: no transaction is left open. *)
Theorem insert_dataframe_appends (name : string) (df : DataFrame) (w w' : world) :
  insert_dataframe name df w = (Ok tt, w') ->
  exists t new,
    current (w_conn w) !! name = Some t /\
    length new = length (df_rows df) /\
    current (w_conn w') !! name = Some (mk_table (t_columns t) (t_rows t ++ new)) /\
    (forall other, other <> name ->
                   current (w_conn w') !! other = current (w_conn w) !! other) /\
    pending (w_conn w') = None /\
    committed (w_conn w') = current (w_conn w') /\
    w_requests w' = w_requests w.
Proof.
  unfold insert_dataframe, try_except, mbind, M_bind, execute_rows, execute, set_conn, raise.
  destruct (sql_executemany_insert bind_python name (df_columns df) (df_rows df)
              (w_conn w)) as [[[]|e] c1] eqn:Hx; simpl.
  - intros [= <-]. simpl.
    apply sql_executemany_insert_appends in Hx as (t & new & Ht & Hlen & Hc1).
    exists t, new. unfold commit. cbn [current pending committed].
    split; [exact Ht|]. split; [exact Hlen|].
    split; [rewrite Hc1; apply lookup_insert_eq|].
    split; [intros other Ho; rewrite Hc1, lookup_insert_ne; [reflexivity|congruence]|].
    auto.
  - destruct (is_sqlite_error e); simpl; discriminate.
Qed.

(** X10 on the keyed [coin_info] table and a frame of one new coin. *)
Lemma insert_dataframe_appends_witness :
  exists w' new,
    insert_dataframe "coin_info" eth_only keyed_world = (Ok tt, w') /\
    length new = 1%nat /\
    current (w_conn w') !! "coin_info"
      = Some (mk_table (t_columns coin_info_keyed) (t_rows coin_info_keyed ++ new)).
Proof.
  destruct (insert_dataframe "coin_info" eth_only keyed_world) as [[[]|e] w'] eqn:H;
    [|vm_compute in H; discriminate H].
  destruct (insert_dataframe_appends _ _ _ _ H) as (t & new & Ht & Hlen & Hrows & _).
  exists w', new. split; [reflexivity|]. split; [exact Hlen|].
  change (current (w_conn keyed_world) !! "coin_info") with (Some coin_info_keyed) in Ht.
  injection Ht as <-. exact Hrows.
Defined.

(** *** Reading a run backwards *)

Lemma mbind_inv {A B} (m : M A) (f : A -> M B) (w w' : world) (b : B) :
  (m ≫= f) w = (Ok b, w') ->
  exists a w1, m w = (Ok a, w1) /\ f a w1 = (Ok b, w').
Proof.
  unfold mbind, M_bind. destruct (m w) as [[a|e] w1]; [eauto | discriminate].
Qed.

Lemma fmap_inv {A B} (g : A -> B) (m : M A) (w w' : world) (b : B) :
  (g <$> m) w = (Ok b, w') -> exists a, m w = (Ok a, w') /\ b = g a.
Proof.
  unfold fmap, M_fmap. destruct (m w) as [[a|e] w1]; [|discriminate].
  intros [= <- <-]. eauto.
Qed.

Lemma lift_inv {A} (r : result A) (w w' : world) (a : A) :
  lift r w = (Ok a, w') -> r = Ok a /\ w' = w.
Proof. unfold lift. intros [= -> <-]. auto. Qed.

Lemma mret_inv {A} (x a : A) (w w' : world) :
  (mret x : M A) w = (Ok a, w') -> a = x /\ w' = w.
Proof. intros [= <- <-]. auto. Qed.

Lemma try_except_inv_ok {A} (m : M A) (h : exn -> M A) (w w' : world) (a : A) :
  (forall e w1 w2 x, h e w1 <> (Ok x, w2)) ->
  try_except m (fun _ => true) h w = (Ok a, w') -> m w = (Ok a, w').
Proof.
  intros Hh. unfold try_except. destruct (m w) as [[x|e] w1]; [auto|].
  intros H. now apply Hh in H.
Qed.

Lemma table_exists_inv (name : string) (w w' : world) (b : bool) :
  table_exists name w = (Ok b, w') -> b = sql_table_exists name (w_conn w) /\ w' = w.
Proof. rewrite table_exists_eq. intros [= <- <-]. auto. Qed.

Lemma keeps_db_at {A} (m : M A) (w w' : world) (r : result A) :
  keeps_db m -> m w = (r, w') -> w_conn w' = w_conn w.
Proof. intros H E. specialize (H w). now rewrite E in H. Qed.

Lemma sends_nothing_at {A} (m : M A) (w w' : world) (r : result A) :
  sends_nothing m -> m w = (r, w') -> w_requests w' = w_requests w.
Proof. intros H E. specialize (H w). now rewrite E in H. Qed.

(** *** What [to_sql] does to the table *)

Section ToSql.

Variable strftime : datetime -> string.

(** The last step of [to_sql]: the batch, then the commit. *)
Lemma to_sql_insert_inv (name : string) (df : DataFrame) (w w' : world) :
  try_except
    (execute_rows (sql_executemany_insert (bind_pandas strftime) name (df_columns df)
                     (df_rows df));;
     execute (fun c => Ok (commit c)))
    (fun _ => true)
    (fun e => execute (fun c => Ok (rollback c));; raise e) w = (Ok tt, w') ->
  exists c1,
    sql_executemany_insert (bind_pandas strftime) name (df_columns df) (df_rows df)
      (w_conn w) = (Ok tt, c1) /\
    w' = mk_world (commit c1) (w_requests w) (w_ticks w) (w_stdout w).
Proof.
  unfold try_except, mbind, M_bind, execute_rows, execute, set_conn, raise.
  destruct (sql_executemany_insert _ _ _ _ _) as [[[]|e] c1]; simpl.
  - intros [= <-]. eauto.
  - discriminate.
Qed.

Lemma current_commit (c : connection) : current (commit c) = current c.
Proof. reflexivity. Qed.

(** With [if_exists='append'] on a table that exists. *)
Lemma to_sql_append_existing (name : string) (df : DataFrame) (w w' : world) (t : table) :
  current (w_conn w) !! name = Some t ->
  to_sql strftime name false df w = (Ok tt, w') ->
  exists new,
    length new = length (df_rows df) /\
    current (w_conn w') = <[name := mk_table (t_columns t) (t_rows t ++ new)]>
                            (current (w_conn w)) /\
    pending (w_conn w') = None /\
    w_requests w' = w_requests w.
Proof.
  intros Ht H. unfold to_sql in H.
  apply mbind_inv in H as (ex & w1 & Hq & H).
  unfold query in Hq. injection Hq as <- <-.
  unfold sql_table_exists in H. rewrite Ht in H. cbn [andb negb] in H.
  apply mbind_inv in H as ([] & w1 & Hr & H). apply mret_inv in Hr as [_ ->].
  apply to_sql_insert_inv in H as (c1 & Hx & ->).
  apply sql_executemany_insert_appends in Hx as (t0 & new & Ht0 & Hlen & Hc1).
  rewrite Ht in Ht0. injection Ht0 as <-.
  exists new. cbn [w_conn w_requests]. rewrite current_commit. auto.
Qed.

End ToSql.

(** [insert_dataframe], read backwards. *)
Lemma insert_dataframe_inv (name : string) (df : DataFrame) (w w' : world) :
  insert_dataframe name df w = (Ok tt, w') ->
  exists t new,
    current (w_conn w) !! name = Some t /\
    current (w_conn w')
      = <[name := mk_table (t_columns t) (t_rows t ++ new)]> (current (w_conn w)).
Proof.
  unfold insert_dataframe, try_except, mbind, M_bind, execute_rows, execute, set_conn, raise.
  destruct (sql_executemany_insert bind_python name (df_columns df) (df_rows df)
              (w_conn w)) as [[[]|e] c1] eqn:Hx; simpl.
  - intros [= <-]. cbn [w_conn].
    apply sql_executemany_insert_appends in Hx as (t & new & Ht & _ & Hc1).
    exists t, new. rewrite current_commit. auto.
  - destruct (is_sqlite_error e); simpl; discriminate.
Qed.

(** *** The populate operations and the rows stored before *)

Section Populate.

Variable CRYPTOCURRENCIES : list string.
Variable API_KEY : string.
Variable http : nat -> string -> result response.
Variable clock : nat -> datetime.
Variable strftime : datetime -> string.
Variable strptime : string -> result datetime.
Variable pct_pad : bool.

(** The guard of a populate operation on a table that exists: it returns
    with the connection as it was. *)
Lemma guard_inv (name : string) (age : Z) (w w1 : world) (fresh : bool) (t : table) :
  current (w_conn w) !! name = Some t ->
  (if sql_table_exists name (w_conn w)
   then negb <$> should_fetch_data clock strptime name age
   else mret false : M bool) w = (Ok fresh, w1) ->
  w_conn w1 = w_conn w /\ w_requests w1 = w_requests w.
Proof.
  intros Ht. unfold sql_table_exists. rewrite Ht. intros H.
  apply fmap_inv in H as (a & H & _). split.
  - eapply keeps_db_at; [apply should_fetch_data_keeps_db | exact H].
  - eapply sends_nothing_at; [apply should_fetch_data_sends_nothing | exact H].
Qed.

(** The end of both history operations, on a table that exists: no
    [create_table], the reshaping, then [to_sql] with [if_exists='append']. *)
Lemma append_tail (name value_name suffix : string)
    (columns : list (string * string)) (df : DataFrame) (w w' : world) (t : table) :
  current (w_conn w) !! name = Some t ->
  (exists_ ← table_exists name;
   (if negb (exists_ : bool) then create_table name columns else mret tt : M unit);;
   df ← lift (to_long_format value_name suffix df);
   to_sql strftime name false df) w = (Ok tt, w') ->
  exists new,
    current (w_conn w') = <[name := mk_table (t_columns t) (t_rows t ++ new)]>
                            (current (w_conn w)).
Proof.
  intros Ht H.
  apply mbind_inv in H as (ex & w1 & He & H). apply table_exists_inv in He as [-> ->].
  unfold sql_table_exists in H. rewrite Ht in H. cbn [negb] in H.
  apply mbind_inv in H as ([] & w1 & Hr & H). apply mret_inv in Hr as [_ ->].
  apply mbind_inv in H as (long & w1 & Hl & H). apply lift_inv in Hl as [_ ->].
  apply (to_sql_append_existing strftime name long w w' t Ht) in H
    as (new & _ & Hc & _).
  eauto.
Qed.

Lemma stored_rows_kept (name : string) (c c' : connection) (t : table)
    (new : list (list value)) :
  current c' = <[name := mk_table (t_columns t) (t_rows t ++ new)]> (current c) ->
  current c' !! name = Some (mk_table (t_columns t) (t_rows t ++ new)) /\
  (forall other, other <> name -> current c' !! other = current c !! other).
Proof.
  intros ->. split; [apply lookup_insert_eq|].
  intros other Ho. apply lookup_insert_ne. congruence.
Qed.

Lemma stored_rows_same (name : string) (c c' : connection) (t : table) :
  current c !! name = Some t -> c' = c ->
  current c' !! name = Some (mk_table (t_columns t) (t_rows t ++ [])) /\
  (forall other, other <> name -> current c' !! other = current c !! other).
Proof. intros Ht ->. rewrite table_eta. auto. Qed.

(** X11: the history operations and [populate_data] never remove a stored
    row. When [populate_trading_volumes], [populate_historic_prices] or
    [populate_data] (with a fetch and a manipulator that leave the
    database alone) returns on a table that existed, the table has its
    columns and its old rows, followed by the rows the run added (none when
    the update was skipped), and every other table is as it was. *)
Theorem populate_keeps_stored_rows (w w' : world) (t : table) :
  (current (w_conn w) !! "trading_volumes" = Some t ->
   populate_trading_volumes CRYPTOCURRENCIES API_KEY http clock strftime strptime w
     = (Ok tt, w') ->
   exists new,
     current (w_conn w') !! "trading_volumes"
       = Some (mk_table (t_columns t) (t_rows t ++ new)) /\
     (forall other, other <> "trading_volumes" ->
                    current (w_conn w') !! other = current (w_conn w) !! other)) /\
  (current (w_conn w) !! "price_history" = Some t ->
   populate_historic_prices CRYPTOCURRENCIES API_KEY http clock strftime strptime pct_pad w
     = (Ok tt, w') ->
   exists new,
     current (w_conn w') !! "price_history"
       = Some (mk_table (t_columns t) (t_rows t ++ new)) /\
     (forall other, other <> "price_history" ->
                    current (w_conn w') !! other = current (w_conn w) !! other)) /\
  (forall table_name fetch data_manipulator,
   keeps_db fetch ->
   (forall f df, data_manipulator = Some f -> keeps_db (f df)) ->
   current (w_conn w) !! table_name = Some t ->
   populate_data clock strptime table_name fetch data_manipulator w = (Ok tt, w') ->
   exists new,
     current (w_conn w') !! table_name
       = Some (mk_table (t_columns t) (t_rows t ++ new)) /\
     (forall other, other <> table_name ->
                    current (w_conn w') !! other = current (w_conn w) !! other)).
Proof.
  split; [|split].
  - intros Ht H. unfold populate_trading_volumes in H.
    apply mbind_inv in H as (ex & w1 & He & H). apply table_exists_inv in He as [-> ->].
    apply mbind_inv in H as (fresh & w1 & Hg & H).
    destruct (guard_inv _ _ _ _ _ _ Ht Hg) as [Hc1 _].
    destruct fresh.
    { injection H as <-. exists []. apply stored_rows_same; [exact Ht|].
      simpl. exact Hc1. }
    assert (Ht1 : current (w_conn w1) !! "trading_volumes" = Some t) by now rewrite Hc1.
    apply mbind_inv in H as (ex & w2 & He & H). apply table_exists_inv in He as [-> ->].
    apply mbind_inv in H as (newest & w2 & Hn & H).
    assert (Hc2 : w_conn w2 = w_conn w1).
    { unfold sql_table_exists in Hn. rewrite Ht1 in Hn.
      eapply keeps_db_at; [apply get_newest_date_keeps_db | exact Hn]. }
    apply mbind_inv in H as (end_date & w3 & Hnow & H).
    injection Hnow as <- <-.
    apply mbind_inv in H as (df & w4 & Hf & H).
    apply (keeps_db_at _ _ _ _ (fetch_trading_volumes_keeps_db _ _ _ _ _)) in Hf.
    cbn [w_conn] in Hf.
    assert (Ht4 : current (w_conn w4) !! "trading_volumes" = Some t)
      by now rewrite Hf, Hc2.
    apply (append_tail _ _ _ _ _ _ _ _ Ht4) in H as (new & Hc).
    exists new. rewrite Hf, Hc2, Hc1 in Hc. now apply stored_rows_kept.
  - intros Ht H. unfold populate_historic_prices in H.
    apply mbind_inv in H as (ex & w1 & He & H). apply table_exists_inv in He as [-> ->].
    apply mbind_inv in H as (fresh & w1 & Hg & H).
    destruct (guard_inv _ _ _ _ _ _ Ht Hg) as [Hc1 _].
    destruct fresh.
    { injection H as <-. exists []. apply stored_rows_same; [exact Ht|].
      simpl. exact Hc1. }
    apply mbind_inv in H as (df & w2 & Hf & H).
    apply (keeps_db_at _ _ _ _ (get_historic_prices_keeps_db _ _ _ _ _ _ _)) in Hf.
    assert (Ht2 : current (w_conn w2) !! "price_history" = Some t)
      by now rewrite Hf, Hc1.
    apply (append_tail _ _ _ _ _ _ _ _ Ht2) in H as (new & Hc).
    exists new. rewrite Hf, Hc1 in Hc. now apply stored_rows_kept.
  - intros table_name fetch manip Hfetch Hmanip Ht H. unfold populate_data in H.
    apply mbind_inv in H as (ex & w1 & He & H). apply table_exists_inv in He as [-> ->].
    apply mbind_inv in H as (fresh & w1 & Hg & H).
    destruct (guard_inv _ _ _ _ _ _ Ht Hg) as [Hc1 _].
    destruct fresh.
    { injection H as <-. exists []. apply stored_rows_same; [exact Ht|].
      simpl. exact Hc1. }
    apply mbind_inv in H as (df & w2 & Hf & H).
    apply (keeps_db_at _ _ _ _ Hfetch) in Hf.
    apply mbind_inv in H as (df' & w3 & Hm & H).
    assert (Hc3 : w_conn w3 = w_conn w2).
    { destruct manip as [f|].
      - eapply keeps_db_at; [eapply Hmanip; reflexivity | exact Hm].
      - apply mret_inv in Hm as [_ ->]. reflexivity. }
    apply mbind_inv in H as ([] & w4 & Hcr & H).
    assert (Ht3 : current (w_conn w3) !! table_name = Some t)
      by now rewrite Hc3, Hf, Hc1.
    assert (Hc4 : current (w_conn w4) = current (w_conn w3)).
    { unfold create_table, try_except, execute, sql_create_table in Hcr.
      destruct (map _ _) as [|col cols]; [discriminate|].
      rewrite Ht3 in Hcr. unfold set_conn in Hcr. simpl in Hcr.
      injection Hcr as <-. reflexivity. }
    apply insert_dataframe_inv in H as (t0 & new & Ht0 & Hc').
    rewrite Hc4, Ht3 in Ht0. injection Ht0 as <-.
    exists new. rewrite Hc4, Hc3, Hf, Hc1 in Hc'. now apply stored_rows_kept.
Qed.

End Populate.

Lemma populate_keeps_stored_rows_witness :
  exists w' new,
    populate_trading_volumes ["BTC"; "ETH"] "k" http_ok clock_2023
      iso_strftime iso_strptime stale_world = (Ok tt, w') /\
    current (w_conn w') !! "trading_volumes"
      = Some (mk_table (t_columns stale_trading_volumes)
                       (t_rows stale_trading_volumes ++ new)).
Proof.
  destruct (populate_trading_volumes ["BTC"; "ETH"] "k" http_ok clock_2023
              iso_strftime iso_strptime stale_world) as [[[]|e] w'] eqn:H;
    [|vm_compute in H; discriminate H].
  destruct (populate_keeps_stored_rows ["BTC"; "ETH"] "k" http_ok clock_2023
              iso_strftime iso_strptime true stale_world w' stale_trading_volumes)
    as [Hv _].
  destruct (Hv eq_refl H) as (new & Hrows & _).
  exists w', new. split; [reflexivity | exact Hrows].
Defined.

(** *** The rows an insert stores

    When the insert names the columns of the table in the table's order
    (ignoring case) and no column is a key, the stored row is the list of
    bound values. *)

Lemma ci_index_of_lower (name name' : string) (l l' : list string) :
  lower name = lower name' -> map lower l = map lower l' ->
  ci_index_of name l = ci_index_of name' l'.
Proof.
  intros Hn. revert l'. induction l as [|c l IH]; intros [|c' l']; simpl;
    try discriminate; [reflexivity|].
  intros [= Hc Hl]. unfold ci_eqb. rewrite Hc, Hn, (IH l' Hl). reflexivity.
Qed.

Lemma ci_nodup_lower (l l' : list string) :
  map lower l = map lower l' -> ci_nodup l = ci_nodup l'.
Proof.
  revert l'. induction l as [|c l IH]; intros [|c' l']; simpl; try discriminate;
    [reflexivity|].
  intros [= Hc Hl]. rewrite (IH l' Hl). f_equal. f_equal.
  clear IH. revert l' Hl. induction l as [|d l IH]; intros [|d' l']; simpl;
    try discriminate; [reflexivity|].
  intros [= Hd Hl]. unfold ci_eqb at 1 3. rewrite Hc, Hd, (IH l' Hl). reflexivity.
Qed.

Lemma ci_index_of_nth (l : list string) (i : nat) (name : string) :
  ci_nodup l = true -> nth_error l i = Some name -> ci_index_of name l = Some i.
Proof.
  revert i. induction l as [|c l IH]; intros [|i]; simpl; try discriminate.
  - intros _ [= ->]. unfold ci_eqb. now rewrite String.eqb_refl.
  - intros Hn Hi. apply andb_prop in Hn as [Hc Hl].
    assert (Hne : ci_eqb c name = false).
    { apply negb_true_iff in Hc. apply not_true_is_false. intros He.
      assert (Hex : existsb (ci_eqb c) l = true)
        by (apply existsb_exists; exists name; split;
            [eapply nth_error_In; eauto | exact He]).
      congruence. }
    rewrite Hne, (IH i Hl Hi). reflexivity.
Qed.

Lemma is_rowid_keyless (ty : string) : is_primary_key ty = false -> is_rowid ty = false.
Proof. unfold is_rowid. intros ->. apply andb_false_r. Qed.

Lemma build_row_aligned (t : table) (icols : list string) (vals : list value) :
  keyless (t_columns t) ->
  map lower icols = map lower (map fst (t_columns t)) ->
  ci_nodup icols = true ->
  length vals = length icols ->
  build_row t icols vals = vals.
Proof.
  intros Hk Hnames Hnodup Hlen.
  assert (Hlc : length icols = length (t_columns t)).
  { apply (f_equal (@length string)) in Hnames.
    now rewrite !length_map in Hnames. }
  unfold build_row, enumerate.
  apply (nth_ext _ _ VNull VNull).
  { now rewrite length_map, length_combine, length_seq, Nat.min_id, Hlen. }
  intros n Hn.
  rewrite length_map, length_combine, length_seq, Nat.min_id in Hn.
  set (f := fun p : nat * (string * string) => _).
  rewrite (nth_indep _ VNull (f (O, ("", "")))).
  2:{ now rewrite length_map, length_combine, length_seq, Nat.min_id. }
  rewrite map_nth, combine_nth by now rewrite length_seq.
  rewrite seq_nth by exact Hn. cbn [plus]. unfold f. cbn [fst snd].
  set (col := nth n (t_columns t) ("", "")).
  assert (Hin : In col (t_columns t)) by (apply nth_In; exact Hn).
  assert (Hidx : ci_index_of (fst col) icols = Some n).
  { rewrite (ci_index_of_lower (fst col) (fst col) icols (map fst (t_columns t)))
      by auto.
    apply ci_index_of_nth.
    - rewrite <- (ci_nodup_lower icols); auto.
    - rewrite nth_error_map. unfold col.
      rewrite (nth_error_nth' _ ("", "") Hn). reflexivity. }
  rewrite Hidx.
  unfold keyless in Hk. rewrite List.Forall_forall in Hk.
  rewrite (is_rowid_keyless _ (Hk col Hin)).
  destruct (nth n vals VNull); reflexivity.
Qed.

Lemma violates_key_keyless (t : table) (row : list value) :
  keyless (t_columns t) -> violates_key t row = false.
Proof.
  intros Hk. unfold violates_key. apply not_true_is_false. intros H.
  apply existsb_exists in H as ([i col] & Hin & Hp).
  apply in_combine_r in Hin.
  unfold keyless in Hk. rewrite List.Forall_forall in Hk.
  cbn [fst snd] in Hp. rewrite (Hk col Hin) in Hp. discriminate.
Qed.

Lemma mapM_result_cons {A B} (f : A -> result B) (x : A) (l : list A) :
  mapM f (x :: l)
  = match f x with
    | Ok y => match mapM f l with Ok k => Ok (y :: k) | Raise e => Raise e end
    | Raise e => Raise e
    end.
Proof.
  simpl. unfold mbind, result_bind. destruct (f x); [|reflexivity].
  destruct (mapM f l); reflexivity.
Qed.

(** Read backwards: a batch that went through stored the bound rows. *)
Lemma insert_rows_aligned (bind : cell -> result value) (name : string)
    (icols : list string) (rows : list (list cell)) (c c' : connection) (t : table) :
  keyless (t_columns t) ->
  map lower icols = map lower (map fst (t_columns t)) ->
  ci_nodup icols = true ->
  insert_rows bind name icols rows c = (Ok tt, c') ->
  current c !! name = Some t ->
  exists vals,
    mapM (mapM bind) rows = Ok vals /\
    current c' = <[name := mk_table (t_columns t) (t_rows t ++ vals)]> (current c).
Proof.
  intros Hk Hnames Hnodup. revert c t Hk Hnames.
  induction rows as [|row rows IH]; intros c t Hk Hnames.
  - simpl. intros [= <-] Ht. exists []. split; [reflexivity|].
    rewrite table_eta. symmetry. now apply insert_id.
  - cbn [insert_rows]. rewrite mapM_result_cons.
    destruct (mapM bind row) as [vals|]; [|discriminate].
    destruct (sql_insert_row name icols vals c) as [c1|] eqn:Hrow; [|discriminate].
    intros Hrest Ht.
    apply sql_insert_row_appends in Hrow as (t0 & Ht0 & Hlen & _ & Hc1).
    rewrite Ht in Ht0. injection Ht0 as <-.
    rewrite build_row_aligned in Hc1 by assumption.
    destruct (IH c1 (mk_table (t_columns t) (t_rows t ++ [vals])) Hk Hnames Hrest)
      as (rest & Hm & Hc').
    { rewrite Hc1. apply lookup_insert_eq. }
    exists (vals :: rest). rewrite Hm. split; [reflexivity|].
    rewrite Hc', Hc1. cbn [t_columns t_rows].
    rewrite insert_insert_eq, <- app_assoc. reflexivity.
Qed.

Lemma sql_executemany_insert_aligned (bind : cell -> result value) (name : string)
    (icols : list string) (rows : list (list cell)) (c c' : connection) (t : table) :
  keyless (t_columns t) ->
  map lower icols = map lower (map fst (t_columns t)) ->
  ci_nodup icols = true ->
  current c !! name = Some t ->
  sql_executemany_insert bind name icols rows c = (Ok tt, c') ->
  exists vals,
    mapM (mapM bind) rows = Ok vals /\
    current c' = <[name := mk_table (t_columns t) (t_rows t ++ vals)]> (current c).
Proof.
  intros Hk Hnames Hnodup Ht. unfold sql_executemany_insert, sql_prepare_insert.
  rewrite Ht. destruct icols as [|ic icols]; [discriminate|].
  destruct (forallb _ _); [|discriminate].
  intros H. eapply insert_rows_aligned in H as (vals & Hm & Hc'); eauto.
  2:{ rewrite current_begin. exact Ht. }
  exists vals. rewrite current_begin in Hc'. auto.
Qed.

(** *** [to_sql] with [if_exists='replace'] *)

Lemma sql_type_of_keyless (d : dtype) : is_primary_key (sql_type_of d) = false.
Proof. destruct d; reflexivity. Qed.

Lemma length_df_dtypes (df : DataFrame) : length (df_dtypes df) = length (df_columns df).
Proof.
  unfold df_dtypes, enumerate.
  now rewrite length_map, length_combine, length_seq, Nat.min_id.
Qed.

Lemma map_fst_combine_same {A B} (l : list A) (l' : list B) :
  length l = length l' -> map fst (combine l l') = l.
Proof.
  revert l'. induction l as [|x l IH]; intros [|y l']; simpl; try discriminate;
    [reflexivity|].
  intros [= H]. now rewrite IH.
Qed.

Section ToSqlReplace.

Variable strftime : datetime -> string.

(** The table is dropped if it exists and created from the frame, so it
    holds the rows of the frame as pandas binds them, and nothing else. *)
Lemma to_sql_replace (name : string) (df : DataFrame) (w w' : world) :
  to_sql strftime name true df w = (Ok tt, w') ->
  exists vals,
    mapM (mapM (bind_pandas strftime)) (df_rows df) = Ok vals /\
    current (w_conn w') =
      <[name := mk_table (combine (df_columns df) (map sql_type_of (df_dtypes df))) vals]>
        (current (w_conn w)) /\
    w_requests w' = w_requests w.
Proof.
  intros H. unfold to_sql in H.
  apply mbind_inv in H as (ex & w1 & Hq & H).
  unfold query in Hq. injection Hq as <- <-.
  rewrite andb_false_r in H.
  apply mbind_inv in H as ([] & w2 & Hddl & H).
  apply to_sql_insert_inv in H as (c1 & Hx & ->).
  set (schema := combine (df_columns df) (map sql_type_of (df_dtypes df))) in *.
  assert (Hnames : map fst schema = df_columns df).
  { apply map_fst_combine_same. now rewrite length_map, length_df_dtypes. }
  assert (Hw2 : current (w_conn w2) = <[name := mk_table schema []]> (current (w_conn w))
                /\ w_requests w2 = w_requests w
                /\ ci_nodup (df_columns df) = true).
  { apply mbind_inv in Hddl as ([] & w1 & Hdrop & Hcreate).
    assert (Hw1 : current (w_conn w1) = delete name (current (w_conn w))
                  /\ w_requests w1 = w_requests w).
    { destruct (sql_table_exists name (w_conn w)) eqn:He.
      - unfold execute, set_conn in Hdrop. injection Hdrop as <-.
        cbn [w_conn w_requests]. split; [apply current_apply_stmt | reflexivity].
      - apply mret_inv in Hdrop as [_ ->]. split; [|reflexivity].
        unfold sql_table_exists in He.
        destruct (current (w_conn w) !! name) eqn:Hl; [discriminate|].
        symmetry. now apply delete_id. }
    destruct Hw1 as [Hc1' Hr1].
    unfold execute, sql_create_table in Hcreate. rewrite Hnames in Hcreate.
    destruct schema as [|col cols] eqn:Hs; [discriminate|].
    rewrite Hc1', lookup_delete_eq in Hcreate.
    destruct (ci_nodup (df_columns df)) eqn:Hnd; [|discriminate]. cbn [negb] in Hcreate.
    unfold set_conn in Hcreate. injection Hcreate as <-.
    cbn [w_conn w_requests]. split; [|split; [exact Hr1 | reflexivity]].
    rewrite current_apply_stmt, Hc1'. apply insert_delete_eq. }
  destruct Hw2 as (Hc2 & Hr2 & Hnd).
  apply (sql_executemany_insert_aligned _ _ _ _ _ _ (mk_table schema [])) in Hx
    as (vals & Hm & Hc1).
  - exists vals. cbn [w_conn w_requests]. rewrite current_commit, Hc1, Hc2.
    cbn [t_columns t_rows app]. rewrite insert_insert_eq. auto.
  - unfold keyless, schema. cbn [t_columns]. apply List.Forall_forall.
    intros [cname ty] Hin. apply in_combine_r in Hin.
    apply in_map_iff in Hin as (d & <- & _). apply sql_type_of_keyless.
  - cbn [t_columns]. now rewrite Hnames.
  - exact Hnd.
  - rewrite Hc2. apply lookup_insert_eq.
Qed.

End ToSqlReplace.

(** *** [populate_market_cap] rewrites the table *)

Lemma column_dtype_text (col : list cell) :
  Forall (fun c => exists s, c = CStr s) col -> column_dtype col = Object.
Proof.
  intros H. unfold column_dtype.
  assert (Hf : existsb is_float col = false /\ existsb is_date col = false).
  { induction H as [|c col [s ->] _ [IHf IHd]]; simpl; auto. }
  destruct Hf as [-> ->]. now rewrite !andb_false_r.
Qed.

Lemma market_cap_rows_shape (market_cap_data : json) (symbols : list json)
    (now : string) (data : list (list cell)) :
  market_cap_rows market_cap_data symbols now = Ok data ->
  length data = length symbols /\
  map (row_get 0) data = map cell_of_json symbols /\
  Forall (fun row => exists s m, row = [s; m; CStr now]) data.
Proof.
  revert data. induction symbols as [|symbol rest IH]; intros data; simpl.
  - intros [= <-]. auto.
  - unfold mbind, result_bind.
    destruct (json_index market_cap_data symbol) as [entry|]; [|discriminate].
    destruct (json_get "USD" entry) as [usd|]; [|discriminate].
    destruct (json_get "MKTCAP" usd) as [market_cap|]; [|discriminate].
    destruct (market_cap_rows market_cap_data rest now) as [rows|]; [|discriminate].
    intros [= <-]. destruct (IH rows eq_refl) as (Hl & Hs & Hf).
    split; [simpl; now rewrite Hl|]. split; [cbn [map]; now rewrite Hs|].
    constructor; eauto.
Qed.

Lemma bind_rows_shape (strftime : datetime -> string) (now : string)
    (data : list (list cell)) (rows : list (list value)) :
  Forall (fun row => exists s m, row = [s; m; CStr now]) data ->
  mapM (mapM (bind_pandas strftime)) data = Ok rows ->
  length rows = length data /\
  Forall (fun row => exists s m, row = [s; m; VText now]) rows /\
  (forall keys, map (row_get 0) data = map CStr keys ->
                map (fun row => nth 0 row VNull) rows = map VText keys).
Proof.
  intros H. revert rows. induction H as [|row data (s & m & ->) _ IH]; intros rows.
  - intros [= <-]. repeat split; auto. intros [|k keys]; [reflexivity | discriminate].
  - rewrite mapM_result_cons.
    destruct (mapM (bind_pandas strftime) [s; m; CStr now]) as [v|] eqn:Hv; [|discriminate].
    destruct (mapM (mapM (bind_pandas strftime)) data) as [rest|]; [|discriminate].
    intros [= <-]. destruct (IH rest eq_refl) as (Hl & Hf & Hk).
    rewrite !mapM_result_cons in Hv.
    destruct (bind_pandas strftime s) as [vs|] eqn:Hs; [|discriminate].
    destruct (bind_pandas strftime m) as [vm|]; [|discriminate].
    simpl in Hv. injection Hv as <-.
    split; [simpl; now rewrite Hl|]. split; [constructor; eauto|].
    intros [|k keys]; [discriminate|]. unfold row_get at 1. cbn [map nth].
    intros [= Hs0 Hrest]. subst s. injection Hs as <-.
    f_equal. now apply Hk.
Qed.

Section MarketCap.

Variable CRYPTOCURRENCIES : list string.
Variable API_KEY : string.
Variable http : nat -> string -> result response.
Variable clock : nat -> datetime.
Variable strftime : datetime -> string.
Variable strptime : string -> result datetime.

Lemma guard_frame (name : string) (age : Z) (exists_ fresh : bool) (w w1 : world) :
  (if exists_ then negb <$> should_fetch_data clock strptime name age
   else mret false : M bool) w = (Ok fresh, w1) ->
  w_conn w1 = w_conn w /\ w_requests w1 = w_requests w /\
  (fresh = true -> exists_ = true).
Proof.
  destruct exists_.
  - intros H. apply fmap_inv in H as (a & H & _). split; [|split; [|reflexivity]].
    + eapply keeps_db_at; [apply should_fetch_data_keeps_db | exact H].
    + eapply sends_nothing_at; [apply should_fetch_data_sends_nothing | exact H].
  - intros H. apply mret_inv in H as [-> ->]. repeat split. discriminate.
Qed.

Lemma create_if_missing (name : string) (columns : list (string * string))
    (w w' : world) :
  (if negb (sql_table_exists name (w_conn w)) then create_table name columns
   else mret tt : M unit) w = (Ok tt, w') ->
  (forall t, <[name := t]> (current (w_conn w')) = <[name := t]> (current (w_conn w))) /\
  w_requests w' = w_requests w.
Proof.
  unfold sql_table_exists.
  destruct (current (w_conn w) !! name) as [t0|] eqn:Ht; cbn [negb].
  - intros H. apply mret_inv in H as [_ ->]. auto.
  - unfold create_table, try_except, execute, sql_create_table.
    destruct columns as [|col cols]; [discriminate|].
    rewrite Ht. destruct (negb _); [discriminate|].
    unfold set_conn. intros [= <-]. cbn [w_conn w_requests].
    split; [|reflexivity]. intros t. rewrite current_apply_stmt.
    apply insert_insert_eq.
Qed.

(** X12: what a run of [populate_market_cap] that returns has done. Either
    the update was skipped (only possible when the table existed): the
    database is as before and no request was sent. Or exactly one request
    was sent, for all tracked symbols at once, and the table was rewritten
    from its answer: it holds one row per entry of "RAW", in the order of
    the answer, each row ending in the same clock reading as text; the rows
    stored before are gone, the date column is declared TEXT whatever it
    was declared before, and every other table is untouched. *)
Theorem populate_market_cap_rewrites (w w' : world) :
  populate_market_cap CRYPTOCURRENCIES API_KEY http clock strftime strptime w
    = (Ok tt, w') ->
  (sql_table_exists "market_cap" (w_conn w) = true /\
   w_conn w' = w_conn w /\ w_requests w' = w_requests w) \/
  (exists response data raw symbols n ty_symbol ty_cap rows,
     let url := "https://min-api.cryptocompare.com/data/pricemultifull?fsyms="
                +:+ String.concat "," CRYPTOCURRENCIES
                +:+ "&tsyms=USD&api_key=" +:+ API_KEY in
     w_requests w' = url :: w_requests w /\
     http (length (w_requests w)) url = Ok response /\
     response_json response = Ok data /\
     json_get "RAW" data = Ok raw /\
     json_iter raw = Ok symbols /\
     length rows = length symbols /\
     (forall entries, raw = JObj entries ->
        map (fun row => nth 0 row VNull) rows = map (fun kv => VText (fst kv)) entries) /\
     Forall (fun row => exists s m, row = [s; m; VText (strftime (clock n))]) rows /\
     current (w_conn w')
       = <["market_cap" := mk_table [("symbol", ty_symbol); ("market_cap", ty_cap);
                                     ("date", "TEXT")] rows]>
           (current (w_conn w))).
Proof.
  intros H. unfold populate_market_cap in H.
  apply mbind_inv in H as (ex & w0 & He & H). apply table_exists_inv in He as [-> ->].
  apply mbind_inv in H as (fresh & w1 & Hg & H).
  apply guard_frame in Hg as (Hc1 & Hr1 & Hskip).
  destruct fresh.
  { left. injection H as <-. cbn [w_conn w_requests]. auto. }
  right. clear Hskip.
  apply mbind_inv in H as (raw & w2 & Hf & H).
  unfold fetch_market_cap in Hf.
  apply mbind_inv in Hf as (response & w1' & Hget & Hf).
  unfold requests_get in Hget. injection Hget as Hhttp <-.
  apply mbind_inv in Hf as (data & w1' & Hjson & Hf). apply lift_inv in Hjson as [Hjson ->].
  apply lift_inv in Hf as [Hraw ->].
  apply mbind_inv in H as (now & w3 & Hnow & H).
  apply fmap_inv in Hnow as (d & Hnow & ->). injection Hnow as <- <-.
  apply mbind_inv in H as (symbols & w3 & Hsym & H). apply lift_inv in Hsym as [Hsym ->].
  apply mbind_inv in H as (rows & w3 & Hrows & H). apply lift_inv in Hrows as [Hrows ->].
  apply mbind_inv in H as (ex & w3 & He & H). apply table_exists_inv in He as [-> ->].
  apply mbind_inv in H as ([] & w4 & Hcr & H).
  apply create_if_missing in Hcr as [Hc4 Hr4].
  apply to_sql_replace in H as (vals & Hbind & Hc' & Hr').
  apply market_cap_rows_shape in Hrows as (Hlen & Hfirst & Hshape).
  destruct (bind_rows_shape _ _ _ _ Hshape Hbind) as (Hlen' & Hshape' & Hkeys).
  cbn [w_conn w_requests w_ticks df_columns df_rows] in *.
  rewrite Hr1 in *. rewrite Hc1 in *.
  exists response, data, raw, symbols, (w_ticks w1).
  eexists _, _, vals. cbv zeta.
  split; [congruence|]. split; [exact Hhttp|]. split; [exact Hjson|].
  split; [exact Hraw|]. split; [exact Hsym|]. split; [congruence|].
  split.
  { intros entries ->. simpl in Hsym. injection Hsym as <-.
    rewrite (Hkeys (map fst entries)); rewrite ?map_map; [reflexivity|].
    rewrite Hfirst, map_map. reflexivity. }
  split; [exact Hshape'|].
  rewrite Hc', Hc4. f_equal. f_equal.
  unfold df_dtypes, enumerate. cbn [df_columns df_rows length seq combine map fst].
  rewrite (column_dtype_text (map (row_get 2) rows)); [reflexivity|].
  apply List.Forall_forall. intros c Hin. apply in_map_iff in Hin as (row & <- & Hin).
  rewrite List.Forall_forall in Hshape. destruct (Hshape row Hin) as (s & m & ->).
  simpl. eauto.
Qed.

End MarketCap.

(** X12 on the stale database: the one stored row is replaced by the one
    row of the answer. *)
Lemma populate_market_cap_rewrites_witness :
  exists w' rows,
    populate_market_cap ["BTC"; "ETH"] "k" http_ok clock_2023 iso_strftime iso_strptime
      stale_world = (Ok tt, w') /\
    length (w_requests w') = 1%nat /\
    length rows = 1%nat /\
    (exists ty_symbol ty_cap,
       current (w_conn w') !! "market_cap"
         = Some (mk_table [("symbol", ty_symbol); ("market_cap", ty_cap); ("date", "TEXT")]
                          rows)).
Proof.
  destruct (populate_market_cap ["BTC"; "ETH"] "k" http_ok clock_2023 iso_strftime
              iso_strptime stale_world) as [[[]|e] w'] eqn:H;
    [|vm_compute in H; discriminate H].
  destruct (populate_market_cap_rewrites _ _ _ _ _ _ _ _ H)
    as [(_ & _ & Hr) | (response & data & raw & symbols & n & ty1 & ty2 & rows & Hrun)].
  - exfalso. vm_compute in H. injection H as <-. discriminate Hr.
  - cbv zeta in Hrun.
    destruct Hrun as (Hreq & Hhttp & Hjson & Hraw & Hsym & Hlen & _ & _ & Hc).
    exists w', rows. split; [reflexivity|].
    split; [rewrite Hreq; reflexivity|].
    split.
    { injection Hhttp as <-. injection Hjson as <-.
      vm_compute in Hraw. injection Hraw as <-. injection Hsym as <-. exact Hlen. }
    exists ty1, ty2. rewrite Hc. apply lookup_insert_eq.
Defined.

(** *** [populate_coin_data] *)

Lemma drop_table_inv (name : string) (w w' : world) :
  drop_table name w = (Ok tt, w') ->
  current (w_conn w') = delete name (current (w_conn w)) /\
  w_requests w' = w_requests w.
Proof.
  unfold drop_table, try_except, mbind, M_bind, execute, set_conn. simpl.
  intros [= <-]. cbn [w_conn w_requests].
  rewrite current_commit. split; [apply current_apply_stmt | reflexivity].
Qed.

Lemma create_table_inv (name : string) (columns : list (string * string))
    (w w' : world) :
  create_table name columns w = (Ok tt, w') ->
  current (w_conn w') =
    match current (w_conn w) !! name with
    | Some _ => current (w_conn w)
    | None => <[name := mk_table columns []]> (current (w_conn w))
    end /\
  w_requests w' = w_requests w.
Proof.
  unfold create_table, try_except, execute, sql_create_table.
  destruct columns as [|col cols]; [discriminate|].
  destruct (current (w_conn w) !! name) as [t|].
  - unfold set_conn. intros [= <-]. cbn [w_conn w_requests]. auto.
  - destruct (negb _); [discriminate|].
    unfold set_conn. intros [= <-]. cbn [w_conn w_requests].
    split; [apply current_apply_stmt | reflexivity].
Qed.

Section CoinData.

Variable CRYPTOCURRENCIES : list string.
Variable http : nat -> string -> result response.
Variable clock : nat -> datetime.
Variable strftime : datetime -> string.
Variable strptime : string -> result datetime.

(** X15: what a run of [populate_coin_data] that returns has done. Either
    it was skipped (only possible when the table existed): it returns
    nothing, the database is as before and no request was sent. Or it sent
    the one coin-list request and returns a frame with one row per tracked
    symbol, in order, while the [coin_info] table is left empty with the
    five declared columns: the rows stored before are dropped and the rows
    fetched are not stored. Every other table is untouched. *)
Theorem populate_coin_data_empties (w w' : world) (out : option DataFrame) :
  populate_coin_data CRYPTOCURRENCIES http clock strftime strptime w = (Ok out, w') ->
  (out = None /\ sql_table_exists "coin_info" (w_conn w) = true /\
   w_conn w' = w_conn w /\ w_requests w' = w_requests w) \/
  (exists df,
     out = Some df /\
     df_columns df = coin_info_columns /\
     map (row_get 0) (df_rows df) = map CStr CRYPTOCURRENCIES /\
     w_requests w' = "https://min-api.cryptocompare.com/data/all/coinlist" :: w_requests w /\
     current (w_conn w')
       = <["coin_info" := mk_table [("Symbol", "TEXT PRIMARY KEY"); ("Name", "TEXT");
                                    ("Description", "TEXT"); ("ImageUrl", "TEXT");
                                    ("date", "DATE")] []]>
           (current (w_conn w))).
Proof.
  intros H. unfold populate_coin_data in H.
  apply mbind_inv in H as (ex & w0 & He & H). apply table_exists_inv in He as [-> ->].
  apply mbind_inv in H as (fresh & w1 & Hg & H).
  apply guard_frame in Hg as (Hc1 & Hr1 & Hskip).
  destruct fresh.
  { left. apply mbind_inv in H as ([] & w2 & Hp & H). apply mret_inv in H as [-> ->].
    injection Hp as <-. cbn [w_conn w_requests]. auto. }
  right. clear Hskip.
  apply mbind_inv in H as (ex & w2 & He & H). apply table_exists_inv in He as [-> ->].
  apply mbind_inv in H as ([] & w2 & Hdrop & H).
  assert (Hw2 : current (w_conn w2) = delete "coin_info" (current (w_conn w1))
                /\ w_requests w2 = w_requests w1).
  { unfold sql_table_exists in Hdrop.
    destruct (current (w_conn w1) !! "coin_info") eqn:Hl.
    - now apply drop_table_inv.
    - apply mret_inv in Hdrop as [_ ->]. split; [|reflexivity].
      symmetry. now apply delete_id. }
  destruct Hw2 as [Hc2 Hr2].
  apply mbind_inv in H as ([] & w3 & Hcreate & H).
  apply create_table_inv in Hcreate as [Hc3 Hr3].
  rewrite Hc2, lookup_delete_eq, insert_delete_eq in Hc3.
  apply mbind_inv in H as (df & w4 & Hfetch & H). apply mret_inv in H as [-> ->].
  pose proof (keeps_db_at _ _ _ _ (fetch_coin_info_keeps_db http clock strftime _) Hfetch)
    as Hc4.
  unfold fetch_coin_info in Hfetch.
  apply mbind_inv in Hfetch as (response & w3' & Hget & Hfetch).
  unfold requests_get in Hget. injection Hget as _ <-.
  apply mbind_inv in Hfetch as (data & w3' & Hjson & Hfetch).
  apply lift_inv in Hjson as [_ ->].
  apply mbind_inv in Hfetch as (info & w3' & Hinfo & Hfetch).
  apply lift_inv in Hinfo as [_ ->].
  apply fetch_coin_info_loop_rows in Hfetch
    as (new & -> & Hsyms & _ & Hr4 & _).
  cbn [w_requests w_conn df_columns df_rows app] in *.
  exists (mk_df coin_info_columns new).
  split; [reflexivity|]. split; [reflexivity|]. split; [exact Hsyms|].
  split; [congruence|]. rewrite Hc4, Hc3, Hc1. reflexivity.
Qed.

End CoinData.

(** X15 on the stale database: the stored coin is dropped, the fetched one
    is returned and not stored. *)
Lemma populate_coin_data_empties_witness :
  exists w' df,
    populate_coin_data ["BTC"] http_ok clock_2023 iso_strftime iso_strptime stale_world
      = (Ok (Some df), w') /\
    map (row_get 0) (df_rows df) = [CStr "BTC"] /\
    rows_of "coin_info" w' = Some [].
Proof.
  destruct (populate_coin_data ["BTC"] http_ok clock_2023 iso_strftime iso_strptime
              stale_world) as [[[df|]|e] w'] eqn:H;
    [| vm_compute in H; discriminate H | vm_compute in H; discriminate H].
  destruct (populate_coin_data_empties _ _ _ _ _ _ _ _ H)
    as [(Hnone & _) | (df' & Hsome & _ & Hsyms & _ & Hc)]; [discriminate Hnone|].
  injection Hsome as <-.
  exists w', df. split; [reflexivity|]. split; [exact Hsyms|].
  unfold rows_of. rewrite Hc, lookup_insert_eq. reflexivity.
Defined.

(** *** The entry point *)

Lemma create_table_frame (name : string) (columns : list (string * string)) (w : world) :
  w_requests (snd (create_table name columns w)) = w_requests w /\
  (pending (w_conn w) = None -> pending (w_conn (snd (create_table name columns w))) = None) /\
  (forall other, other <> name ->
     current (w_conn (snd (create_table name columns w))) !! other
     = current (w_conn w) !! other).
Proof.
  split; [|split; [apply create_table_no_transaction|]];
    unfold create_table, try_except, execute, sql_create_table;
    (destruct columns as [|col cols]; [reflexivity|]);
    (destruct (current (w_conn w) !! name) as [t|]; [reflexivity|]);
    (destruct (negb _); [reflexivity|]); simpl.
  - reflexivity.
  - intros other Ho. rewrite current_apply_stmt. apply lookup_insert_ne. congruence.
Qed.

Lemma insert_dataframe_frame (name : string) (df : DataFrame) (w : world) :
  pending (w_conn w) = None ->
  w_requests (snd (insert_dataframe name df w)) = w_requests w /\
  pending (w_conn (snd (insert_dataframe name df w))) = None /\
  (forall other, other <> name ->
     current (w_conn (snd (insert_dataframe name df w))) !! other
     = current (w_conn w) !! other).
Proof.
  intros Hp. split; [|split; [apply insert_dataframe_no_transaction|]];
    unfold insert_dataframe, try_except, mbind, M_bind, execute_rows, execute, set_conn, raise;
    pose proof (sql_executemany_insert_spec name (df_columns df) (df_rows df) (w_conn w))
      as [Hc He];
    destruct (sql_executemany_insert bind_python name (df_columns df) (df_rows df)
                (w_conn w)) as [[[]|e] c1] eqn:Hx; cbn [fst snd] in *;
    try rewrite (He e eq_refl); cbn [fst snd w_conn w_requests]; try reflexivity.
  - intros other Ho. rewrite current_commit.
    apply sql_executemany_insert_appends in Hx as (t & new & _ & _ & Hc1).
    rewrite Hc1. apply lookup_insert_ne. congruence.
  - intros other Ho. unfold rollback, current. cbn [pending committed].
    rewrite Hp, Hc. reflexivity.
Qed.

Section Main.

Variable CRYPTOCURRENCIES : list string.
Variable API_KEY : string.
Variable http : nat -> string -> result response.
Variable clock : nat -> datetime.
Variable strftime : datetime -> string.
Variable strptime : string -> result datetime.

Lemma fetch_coin_info_loop_sends_nothing (info : json) (coins : list string)
    (df : DataFrame) :
  sends_nothing (fetch_coin_info_loop clock strftime info coins df).
Proof.
  revert info df. induction coins as [|symbol rest IH]; intros info df;
    cbn [fetch_coin_info_loop]; frame.
Qed.

(** Whatever the answer, [fetch_coin_info] has sent the one request. *)
Lemma fetch_coin_info_sends_one (coins : list string) (w : world) :
  w_requests (snd (fetch_coin_info http clock strftime coins w))
  = "https://min-api.cryptocompare.com/data/all/coinlist" :: w_requests w.
Proof.
  unfold fetch_coin_info. unfold mbind at 1, M_bind at 1, requests_get.
  destruct (http _ _) as [response|e]; [|reflexivity].
  match goal with |- w_requests (snd (?m ?w1)) = _ =>
    assert (Hs : sends_nothing m)
  end.
  { frame. apply fetch_coin_info_loop_sends_nothing. }
  rewrite (Hs _). reflexivity.
Qed.

(** What [populate_data] may touch, whether it returns or raises. *)
Lemma populate_data_frame (table_name : string) (fetch : M DataFrame) (url : string)
    (w w' : world) (r : result unit) :
  keeps_db fetch ->
  (forall w0, w_requests (snd (fetch w0)) = url :: w_requests w0) ->
  pending (w_conn w) = None ->
  populate_data clock strptime table_name fetch None w = (r, w') ->
  (w_requests w' = w_requests w \/ w_requests w' = url :: w_requests w) /\
  (forall other, other <> table_name ->
     current (w_conn w') !! other = current (w_conn w) !! other).
Proof.
  intros Hdb Hsend Hp H. unfold populate_data in H.
  unfold mbind at 1, M_bind at 1 in H. rewrite table_exists_eq in H.
  unfold mbind at 1, M_bind at 1 in H.
  assert (Hguard : forall r w1,
            (if sql_table_exists table_name (w_conn w)
             then negb <$> should_fetch_data clock strptime table_name 24
             else mret false : M bool) w = (r, w1) ->
            w_conn w1 = w_conn w /\ w_requests w1 = w_requests w).
  { intros r0 w1. destruct (sql_table_exists table_name (w_conn w)).
    - unfold fmap, M_fmap.
      pose proof (should_fetch_data_frame clock strptime table_name 24 w) as Hf.
      destruct (should_fetch_data clock strptime table_name 24 w) as [[b|e] w2];
        intros [= <- <-]; exact Hf.
    - intros [= <- <-]. auto. }
  destruct ((if sql_table_exists table_name (w_conn w)
             then negb <$> should_fetch_data clock strptime table_name 24
             else mret false : M bool) w) as [[fresh|e] w1] eqn:Hg;
    destruct (Hguard _ _ eq_refl) as [Hc1 Hr1].
  2:{ injection H as <- <-. rewrite Hc1, Hr1. auto. }
  destruct fresh.
  { injection H as <- <-. cbn [w_requests w_conn]. rewrite Hc1, Hr1. auto. }
  unfold mbind at 1, M_bind at 1 in H.
  pose proof (Hdb w1) as Hc2. pose proof (Hsend w1) as Hr2.
  destruct (fetch w1) as [[df|e] w2]; cbn [snd] in *.
  2:{ injection H as <- <-. rewrite Hc2, Hr2, Hc1, Hr1. auto. }
  unfold mbind at 1, M_bind at 1 in H. cbn [mret M_ret] in H.
  unfold mbind at 1, M_bind at 1 in H.
  match type of H with context [create_table table_name ?cols w2] =>
    pose proof (create_table_frame table_name cols w2) as (Hr3 & Hp3 & Hc3);
    destruct (create_table table_name cols w2) as [[[]|e] w3]
  end; cbn [snd] in *.
  2:{ injection H as <- <-. rewrite Hr3, Hr2, Hr1. split; [auto|].
      intros other Ho. rewrite (Hc3 other Ho), Hc2, Hc1. reflexivity. }
  assert (Hp3' : pending (w_conn w3) = None).
  { apply Hp3. now rewrite Hc2, Hc1. }
  destruct (insert_dataframe_frame table_name df w3 Hp3') as (Hr4 & _ & Hc4).
  rewrite H in Hr4, Hc4. cbn [snd] in *.
  rewrite Hr4, Hr3, Hr2, Hr1. split; [auto|].
  intros other Ho. rewrite (Hc4 other Ho), (Hc3 other Ho), Hc2, Hc1. reflexivity.
Qed.

(** X16: [main] never completes. Its second call of [populate_data]
    passes no fetch function, so every run ends in an exception: the one
    the coin-info update raised, or [TypeError] when that update returned.
    No run reaches the market-cap or trading-volume update: at most the
    coin-list request is sent, and every table other than [coin_info] holds
    what the database file held at the start. *)
Theorem main_never_completes (w : world) :
  (exists e, fst (main CRYPTOCURRENCIES API_KEY http clock strftime strptime w) = Raise e) /\
  (forall w1,
     populate_data clock strptime "coin_info"
       (fetch_coin_info http clock strftime CRYPTOCURRENCIES) None
       (snd (connect w)) = (Ok tt, w1) ->
     main CRYPTOCURRENCIES API_KEY http clock strftime strptime w = (Raise TypeError, w1)) /\
  (w_requests (snd (main CRYPTOCURRENCIES API_KEY http clock strftime strptime w))
     = w_requests w \/
   w_requests (snd (main CRYPTOCURRENCIES API_KEY http clock strftime strptime w))
     = "https://min-api.cryptocompare.com/data/all/coinlist" :: w_requests w) /\
  (forall name, name <> "coin_info" ->
     current (w_conn (snd (main CRYPTOCURRENCIES API_KEY http clock strftime strptime w)))
       !! name
     = committed (w_conn w) !! name).
Proof.
  assert (Hmain :
    main CRYPTOCURRENCIES API_KEY http clock strftime strptime w
    = match populate_data clock strptime "coin_info"
              (fetch_coin_info http clock strftime CRYPTOCURRENCIES) None
              (snd (connect w)) with
      | (Ok _, w1) => (Raise TypeError, w1)
      | (Raise e, w1) => (Raise e, w1)
      end).
  { unfold main, mbind, M_bind. change (connect w) with (Ok tt, snd (connect w)).
    cbv beta iota.
    destruct (populate_data _ _ _ _ _ _) as [[[]|e] w1]; reflexivity. }
  rewrite Hmain.
  destruct (populate_data clock strptime "coin_info"
              (fetch_coin_info http clock strftime CRYPTOCURRENCIES) None
              (snd (connect w))) as [r w1] eqn:Hrun.
  destruct (populate_data_frame "coin_info"
              (fetch_coin_info http clock strftime CRYPTOCURRENCIES)
              "https://min-api.cryptocompare.com/data/all/coinlist"
              (snd (connect w)) w1 r)
    as [Hreq Hdb].
  { apply fetch_coin_info_keeps_db. }
  { apply fetch_coin_info_sends_one. }
  { reflexivity. }
  { exact Hrun. }
  destruct r as [[]|e]; cbn [fst snd].
  - split; [eauto|]. split; [now intros ? [= <-]|]. split; [exact Hreq | exact Hdb].
  - split; [eauto|]. split; [discriminate|]. split; [exact Hreq | exact Hdb].
Qed.

End Main.

(** *** The change column of the price history *)

(** Each row a batch adds is built from the table's columns. *)
Lemma insert_rows_built (bind : cell -> result value) (name : string)
    (icols : list string) (rows : list (list cell)) (c c' : connection) (t : table) :
  insert_rows bind name icols rows c = (Ok tt, c') ->
  current c !! name = Some t ->
  exists new,
    current c' = <[name := mk_table (t_columns t) (t_rows t ++ new)]> (current c) /\
    Forall (fun row => exists t' vals,
              t_columns t' = t_columns t /\ length vals = length icols /\
              row = build_row t' icols vals) new.
Proof.
  revert c t. induction rows as [|row rows IH]; intros c t; simpl.
  - intros [= <-] Ht. exists []. split; [|constructor].
    rewrite table_eta. symmetry. now apply insert_id.
  - destruct (mapM bind row) as [vals|]; [|discriminate].
    destruct (sql_insert_row name icols vals c) as [c1|] eqn:Hrow; [|discriminate].
    intros Hrest Ht.
    apply sql_insert_row_appends in Hrow as (t0 & Ht0 & Hlen & _ & Hc1).
    rewrite Ht in Ht0. injection Ht0 as <-.
    destruct (IH c1 (mk_table (t_columns t) (t_rows t ++ [build_row t icols vals]))
                Hrest) as (new & Hc' & Hnew).
    { rewrite Hc1. apply lookup_insert_eq. }
    exists (build_row t icols vals :: new). split.
    + rewrite Hc', Hc1. cbn [t_columns t_rows].
      rewrite insert_insert_eq, <- app_assoc. reflexivity.
    + constructor; [exists t, vals; auto | exact Hnew].
Qed.

Section PriceHistory.

Variable CRYPTOCURRENCIES : list string.
Variable API_KEY : string.
Variable http : nat -> string -> result response.
Variable clock : nat -> datetime.
Variable strftime : datetime -> string.
Variable strptime : string -> result datetime.
Variable pct_pad : bool.

Lemma to_sql_append_built (name : string) (df : DataFrame) (w w' : world) (t : table) :
  current (w_conn w) !! name = Some t ->
  to_sql strftime name false df w = (Ok tt, w') ->
  exists new,
    current (w_conn w') = <[name := mk_table (t_columns t) (t_rows t ++ new)]>
                            (current (w_conn w)) /\
    Forall (fun row => exists t' vals,
              t_columns t' = t_columns t /\ length vals = length (df_columns df) /\
              row = build_row t' (df_columns df) vals) new.
Proof.
  intros Ht H. unfold to_sql in H.
  apply mbind_inv in H as (ex & w1 & Hq & H).
  unfold query in Hq. injection Hq as <- <-.
  unfold sql_table_exists in H. rewrite Ht in H. cbn [andb negb] in H.
  apply mbind_inv in H as ([] & w1 & Hr & H). apply mret_inv in Hr as [_ ->].
  apply to_sql_insert_inv in H as (c1 & Hx & ->).
  unfold sql_executemany_insert, sql_prepare_insert in Hx. rewrite Ht in Hx.
  destruct (df_columns df) as [|ic icols] eqn:Hcols; [discriminate|].
  destruct (forallb _ _); [|discriminate].
  eapply insert_rows_built in Hx as (new & Hc' & Hnew).
  2:{ rewrite current_begin. exact Ht. }
  exists new. cbn [w_conn]. rewrite current_commit, Hc', current_begin. auto.
Qed.

(** The header of the reshaped price frame. *)
Lemma to_long_format_price_columns (df long : DataFrame) :
  to_long_format "price" " Price" df = Ok long ->
  df_columns long = ["symbol"; "price"; "date"].
Proof.
  unfold to_long_format, df_melt.
  destruct (index_of "Date" (df_columns df)) as [i|]; [|discriminate].
  cbn -[astype_float astype_datetime series_str_replace].
  destruct (astype_float _) as [v|]; [|discriminate].
  cbn -[astype_datetime]. 
  destruct (astype_datetime _) as [d|]; [|discriminate].
  intros [= <-]. reflexivity.
Qed.

Lemma create_if_missing_table (name : string) (columns : list (string * string))
    (w w' : world) :
  (if negb (sql_table_exists name (w_conn w)) then create_table name columns
   else mret tt : M unit) w = (Ok tt, w') ->
  current (w_conn w') !! name
    = Some (match current (w_conn w) !! name with
            | Some t => t
            | None => mk_table columns []
            end).
Proof.
  unfold sql_table_exists.
  destruct (current (w_conn w) !! name) as [t0|] eqn:Ht; cbn [negb].
  - intros H. apply mret_inv in H as [_ ->]. exact Ht.
  - intros H. apply create_table_inv in H as [Hc _]. rewrite Ht in Hc.
    rewrite Hc. apply lookup_insert_eq.
Qed.

(** X17: [populate_historic_prices] never fills the [price_change]
    column. On a database where [price_history] is missing or has the five
    declared columns, a run that returns leaves the table with those
    columns, the rows stored before, and after them the added rows, each
    with NULL under [price_change]: the frame it stores has only the
    columns symbol, price and date. Every other table is untouched. *)
Theorem populate_historic_prices_no_change (w w' : world) :
  (forall t, current (w_conn w) !! "price_history" = Some t ->
             t_columns t = [("id", "INTEGER PRIMARY KEY AUTOINCREMENT"); ("symbol", "TEXT");
                            ("date", "DATE"); ("price", "REAL"); ("price_change", "REAL")]) ->
  populate_historic_prices CRYPTOCURRENCIES API_KEY http clock strftime strptime pct_pad w
    = (Ok tt, w') ->
  exists new,
    current (w_conn w')
      = <["price_history" :=
            mk_table [("id", "INTEGER PRIMARY KEY AUTOINCREMENT"); ("symbol", "TEXT");
                      ("date", "DATE"); ("price", "REAL"); ("price_change", "REAL")]
              (match current (w_conn w) !! "price_history" with
               | Some t => t_rows t
               | None => []
               end ++ new)]> (current (w_conn w)) /\
    Forall (fun row => exists id symbol date price,
              row = [id; symbol; date; price; VNull]) new.
Proof.
  intros Hdeclared H. unfold populate_historic_prices in H.
  apply mbind_inv in H as (ex & w0 & He & H). apply table_exists_inv in He as [-> ->].
  apply mbind_inv in H as (fresh & w1 & Hg & H).
  apply guard_frame in Hg as (Hc1 & _ & Hskip).
  destruct fresh.
  { injection H as <-. cbn [w_conn]. rewrite Hc1. exists []. split; [|constructor].
    specialize (Hskip eq_refl). unfold sql_table_exists in Hskip.
    destruct (current (w_conn w) !! "price_history") as [t|] eqn:Ht; [|discriminate].
    rewrite app_nil_r, <- (Hdeclared t eq_refl). symmetry. apply insert_id.
    rewrite Ht. now destruct t. }
  clear Hskip.
  apply mbind_inv in H as (df & w2 & Hf & H).
  apply (keeps_db_at _ _ _ _ (get_historic_prices_keeps_db _ _ _ _ _ _ _)) in Hf.
  apply mbind_inv in H as (ex & w3 & He & H). apply table_exists_inv in He as [-> ->].
  apply mbind_inv in H as ([] & w3 & Hcr & H).
  pose proof (create_if_missing_table _ _ _ _ Hcr) as Ht3.
  apply create_if_missing in Hcr as [Hc3 _].
  apply mbind_inv in H as (long & w4 & Hl & H). apply lift_inv in Hl as [Hlong ->].
  apply to_long_format_price_columns in Hlong.
  eapply to_sql_append_built in H as (new & Hc' & Hnew); [|exact Ht3].
  rewrite Hf, Hc1 in *. rewrite Hlong in Hnew.
  set (columns := [("id", "INTEGER PRIMARY KEY AUTOINCREMENT"); ("symbol", "TEXT");
                   ("date", "DATE"); ("price", "REAL"); ("price_change", "REAL")]) in *.
  assert (Hcols : t_columns (match current (w_conn w) !! "price_history" with
                             | Some t => t
                             | None => mk_table columns []
                             end) = columns).
  { destruct (current (w_conn w) !! "price_history") as [t|] eqn:Ht;
      [now apply Hdeclared | reflexivity]. }
  rewrite Hcols in *.
  exists new. split.
  - rewrite Hc', Hc3. f_equal. f_equal.
    destruct (current (w_conn w) !! "price_history"); reflexivity.
  - eapply List.Forall_impl; [|exact Hnew].
    intros row (t' & vals & Ht' & Hlen & ->).
    unfold build_row, enumerate. rewrite Ht'. unfold columns.
    destruct vals as [|s [|p [|d [|]]]]; try discriminate Hlen.
    cbn. destruct s, p, d; eauto.
Qed.

End PriceHistory.

(** X17 on the stale database: the two rows added for BTC, its price and
    its change, both have NULL under [price_change]. *)
Lemma populate_historic_prices_no_change_witness :
  exists w' new,
    populate_historic_prices ["BTC"] "k" http_ok clock_2023 iso_strftime iso_strptime true
      stale_world = (Ok tt, w') /\
    rows_of "price_history" w' = Some (t_rows stale_price_history ++ new) /\
    length new = 2%nat /\
    Forall (fun row => nth 4 row (VInt 0) = VNull) new.
Proof.
  destruct (populate_historic_prices ["BTC"] "k" http_ok clock_2023 iso_strftime
              iso_strptime true stale_world) as [[[]|e] w'] eqn:H;
    [|vm_compute in H; discriminate H].
  assert (Hd : forall t, current (w_conn stale_world) !! "price_history" = Some t ->
                         t_columns t = t_columns stale_price_history).
  { intros t Ht. vm_compute in Ht. injection Ht as <-. reflexivity. }
  destruct (populate_historic_prices_no_change _ _ _ _ _ _ _ _ _ Hd H)
    as (new & Hc & Hnew).
  assert (Hrows : rows_of "price_history" w' = Some (t_rows stale_price_history ++ new)).
  { unfold rows_of. rewrite Hc, lookup_insert_eq. reflexivity. }
  exists w', new. split; [reflexivity|]. split; [exact Hrows|]. split.
  - vm_compute in H. injection H as <-. vm_compute in Hrows.
    injection Hrows as <-. reflexivity.
  - eapply List.Forall_impl; [|exact Hnew].
    intros row (id & s & d & p & ->). reflexivity.
Defined.

(** *** The long format *)











